(** * A shallow embedding of the ledger core of the blockchain REST backend

    Sources embedded here:
    - [utils/crypto.js]                      ([CryptoUtils])
    - [models/Transaction.js], [models/Block.js], [models/Wallet.js]
    - [controllers/transactionController.js] ([createTransaction])
    - [controllers/walletController.js]      ([getWalletBalance])
    - [controllers/blockchainController.js]  ([mineBlock], [validateBlockchain],
                                              [initializeGenesis])

    JavaScript strings are modelled by Rocq strings holding their UTF-8 bytes,
    JavaScript numbers that carry money by IEEE-754 binary64 floats, integral
    numbers (block index, nonce, difficulty) by [Z], which is what the
    source's doubles hold below 2^53, a [Date] by its time value in
    milliseconds since the epoch. *)

From Stdlib Require Import ZArith List String Ascii Lia Floats DecimalString Sorted Permutation.
From stdpp Require Import base option list strings gmap.
From Equations Require Import Equations.
Import ListNotations.

Set Warnings "-inexact-float".

(** ** SHA-256 (FIPS 180-4), as computed by Node's
       [crypto.createHash('sha256').update(s).digest('hex')] *)

Module Sha256.
Local Open Scope Z_scope.

Definition w32 (x : Z) : Z := Z.land x 0xffffffff.
Definition add32 (x y : Z) : Z := w32 (x + y).
Definition rotr (n x : Z) : Z := Z.lor (Z.shiftr x n) (w32 (Z.shiftl x (32 - n))).
Definition shr (n x : Z) : Z := Z.shiftr x n.
Definition not32 (x : Z) : Z := Z.lxor x 0xffffffff.

Definition Ch (x y z : Z) : Z := Z.lxor (Z.land x y) (Z.land (not32 x) z).
Definition Maj (x y z : Z) : Z :=
  Z.lxor (Z.lxor (Z.land x y) (Z.land x z)) (Z.land y z).
Definition bigSigma0 (x : Z) : Z := Z.lxor (Z.lxor (rotr 2 x) (rotr 13 x)) (rotr 22 x).
Definition bigSigma1 (x : Z) : Z := Z.lxor (Z.lxor (rotr 6 x) (rotr 11 x)) (rotr 25 x).
Definition smallSigma0 (x : Z) : Z := Z.lxor (Z.lxor (rotr 7 x) (rotr 18 x)) (shr 3 x).
Definition smallSigma1 (x : Z) : Z := Z.lxor (Z.lxor (rotr 17 x) (rotr 19 x)) (shr 10 x).

(** The round constants are the first 32 bits of the fractional parts of the
    cube roots of the first 64 primes, the initial registers those of the
    square roots of the first 8. *)
Definition isPrime (n : nat) : bool :=
  forallb (fun d => negb (Nat.eqb (Nat.modulo n d) 0)) (seq 2 (n - 2)).
Definition primes : list Z := map Z.of_nat (List.filter isPrime (seq 2 310)).

Fixpoint cbrtSearch (fuel : nat) (lo hi x : Z) : Z :=
  match fuel with
  | O => lo
  | S fuel' =>
      if hi - lo <=? 1 then lo
      else let mid := (lo + hi) / 2 in
           if mid * mid * mid <=? x then cbrtSearch fuel' mid hi x
           else cbrtSearch fuel' lo mid x
  end.
Definition fracCbrt32 (p : Z) : Z := w32 (cbrtSearch 64 0 (2 ^ 36) (p * 2 ^ 96)).
Definition fracSqrt32 (p : Z) : Z := w32 (Z.sqrt (p * 2 ^ 64)).

Definition K : list Z := Eval vm_compute in map fracCbrt32 primes.

(** The eight working registers. *)
Record regs := Regs { ra : Z; rb : Z; rc : Z; rd : Z; re : Z; rf : Z; rg : Z; rh : Z }.

Definition H0 : regs :=
  Eval vm_compute in
    match map fracSqrt32 (firstn 8 primes) with
    | [a; b; c; d; e; f; g; h] => Regs a b c d e f g h
    | _ => Regs 0 0 0 0 0 0 0 0
    end.

(** Padding: a 1 bit, zeros up to 56 mod 64 bytes, then the bit length on 8 bytes. *)
Definition be_bytes (n : nat) (x : Z) : list Z :=
  map (fun i => Z.land (Z.shiftr x (8 * Z.of_nat i)) 0xff) (rev (seq 0 n)).

Definition pad (msg : list Z) : list Z :=
  let len := Z.of_nat (length msg) in
  let k := (55 - len) mod 64 in
  msg ++ [0x80] ++ repeat 0 (Z.to_nat k) ++ be_bytes 8 (8 * len).

Fixpoint words (bs : list Z) : list Z :=
  match bs with
  | b0 :: b1 :: b2 :: b3 :: rest =>
      (Z.lor (Z.shiftl b0 24) (Z.lor (Z.shiftl b1 16) (Z.lor (Z.shiftl b2 8) b3))) :: words rest
  | _ => []
  end.

Fixpoint blocks (fuel : nat) (ws : list Z) : list (list Z) :=
  match fuel, ws with
  | S f, _ :: _ => firstn 16 ws :: blocks f (skipn 16 ws)
  | _, _ => []
  end.

(** Message schedule: [sched] holds W(t-1), W(t-2), ..., W(0), newest first. *)
Fixpoint extend (n : nat) (sched : list Z) : list Z :=
  match n with
  | O => sched
  | S n' =>
      let wt := add32 (add32 (smallSigma1 (nth 1 sched 0)) (nth 6 sched 0))
                      (add32 (smallSigma0 (nth 14 sched 0)) (nth 15 sched 0)) in
      extend n' (wt :: sched)
  end.

Definition schedule (block : list Z) : list Z := rev (extend 48 (rev block)).

Definition round (r : regs) (kw : Z * Z) : regs :=
  let t1 := add32 (add32 (add32 (rh r) (bigSigma1 (re r))) (Ch (re r) (rf r) (rg r)))
                  (add32 (fst kw) (snd kw)) in
  let t2 := add32 (bigSigma0 (ra r)) (Maj (ra r) (rb r) (rc r)) in
  Regs (add32 t1 t2) (ra r) (rb r) (rc r) (add32 (rd r) t1) (re r) (rf r) (rg r).

Definition compress (h : regs) (block : list Z) : regs :=
  let r := fold_left round (combine K (schedule block)) h in
  Regs (add32 (ra h) (ra r)) (add32 (rb h) (rb r)) (add32 (rc h) (rc r)) (add32 (rd h) (rd r))
       (add32 (re h) (re r)) (add32 (rf h) (rf r)) (add32 (rg h) (rg r)) (add32 (rh h) (rh r)).

Definition hexdigit (d : Z) : ascii :=
  nth (Z.to_nat (Z.land d 15)) (list_ascii_of_string "0123456789abcdef") "0"%char.

Definition hex8 (x : Z) (tail : string) : string :=
  String (hexdigit (Z.shiftr x 28)) (String (hexdigit (Z.shiftr x 24))
 (String (hexdigit (Z.shiftr x 20)) (String (hexdigit (Z.shiftr x 16))
 (String (hexdigit (Z.shiftr x 12)) (String (hexdigit (Z.shiftr x 8))
 (String (hexdigit (Z.shiftr x 4))  (String (hexdigit x) tail))))))).

Definition hex (r : regs) : string :=
  hex8 (ra r) (hex8 (rb r) (hex8 (rc r) (hex8 (rd r)
 (hex8 (re r) (hex8 (rf r) (hex8 (rg r) (hex8 (rh r) EmptyString))))))).

Definition bytes_of_string (s : string) : list Z :=
  map (fun c => Z.of_N (N_of_ascii c)) (list_ascii_of_string s).

Definition digest (s : string) : string :=
  let ws := words (pad (bytes_of_string s)) in
  hex (fold_left compress (blocks (length ws) ws) H0).

End Sha256.

Definition sha256 : string -> string := Sha256.digest.

(** Digests are only ever evaluated by [vm_compute]; everywhere else [sha256]
    is treated as an uninterpreted function. *)
Global Opaque sha256.

(** ** The JavaScript runtime *)

(** A call either returns a value or throws. *)
Inductive JsError :=
| RangeError (msg : string)
| CryptoError (msg : string)
| ValidationError (path : string)
| DuplicateKeyError (key : string).

Inductive JsResult (A : Type) :=
| Returned (a : A)
| Threw (e : JsError).
Arguments Returned {A} a.
Arguments Threw {A} e.

Module JS.
Local Open Scope Z_scope.

(** [String(n)] / template-literal interpolation of an integral number. *)
Definition Z_toString (n : Z) : string := NilZero.string_of_int (Z.to_int n).

(** [a || b] on strings: the empty string is falsy; an index past the end of
    an array reads [undefined], which is falsy too. *)
Definition orElse (a : option string) (b : string) : string :=
  match a with
  | Some (String c s) => String c s
  | _ => b
  end.

(** [n] copies of [s], one after the other. *)
Fixpoint replicate_string (n : nat) (s : string) : string :=
  match n with
  | O => EmptyString
  | S n' => s +:+ replicate_string n' s
  end.

(** [s.repeat(count)]: a negative count throws the RangeError whose message
    names the count. The engine's bound on the length of a string, far above
    the 64 characters of a digest, is not modelled. *)
Definition String_repeat (s : string) (count : Z) : JsResult string :=
  if count <? 0 then Threw (RangeError ("Invalid count value: " +:+ Z_toString count))
  else Returned (replicate_string (Z.to_nat count) s).

(** [s.startsWith(t)] *)
Definition startsWith (s t : string) : bool := String.prefix t s.

(** [String.prototype.padStart(n, '0')] on a decimal rendering. *)
Definition zeroPad (width : nat) (n : Z) : string :=
  let s := Z_toString n in
  replicate_string (width - String.length s) "0" +:+ s.

(** Calendar fields of a time value (milliseconds since 1970-01-01T00:00:00Z),
    in UTC: ECMAScript's Day, TimeWithinDay, YearFromTime, MonthFromTime,
    DateFromTime, WeekDay. *)
Definition msPerDay : Z := 86400000.
Definition Day (t : Z) : Z := t / msPerDay.
Definition TimeWithinDay (t : Z) : Z := t mod msPerDay.

Record civil := Civil { year : Z; month : Z; mday : Z }.

Definition civil_of_days (days : Z) : civil :=
  let z := days + 719468 in
  let era := z / 146097 in
  let doe := z - era * 146097 in
  let yoe := (doe - doe / 1460 + doe / 36524 - doe / 146096) / 365 in
  let doy := doe - (365 * yoe + yoe / 4 - yoe / 100) in
  let mp := (5 * doy + 2) / 153 in
  let d := doy - (153 * mp + 2) / 5 + 1 in
  let m := if mp <? 10 then mp + 3 else mp - 9 in
  let y := yoe + era * 400 + (if m <=? 2 then 1 else 0) in
  Civil y m d.

Definition WeekDay (t : Z) : Z := (Day t + 4) mod 7.

Definition HourFromTime (t : Z) : Z := TimeWithinDay t / 3600000.
Definition MinFromTime (t : Z) : Z := (TimeWithinDay t / 60000) mod 60.
Definition SecFromTime (t : Z) : Z := (TimeWithinDay t / 1000) mod 60.
Definition msFromTime (t : Z) : Z := TimeWithinDay t mod 1000.

(** [Date.prototype.toISOString] (time-zone independent). *)
Definition isoYear (y : Z) : string :=
  if (0 <=? y) && (y <=? 9999) then zeroPad 4 y
  else if y <? 0 then "-" +:+ zeroPad 6 (- y)
  else "+" +:+ zeroPad 6 y.

Definition toISOString (t : Z) : string :=
  let c := civil_of_days (Day t) in
  isoYear (year c) +:+ "-" +:+ zeroPad 2 (month c) +:+ "-" +:+ zeroPad 2 (mday c) +:+ "T"
  +:+ zeroPad 2 (HourFromTime t) +:+ ":" +:+ zeroPad 2 (MinFromTime t) +:+ ":"
  +:+ zeroPad 2 (SecFromTime t) +:+ "." +:+ zeroPad 3 (msFromTime t) +:+ "Z".

(** [Date.prototype.toString] in a process whose local time zone is UTC. *)
Definition dayName (d : Z) : string :=
  nth (Z.to_nat d) ["Sun"; "Mon"; "Tue"; "Wed"; "Thu"; "Fri"; "Sat"] "".
Definition monthName (m : Z) : string :=
  nth (Z.to_nat (m - 1))
      ["Jan"; "Feb"; "Mar"; "Apr"; "May"; "Jun"; "Jul"; "Aug"; "Sep"; "Oct"; "Nov"; "Dec"] "".

Definition toStringYear (y : Z) : string :=
  if y <? 0 then "-" +:+ zeroPad 4 (- y) else zeroPad 4 y.

Definition toString_UTC (t : Z) : string :=
  let c := civil_of_days (Day t) in
  dayName (WeekDay t) +:+ " " +:+ monthName (month c) +:+ " " +:+ zeroPad 2 (mday c) +:+ " "
  +:+ toStringYear (year c) +:+ " " +:+ zeroPad 2 (HourFromTime t) +:+ ":"
  +:+ zeroPad 2 (MinFromTime t) +:+ ":" +:+ zeroPad 2 (SecFromTime t)
  +:+ " GMT+0000 (Coordinated Universal Time)".

End JS.

(** What the embedding takes from the platform without modelling it bit for
    bit: the rendering of a double, the local-time rendering of a [Date], and
    the RSA primitives of Node's [crypto] ([sign.sign] and [verify.verify],
    either of which throws on key material it cannot parse). *)
Record Runtime := {
  Number_toString : float -> string;
  Date_toString : Z -> string;
  Sign_sign : string -> string -> JsResult string;
  Verify_verify : string -> string -> string -> JsResult bool
}.

(** ** [utils/crypto.js]: class [CryptoUtils] *)

Module CryptoUtils.

(** One pass of the [for (let i = 0; i < hashes.length; i += 2)] loop of
    [calculateMerkleRoot]: [right = hashes[i + 1] || left]. *)
Fixpoint pairUp (hashes : list string) : list string :=
  match hashes with
  | [] => []
  | left_ :: rest =>
      let right_ := JS.orElse (head rest) left_ in
      sha256 (left_ +:+ right_) :: match rest with
                                   | [] => []
                                   | _ :: rest' => pairUp rest'
                                   end
  end.

Equations? calculateMerkleRoot (hashes : list string) : string by wf (length hashes) lt :=
calculateMerkleRoot [] := sha256 "";
calculateMerkleRoot [h] := h;
calculateMerkleRoot (h1 :: h2 :: rest) := calculateMerkleRoot (pairUp (h1 :: h2 :: rest)).
Proof.
  assert (H : forall n l, length l <= n -> length (pairUp l) <= length l).
  { induction n as [|n IH]; intros [|a [|b l]] Hl; simpl in *; try lia.
    specialize (IH l). lia. }
  specialize (H (length rest) rest). lia.
Qed.

(** [generateAddress]: the first 40 hex characters of the digest of the key. *)
Definition generateAddress (publicKey : string) : string :=
  String.substring 0 40 (sha256 publicKey).

Definition isHexChar (c : ascii) : bool :=
  let n := nat_of_ascii c in
  ((48 <=? n) && (n <=? 57)) || ((97 <=? n) && (n <=? 102)) || ((65 <=? n) && (n <=? 70)).

(** [isValidHash]: /^[a-fA-F0-9]{64}$/, [isValidAddress]: /^[a-fA-F0-9]{40}$/ *)
Definition isValidHash (h : string) : bool :=
  (String.length h =? 64) && forallb isHexChar (list_ascii_of_string h).
Definition isValidAddress (a : string) : bool :=
  (String.length a =? 40) && forallb isHexChar (list_ascii_of_string a).

Section WithRuntime.
Context (rt : Runtime).

Definition signData (data privateKey : string) : JsResult string :=
  Sign_sign rt data privateKey.

(** [verifySignature]: the whole body sits in [try { ... } catch { return false }]. *)
Definition verifySignature (data signature publicKey : string) : JsResult bool :=
  match Verify_verify rt data publicKey signature with
  | Returned b => Returned b
  | Threw _ => Returned false
  end.

Definition calculateBlockHash
    (index : Z) (previousHash : string) (timestamp : Z) (merkleRoot : string) (nonce : Z)
  : string :=
  sha256 (JS.Z_toString index +:+ previousHash +:+ Date_toString rt timestamp
          +:+ merkleRoot +:+ JS.Z_toString nonce).

(** The [do { nonce++; hash = ... } while (!hash.startsWith(target))] loop,
    run for at most [fuel] iterations; [None] when it has not left the loop by
    then. *)
Fixpoint mineLoop (fuel : nat) (index : Z) (previousHash : string) (timestamp : Z)
    (merkleRoot target : string) (nonce : Z) : option (string * Z) :=
  match fuel with
  | O => None
  | S fuel' =>
      let nonce := (nonce + 1)%Z in
      let hash := calculateBlockHash index previousHash timestamp merkleRoot nonce in
      if JS.startsWith hash target then Some (hash, nonce)
      else mineLoop fuel' index previousHash timestamp merkleRoot target nonce
  end.

Definition mineBlock (fuel : nat)
    (index : Z) (previousHash : string) (timestamp : Z) (merkleRoot : string) (difficulty : Z)
  : option (JsResult (string * Z)) :=
  match JS.String_repeat "0" difficulty with
  | Threw e => Some (Threw e)
  | Returned target =>
      Returned <$> mineLoop fuel index previousHash timestamp merkleRoot target 0
  end.

Definition createTransactionHash
    (fromWallet toWallet : string) (amount : float) (timestamp : Z) (nonce : Z) : string :=
  sha256 (fromWallet +:+ toWallet +:+ Number_toString rt amount
          +:+ Date_toString rt timestamp +:+ JS.Z_toString nonce).

End WithRuntime.
End CryptoUtils.

(** ** The Mongoose models: [models/Transaction.js], [models/Block.js],
       [models/Wallet.js]

    An [ObjectId] is modelled by a natural number. Stored documents are
    assumed to satisfy their schema; the validators written out below are the
    ones a write of this code can trip: those of a transaction built from a
    request, the [min: 0] of a wallet balance and the [unique] indexes. The
    records hold the fields the schemas declare; the [createdAt] and
    [updatedAt] stamps that [timestamps: true] adds at each save are left
    out, and every stored transaction carries a [timestamp], as every row
    written by [createTransaction] does. *)

Inductive TxStatus := pending | confirmed | failed.

Module Transaction.
Record t := mk {
  _id : nat;
  userId : string;
  fromWallet : string;
  toWallet : string;
  amount : float;
  fee : float;
  signature : string;
  timestamp : Z;
  status : TxStatus;
  blockId : option nat;
  hash : string
}.

(** virtual [totalAmount] *)
Definition totalAmount (tx : t) : float := PrimFloat.add (amount tx) (fee tx).

Definition set_status (s : TxStatus) (tx : t) : t :=
  mk (_id tx) (userId tx) (fromWallet tx) (toWallet tx) (amount tx) (fee tx) (signature tx)
     (timestamp tx) s (blockId tx) (hash tx).
Definition set_blockId (b : option nat) (tx : t) : t :=
  mk (_id tx) (userId tx) (fromWallet tx) (toWallet tx) (amount tx) (fee tx) (signature tx)
     (timestamp tx) (status tx) b (hash tx).

Definition isPending (tx : t) : bool :=
  match status tx with pending => true | _ => false end.
Definition isConfirmed (tx : t) : bool :=
  match status tx with confirmed => true | _ => false end.
End Transaction.

Module Block.
Record t := mk {
  _id : nat;
  index : Z;
  timestamp : Z;
  transactions : list nat;
  transactionCount : Z;
  previousHash : string;
  hash : string;
  nonce : Z;
  merkleRoot : string;
  difficulty : Z
}.

(** virtual [isGenesis] *)
Definition isGenesis (b : t) : bool := (index b =? 0)%Z.

(** method [addTransaction] *)
Definition addTransaction (transactionId : nat) (b : t) : t :=
  let txs := transactions b ++ [transactionId] in
  mk (_id b) (index b) (timestamp b) txs (Z.of_nat (length txs)) (previousHash b) (hash b)
     (nonce b) (merkleRoot b) (difficulty b).
End Block.

Module Wallet.
Record t := mk {
  userId : string;
  address : string;
  publicKey : string;
  privateKey : string;
  balance : float
}.

Definition set_balance (b : float) (w : t) : t :=
  mk (userId w) (address w) (publicKey w) (privateKey w) b.

(** method [canSpend]: [this.balance >= amount] *)
Definition canSpend (w : t) (amount : float) : bool := PrimFloat.leb amount (balance w).
End Wallet.

(** ** The database and the effects of a request handler *)

Record DB := mkDB {
  wallets : gmap string Wallet.t;
  transactions : list Transaction.t;
  blocks : list Block.t;
  nextId : nat
}.

Definition set_wallets (f : gmap string Wallet.t -> gmap string Wallet.t) (db : DB) : DB :=
  mkDB (f (wallets db)) (transactions db) (blocks db) (nextId db).
Definition set_transactions (f : list Transaction.t -> list Transaction.t) (db : DB) : DB :=
  mkDB (wallets db) (f (transactions db)) (blocks db) (nextId db).
Definition set_blocks (f : list Block.t -> list Block.t) (db : DB) : DB :=
  mkDB (wallets db) (transactions db) (f (blocks db)) (nextId db).

(** A handler threads the database, may throw, and (for the proof-of-work
    search only) may fail to return within the fuel it was given: [None].
    A throw keeps the writes made before it: nothing here rolls back. *)
Definition M (A : Type) : Type := DB -> option (JsResult A * DB).

Definition ret {A} (a : A) : M A := fun db => Some (Returned a, db).
Definition throw {A} (e : JsError) : M A := fun db => Some (Threw e, db).
Definition bind {A B} (m : M A) (k : A -> M B) : M B :=
  fun db =>
    match m db with
    | Some (Returned a, db') => k a db'
    | Some (Threw e, db') => Some (Threw e, db')
    | None => None
    end.
Definition lift {A} (r : JsResult A) : M A := fun db => Some (r, db).
Definition liftFuel {A} (r : option (JsResult A)) : M A :=
  fun db => match r with Some x => Some (x, db) | None => None end.
Definition get : M DB := fun db => Some (Returned db, db).
Definition modify (f : DB -> DB) : M unit := fun db => Some (Returned tt, f db).
Definition catch {A} (m : M A) (h : JsError -> M A) : M A :=
  fun db =>
    match m db with
    | Some (Threw e, db') => h e db'
    | r => r
    end.

Notation "'do' x <- m ; k" := (bind m (fun x => k))
  (at level 10, x name, m at level 100, k at level 200).
Notation "'do_' m ; k" := (bind m (fun _ => k))
  (at level 10, m at level 100, k at level 200).

(** Stable sort by an integer key, ascending: [.sort({ key: 1 })]. *)
Fixpoint insertBy {A} (key : A -> Z) (x : A) (l : list A) : list A :=
  match l with
  | [] => [x]
  | y :: l' => if (key x <? key y)%Z then x :: y :: l' else y :: insertBy key x l'
  end.
Definition sortBy {A} (key : A -> Z) (l : list A) : list A :=
  fold_left (fun acc x => insertBy key x acc) l [].

(** [new Model({...})] draws a fresh [_id]. *)
Definition newObjectId : M nat :=
  do db <- get;
  do_ modify (fun db => mkDB (wallets db) (transactions db) (blocks db) (S (nextId db)));
  ret (nextId db).

Module TransactionModel.
(** [this.save()] of a loaded document: the row with its [_id] is rewritten. *)
Definition save (tx : Transaction.t) : M unit :=
  modify (set_transactions
            (map (fun row => if Nat.eqb (Transaction._id row) (Transaction._id tx)
                             then tx else row))).

(** The validators of the schema on a new document: the [required] strings
    are not empty, [amount] is at least its [min] of 0.00000001 and [fee] at
    least 0. *)
Definition passesSchema (tx : Transaction.t) : bool :=
  negb (String.eqb (Transaction.userId tx) "")
  && negb (String.eqb (Transaction.fromWallet tx) "")
  && negb (String.eqb (Transaction.toWallet tx) "")
  && negb (String.eqb (Transaction.signature tx) "")
  && negb (String.eqb (Transaction.hash tx) "")
  && PrimFloat.leb 0.00000001 (Transaction.amount tx)
  && PrimFloat.leb 0 (Transaction.fee tx).

(** [new Transaction({...}).save()]: validation first, then the [unique]
    index on [hash]. *)
Definition insert (tx : Transaction.t) : M unit :=
  if negb (passesSchema tx) then throw (ValidationError "Transaction")
  else
    do db <- get;
    if existsb (fun row => String.eqb (Transaction.hash row) (Transaction.hash tx))
               (transactions db)
    then throw (DuplicateKeyError "hash")
    else modify (set_transactions (fun rows => rows ++ [tx])).

Definition confirm (tx : Transaction.t) (blockId : nat) : M Transaction.t :=
  let tx' := Transaction.set_blockId (Some blockId) (Transaction.set_status confirmed tx) in
  do_ save tx'; ret tx'.

Definition fail (tx : Transaction.t) : M Transaction.t :=
  let tx' := Transaction.set_status failed tx in
  do_ save tx'; ret tx'.

Definition getPending : M (list Transaction.t) :=
  do db <- get;
  ret (sortBy Transaction.timestamp (List.filter Transaction.isPending (transactions db))).

Definition findById (id : nat) : M (option Transaction.t) :=
  do db <- get;
  ret (find (fun row => Nat.eqb (Transaction._id row) id) (transactions db)).
End TransactionModel.

Module WalletModel.
Definition findOne (address : string) : M (option Wallet.t) :=
  do db <- get; ret (wallets db !! address).

(** [this.save()]: the schema's [min: 0] on [balance] rejects the write. *)
Definition save (w : Wallet.t) : M unit :=
  if PrimFloat.leb 0 (Wallet.balance w)
  then modify (set_wallets (fun ws => <[Wallet.address w := w]> ws))
  else throw (ValidationError "balance").

(** method [updateBalance]: [this.balance += amount; return this.save()] *)
Definition updateBalance (w : Wallet.t) (amount : float) : M unit :=
  save (Wallet.set_balance (PrimFloat.add (Wallet.balance w) amount) w).
End WalletModel.

Module BlockModel.
(** static [getLatest]: [findOne().sort({ index: -1 })] *)
Definition latestOf (bs : list Block.t) : option Block.t :=
  fold_left (fun best b =>
               match best with
               | None => Some b
               | Some b0 => if (Block.index b0 <? Block.index b)%Z then Some b else Some b0
               end) bs None.
Definition getLatest : M (option Block.t) :=
  do db <- get; ret (latestOf (blocks db)).

(** static [getByIndex] and [getGenesis] *)
Definition getByIndex (index : Z) : M (option Block.t) :=
  do db <- get; ret (find (fun b => (Block.index b =? index)%Z) (blocks db)).
Definition getGenesis : M (option Block.t) := getByIndex 0.

(** [new Block({...}).save()]: the [unique] indexes on [index] and [hash]. *)
Definition save (b : Block.t) : M unit :=
  do db <- get;
  if existsb (fun row => (Block.index row =? Block.index b)%Z) (blocks db)
  then throw (DuplicateKeyError "index")
  else if existsb (fun row => String.eqb (Block.hash row) (Block.hash b)) (blocks db)
  then throw (DuplicateKeyError "hash")
  else modify (set_blocks (fun rows => rows ++ [b])).
End BlockModel.

(** ** [controllers/blockchainController.js] *)

Inductive MineResponse :=
| MineOk (block : Block.t) (transactionsProcessed : nat)
| MineError (httpStatus : Z) (error : string).

(** One message of a block's [errors] array in [validateBlockchain]. *)
Inductive ValidationIssue :=
| InvalidBlockIndex (expected got : Z)
| InvalidPreviousHash (expected got : string)
| InvalidBlockHash (expected got : string)
| InvalidMerkleRoot (expected got : string)
| InvalidTransactionSignature (txHash : string).

Record BlockErrors := mkBlockErrors {
  blockIndex : Z;
  blockHash : string;
  errors : list ValidationIssue
}.

(** The [validation] object of the answer of [validateBlockchain]; the answer
    on an empty collection has neither [totalBlocks] nor [validatedBlocks]. *)
Record ValidationReport := mkReport {
  isValid : bool;
  totalBlocks : option nat;
  validatedBlocks : option nat;
  validationErrors : list BlockErrors;
  message : string
}.

Module BlockchainController.

(** The genesis sentinel written out in [mineBlock] and in
    [initializeGenesis], and the hard-coded genesis hash. *)
Definition zeroHash : string :=
  "0000000000000000000000000000000000000000000000000000000000000000".
Definition genesisHash : string :=
  "000000000019d6689c085ae165831e934ff763ae46a2a6c172b3f1b60a8ce26f".
(** [new Date('2024-01-01T00:00:00.000Z')] *)
Definition genesisTimestamp : Z := 1704067200000.

Section WithRuntime.
Context (rt : Runtime).

(** The signed payload as [mineBlock] and [validateBlockchain] rebuild it. *)
Definition transactionData (tx : Transaction.t) : string :=
  Transaction.fromWallet tx +:+ Transaction.toWallet tx
  +:+ Number_toString rt (Transaction.amount tx) +:+ Number_toString rt (Transaction.fee tx)
  +:+ JS.toISOString (Transaction.timestamp tx).

(** The admission loop of [mineBlock] (source lines 198-216). *)
Fixpoint selectValid (pendingTransactions : list Transaction.t) : M (list Transaction.t) :=
  match pendingTransactions with
  | [] => ret []
  | tx :: rest =>
      do sourceWallet <- WalletModel.findOne (Transaction.fromWallet tx);
      do destinationWallet <- WalletModel.findOne (Transaction.toWallet tx);
      do keep <-
        match sourceWallet, destinationWallet with
        | Some source, Some _ =>
            if Wallet.canSpend source (PrimFloat.add (Transaction.amount tx) (Transaction.fee tx))
            then
              do isValidSignature <-
                lift (CryptoUtils.verifySignature rt (transactionData tx)
                        (Transaction.signature tx) (Wallet.publicKey source));
              if (isValidSignature : bool) then ret true
              else do_ TransactionModel.fail tx; ret false
            else do_ TransactionModel.fail tx; ret false
        | _, _ => do_ TransactionModel.fail tx; ret false
        end;
      do validRest <- selectValid rest;
      ret (if (keep : bool) then tx :: validRest else validRest)
  end.

(** The confirmation loop of [mineBlock] (source lines 251-265). *)
Fixpoint commitLoop (blockId : nat) (validTransactions : list Transaction.t) : M unit :=
  match validTransactions with
  | [] => ret tt
  | tx :: rest =>
      do_ TransactionModel.confirm tx blockId;
      do sourceWallet <- WalletModel.findOne (Transaction.fromWallet tx);
      do destinationWallet <- WalletModel.findOne (Transaction.toWallet tx);
      do_ match sourceWallet with
          | Some w => WalletModel.updateBalance w
                        (PrimFloat.opp (PrimFloat.add (Transaction.amount tx) (Transaction.fee tx)))
          | None => ret tt
          end;
      do_ match destinationWallet with
          | Some w => WalletModel.updateBalance w (Transaction.amount tx)
          | None => ret tt
          end;
      commitLoop blockId rest
  end.

(** [parseInt(process.env.MINING_DIFFICULTY) || 4]: [None] is [NaN]. *)
Definition miningDifficulty (env : option Z) : Z :=
  match env with
  | Some d => if (d =? 0)%Z then 4%Z else d
  | None => 4%Z
  end.

(** The body of the [try] of [mineBlock]; [now] is the [new Date()] it reads,
    [fuel] bounds the proof-of-work search. *)
Definition mineBlockBody (fuel : nat) (now : Z) (env : option Z) : M MineResponse :=
  do pendingTransactions <- TransactionModel.getPending;
  if Nat.eqb (length pendingTransactions) 0
  then ret (MineError 400 "No pending transactions")
  else
    do latestBlock <- BlockModel.getLatest;
    let newIndex := match latestBlock with Some b => (Block.index b + 1)%Z | None => 0%Z end in
    let previousHash := match latestBlock with Some b => Block.hash b | None => zeroHash end in
    do validTransactions <- selectValid pendingTransactions;
    if Nat.eqb (length validTransactions) 0
    then ret (MineError 400 "No valid transactions")
    else
      let transactionHashes := map Transaction.hash validTransactions in
      let merkleRoot := CryptoUtils.calculateMerkleRoot transactionHashes in
      let timestamp := now in
      let difficulty := miningDifficulty env in
      do miningResult <-
        liftFuel (CryptoUtils.mineBlock rt fuel newIndex previousHash timestamp merkleRoot difficulty);
      do id <- newObjectId;
      let newBlock :=
        Block.mk id newIndex timestamp (map Transaction._id validTransactions)
                 (Z.of_nat (length validTransactions)) previousHash
                 (fst miningResult) (snd miningResult) merkleRoot difficulty in
      do_ BlockModel.save newBlock;
      do_ commitLoop (Block._id newBlock) validTransactions;
      ret (MineOk newBlock (length validTransactions)).

(** [mineBlock]: the [catch] turns any throw into the 500 response. *)
Definition mineBlock (fuel : nat) (now : Z) (env : option Z) (db : DB)
  : option (MineResponse * DB) :=
  match mineBlockBody fuel now env db with
  | Some (Returned r, db') => Some (r, db')
  | Some (Threw _, db') => Some (MineError 500 "Mining failed", db')
  | None => None
  end.

(** [.populate('transactions')]: the documents of the listed ids, in the
    order of the array; an id without a document is dropped. *)
Definition populate (db : DB) (ids : list nat) : list Transaction.t :=
  omap (fun id => find (fun row => Nat.eqb (Transaction._id row) id) (transactions db)) ids.

(** The per-transaction signature checks of [validateBlockchain]. *)
Definition signatureIssues (db : DB) (txs : list Transaction.t) : list ValidationIssue :=
  flat_map (fun tx =>
    match wallets db !! Transaction.fromWallet tx with
    | Some sourceWallet =>
        match CryptoUtils.verifySignature rt (transactionData tx)
                (Transaction.signature tx) (Wallet.publicKey sourceWallet) with
        | Returned true => []
        | _ => [InvalidTransactionSignature (Transaction.hash tx)]
        end
    | None => []
    end) txs.

(** The [errors] array built for [blocks[i]]. *)
Definition blockIssues (db : DB) (i : Z) (previousBlock : option Block.t) (block : Block.t)
  : list ValidationIssue :=
  let txs := populate db (Block.transactions block) in
  let calculatedHash :=
    CryptoUtils.calculateBlockHash rt (Block.index block) (Block.previousHash block)
      (Block.timestamp block) (Block.merkleRoot block) (Block.nonce block) in
  let calculatedMerkleRoot := CryptoUtils.calculateMerkleRoot (map Transaction.hash txs) in
  (if (Block.index block =? i)%Z then [] else [InvalidBlockIndex i (Block.index block)])
  ++ match previousBlock with
     | Some p => if String.eqb (Block.previousHash block) (Block.hash p) then []
                 else [InvalidPreviousHash (Block.hash p) (Block.previousHash block)]
     | None => []
     end
  ++ (if String.eqb (Block.hash block) calculatedHash then []
      else [InvalidBlockHash calculatedHash (Block.hash block)])
  ++ (if String.eqb (Block.merkleRoot block) calculatedMerkleRoot then []
      else [InvalidMerkleRoot calculatedMerkleRoot (Block.merkleRoot block)])
  ++ signatureIssues db txs.

(** The [for (let i = 0; i < blocks.length; i++)] loop. *)
Fixpoint validateLoop (db : DB) (i : Z) (previousBlock : option Block.t) (bs : list Block.t)
  : list BlockErrors :=
  match bs with
  | [] => []
  | block :: rest =>
      let errs := blockIssues db i previousBlock block in
      (match errs with
       | [] => []
       | _ :: _ => [mkBlockErrors (Block.index block) (Block.hash block) errs]
       end) ++ validateLoop db (i + 1) (Some block) rest
  end.

Definition validateBlockchain (db : DB) : ValidationReport :=
  let bs := sortBy Block.index (blocks db) in
  if Nat.eqb (length bs) 0
  then mkReport true None None [] "No blocks to validate"
  else
    let errs := validateLoop db 0 None bs in
    let valid := Nat.eqb (length errs) 0 in
    mkReport valid (Some (length bs)) (Some (length bs - length errs)) errs
      (if valid then "Blockchain is valid" else "Blockchain has validation errors").

End WithRuntime.

(** [initializeGenesis] *)
Definition genesisBlock (id : nat) : Block.t :=
  Block.mk id 0 genesisTimestamp [] 0 zeroHash genesisHash 0
           (CryptoUtils.calculateMerkleRoot []) 4.

Definition initializeGenesis : M Block.t :=
  do existingGenesis <- BlockModel.getGenesis;
  match existingGenesis with
  | Some g => ret g
  | None =>
      do id <- newObjectId;
      let g := genesisBlock id in
      do_ BlockModel.save g;
      ret g
  end.

End BlockchainController.

(** ** [controllers/transactionController.js]: [createTransaction] *)

Inductive CreateResponse :=
| Created (transaction : Transaction.t)
| CreateError (httpStatus : Z) (error : string).

Module TransactionController.
Section WithRuntime.
Context (rt : Runtime).

(** The string [createTransaction] signs (source line 71); [nonce] is the
    value drawn by [CryptoUtils.generateNonce()]. *)
Definition transactionData
    (fromWallet toWallet : string) (amount fee : float) (timestamp : Z) (nonce : Z) : string :=
  fromWallet +:+ toWallet +:+ Number_toString rt amount +:+ Number_toString rt fee
  +:+ JS.toISOString timestamp +:+ JS.Z_toString nonce.

(** The body of the [try]; [user] is [req.user.id], [fee] the body's field
    ([None]: absent, defaulting to 0.001), [now] the [new Date()] read. *)
Definition createTransactionBody
    (user fromWallet toWallet : string) (amount : float) (fee : option float)
    (privateKey : string) (now : Z) (nonce : Z) : M CreateResponse :=
  let fee := default 0.001%float fee in
  if negb (CryptoUtils.isValidAddress fromWallet) || negb (CryptoUtils.isValidAddress toWallet)
  then ret (CreateError 400 "Invalid wallet address")
  else if String.eqb fromWallet toWallet
  then ret (CreateError 400 "Invalid transaction")
  else
    do sourceWallet <- WalletModel.findOne fromWallet;
    match sourceWallet with
    | None => ret (CreateError 404 "Source wallet not found")
    | Some sourceWallet =>
        if negb (String.eqb (Wallet.userId sourceWallet) user)
        then ret (CreateError 403 "Access denied")
        else
          do destinationWallet <- WalletModel.findOne toWallet;
          match destinationWallet with
          | None => ret (CreateError 404 "Destination wallet not found")
          | Some _ =>
              let totalAmount := PrimFloat.add amount fee in
              if negb (Wallet.canSpend sourceWallet totalAmount)
              then ret (CreateError 400 "Insufficient balance")
              else
                let timestamp := now in
                let data := transactionData fromWallet toWallet amount fee timestamp nonce in
                do signature <- lift (CryptoUtils.signData rt data privateKey);
                do isValidSignature <-
                  lift (CryptoUtils.verifySignature rt data signature
                          (Wallet.publicKey sourceWallet));
                if negb isValidSignature
                then ret (CreateError 400 "Invalid signature")
                else
                  let hash :=
                    CryptoUtils.createTransactionHash rt fromWallet toWallet amount timestamp nonce in
                  do id <- newObjectId;
                  let transaction :=
                    Transaction.mk id user fromWallet toWallet amount fee signature timestamp
                                   pending None hash in
                  do_ TransactionModel.insert transaction;
                  ret (Created transaction)
          end
    end.

(** [createTransaction]: the [catch] answers 409 on a duplicate key
    ([error.code === 11000]) and 500 on anything else. *)
Definition createTransaction
    (user fromWallet toWallet : string) (amount : float) (fee : option float)
    (privateKey : string) (now : Z) (nonce : Z) (db : DB) : option (CreateResponse * DB) :=
  match createTransactionBody user fromWallet toWallet amount fee privateKey now nonce db with
  | Some (Returned r, db') => Some (r, db')
  | Some (Threw (DuplicateKeyError _), db') => Some (CreateError 409 "Duplicate transaction", db')
  | Some (Threw _, db') => Some (CreateError 500 "Failed to create transaction", db')
  | None => None
  end.

End WithRuntime.
End TransactionController.

(** ** [controllers/walletController.js]: [getWalletBalance] *)

Inductive BalanceResponse :=
| BalanceOk (calculatedBalance : float)
| BalanceError (httpStatus : Z) (error : string).

Module WalletController.

(** The [for (const tx of confirmedTransactions)] loop: a transaction to the
    wallet adds its amount, otherwise one from the wallet takes off
    [amount + fee]. *)
Definition calculatedBalance (address : string) (confirmedTransactions : list Transaction.t)
  : float :=
  fold_left (fun acc tx =>
               if String.eqb (Transaction.toWallet tx) address
               then PrimFloat.add acc (Transaction.amount tx)
               else if String.eqb (Transaction.fromWallet tx) address
               then PrimFloat.sub acc (PrimFloat.add (Transaction.amount tx) (Transaction.fee tx))
               else acc) confirmedTransactions 0%float.

(** [Transaction.find({ $or: [{fromWallet}, {toWallet}], status: 'confirmed' })] *)
Definition confirmedOf (address : string) (db : DB) : list Transaction.t :=
  List.filter (fun tx =>
                 (String.eqb (Transaction.fromWallet tx) address
                  || String.eqb (Transaction.toWallet tx) address)
                 && Transaction.isConfirmed tx) (transactions db).

(** The body of the [try]; [wallet] is [req.wallet], the document loaded by
    the ownership middleware. The answer carries the calculated balance
    (the handler formats it with [toFixed(8)]). *)
Definition getWalletBalanceBody (wallet : Wallet.t) : M BalanceResponse :=
  do db <- get;
  let confirmedTransactions := confirmedOf (Wallet.address wallet) db in
  let calculated := calculatedBalance (Wallet.address wallet) confirmedTransactions in
  do_ (if PrimFloat.ltb 0.00000001
            (PrimFloat.abs (PrimFloat.sub (Wallet.balance wallet) calculated))
       then WalletModel.save (Wallet.set_balance calculated wallet)
       else ret tt);
  ret (BalanceOk calculated).

Definition getWalletBalance (wallet : Wallet.t) (db : DB) : option (BalanceResponse * DB) :=
  match getWalletBalanceBody wallet db with
  | Some (Returned r, db') => Some (r, db')
  | Some (Threw _, db') => Some (BalanceError 500 "Failed to get balance", db')
  | None => None
  end.

End WalletController.

(** ** A runtime to evaluate the model on

    [utcRuntime] renders dates as a Node process in the UTC time zone does.
    Its signature scheme is a stand-in with the one property the ledger relies
    on: a signature verifies exactly for the payload and key it was made
    from. The hexadecimal rendering of a double is a stand-in too (injective,
    which is all the hashes and payloads use). *)
Module Toy.
Definition keyOf (pem : string) : string := String.substring 4 (String.length pem - 4) pem.
Definition sign (data privateKey : string) : JsResult string :=
  if String.prefix "PRIV" privateKey
  then Returned ("sig(" +:+ keyOf privateKey +:+ "," +:+ data +:+ ")")
  else Threw (CryptoError "unsupported private key").
Definition verify (data publicKey signature : string) : JsResult bool :=
  if String.prefix "PUB:" publicKey
  then Returned (String.eqb signature ("sig(" +:+ keyOf publicKey +:+ "," +:+ data +:+ ")"))
  else Threw (CryptoError "unsupported public key").
Definition numberToString (x : float) : string :=
  match Prim2SF x with
  | S754_zero _ => "0"
  | S754_infinity s => if s then "-Infinity" else "Infinity"
  | S754_nan => "NaN"
  | S754_finite s m e =>
      (if s then "-" else "") +:+ JS.Z_toString (Zpos m) +:+ "p" +:+ JS.Z_toString e
  end.
End Toy.

Definition utcRuntime : Runtime :=
  {| Number_toString := Toy.numberToString;
     Date_toString := JS.toString_UTC;
     Sign_sign := Toy.sign;
     Verify_verify := Toy.verify |}.

(** ** Vocabulary of the statements *)

(** The admission test of [mineBlock], read off its loop: both wallets exist,
    the sender's stored balance covers [amount + fee], the signature verifies
    against the sender's stored public key. *)
Definition eligible (rt : Runtime) (ws : gmap string Wallet.t) (tx : Transaction.t) : bool :=
  match ws !! Transaction.fromWallet tx, ws !! Transaction.toWallet tx with
  | Some source, Some _ =>
      Wallet.canSpend source (PrimFloat.add (Transaction.amount tx) (Transaction.fee tx))
      && match CryptoUtils.verifySignature rt (BlockchainController.transactionData rt tx)
                 (Transaction.signature tx) (Wallet.publicKey source) with
         | Returned b => b
         | Threw _ => false
         end
  | _, _ => false
  end.

(** The pending transactions as [Transaction.getPending()] lists them. *)
Definition pendingOf (db : DB) : list Transaction.t :=
  sortBy Transaction.timestamp (List.filter Transaction.isPending (transactions db)).

(** What a sender spends in a batch: the sum of [amount + fee] over its
    transactions, added in the order of the batch. *)
Definition spentBy (sender : string) (batch : list Transaction.t) : float :=
  fold_left (fun acc tx =>
               if String.eqb (Transaction.fromWallet tx) sender
               then PrimFloat.add acc (PrimFloat.add (Transaction.amount tx) (Transaction.fee tx))
               else acc) batch 0%float.

(** The stored row of a transaction id. *)
Definition rowOf (db : DB) (id : nat) : option Transaction.t :=
  find (fun row => Nat.eqb (Transaction._id row) id) (transactions db).

(** A transaction document after [confirm(blockId)]. *)
Definition confirmedAs (blockId : nat) (tx : Transaction.t) : Transaction.t :=
  Transaction.set_blockId (Some blockId) (Transaction.set_status confirmed tx).

(** The two balance writes of one confirmed transaction, when both pass: both
    wallets are read first, the sender is written with [amount + fee] taken
    off, then the receiver with [amount] added. *)
Definition debit (ws : gmap string Wallet.t) (tx : Transaction.t) : gmap string Wallet.t :=
  match ws !! Transaction.fromWallet tx with
  | Some w =>
      <[Wallet.address w :=
          Wallet.set_balance
            (PrimFloat.add (Wallet.balance w)
               (PrimFloat.opp (PrimFloat.add (Transaction.amount tx) (Transaction.fee tx)))) w]> ws
  | None => ws
  end.
Definition credit (read ws : gmap string Wallet.t) (tx : Transaction.t) : gmap string Wallet.t :=
  match read !! Transaction.toWallet tx with
  | Some w =>
      <[Wallet.address w :=
          Wallet.set_balance (PrimFloat.add (Wallet.balance w) (Transaction.amount tx)) w]> ws
  | None => ws
  end.
Definition settle (ws : gmap string Wallet.t) (tx : Transaction.t) : gmap string Wallet.t :=
  credit ws (debit ws tx) tx.

(** Whether the sender's, and the receiver's, balance write passes the
    [min: 0] validator; an absent wallet is not written at all. *)
Definition debitOk (ws : gmap string Wallet.t) (tx : Transaction.t) : bool :=
  match ws !! Transaction.fromWallet tx with
  | Some w =>
      PrimFloat.leb 0
        (PrimFloat.add (Wallet.balance w)
           (PrimFloat.opp (PrimFloat.add (Transaction.amount tx) (Transaction.fee tx))))
  | None => true
  end.
Definition creditOk (ws : gmap string Wallet.t) (tx : Transaction.t) : bool :=
  match ws !! Transaction.toWallet tx with
  | Some w => PrimFloat.leb 0 (PrimFloat.add (Wallet.balance w) (Transaction.amount tx))
  | None => true
  end.

(** The database after [tx.save()]. *)
Definition saved (tx : Transaction.t) (db : DB) : DB :=
  set_transactions
    (map (fun row => if Nat.eqb (Transaction._id row) (Transaction._id tx) then tx else row)) db.

(** ** Concrete ledgers *)

Module Example.
Definition alice : string := "aaaaaaaaaaaaaaaaaaaaaaaaaaaaaaaaaaaaaaaa".
Definition bob : string := "bbbbbbbbbbbbbbbbbbbbbbbbbbbbbbbbbbbbbbbb".

Definition aliceWallet : Wallet.t := Wallet.mk "u1" alice "PUB:ka" "PRIVka" 1000.
Definition bobWallet : Wallet.t := Wallet.mk "u2" bob "PUB:kb" "PRIVkb" 0.

Definition ledger0 : DB :=
  mkDB (<[alice := aliceWallet]> (<[bob := bobWallet]> ∅)) [] [] 0.

(** A pending transfer from Alice to Bob whose signature is made over the
    payload that sealing verifies. *)
Definition transfer (id : nat) (amount fee : float) (timestamp : Z) (hash : string)
  : Transaction.t :=
  let unsigned :=
    Transaction.mk id "u1" alice bob amount fee "" timestamp pending None hash in
  let signature :=
    match Toy.sign (BlockchainController.transactionData utcRuntime unsigned) "PRIVka" with
    | Returned s => s
    | Threw _ => ""
    end in
  Transaction.mk id "u1" alice bob amount fee signature timestamp pending None hash.

Definition t1 : Transaction.t := transfer 1 600 1 1700000000000 (sha256 "t1").
Definition t2 : Transaction.t := transfer 2 600 1 1700000001000 (sha256 "t2").
Definition t3 : Transaction.t := transfer 3 5 1 1700000002000 (sha256 "t3").

(** Alice holds 1000; three transfers of 601, 601 and 6 are pending. *)
Definition ledger3 : DB :=
  mkDB (wallets ledger0) [t1; t2; t3] [] 10.
End Example.

(** A ledger with one admissible pending transfer, before and after
    [initializeGenesis] and a [mineBlock] on top. *)
Module GenesisChain.
(** A ledger with one admissible pending transfer and no block yet. *)
Definition db0 : DB := mkDB (wallets Example.ledger0) [Example.t3] [] 10.

(** The ledger after [initializeGenesis], and after a [mineBlock] on top. *)
Definition db1 : DB :=
  Eval vm_compute in
    match BlockchainController.initializeGenesis db0 with
    | Some (_, db) => db
    | None => db0
    end.
Definition db2 : DB :=
  Eval vm_compute in
    match BlockchainController.mineBlock utcRuntime 100 1700000005000 (Some 1%Z) db1 with
    | Some (_, db) => db
    | None => db1
    end.
Definition block1 : Block.t :=
  Block.mk 11 1 1700000005000 [3] 1
    "000000000019d6689c085ae165831e934ff763ae46a2a6c172b3f1b60a8ce26f"
    "00eb5102e8407977c3867f0faa6645a65adb14c0c89424cba60c3a07e93ff453" 47
    "cece8a9cecfb6c7e7ee4f3346d5e2544138bfb6e33bec6042a17333a4d3180b0" 1.
End GenesisChain.

(** Order by an integer key. *)
Definition keyLe {A} (key : A -> Z) (a b : A) : Prop := (key a <= key b)%Z.

(** The database after the admission loop: each rejected transaction has been
    saved with status [failed], in turn. *)
Definition failRejected (rt : Runtime) (ws : gmap string Wallet.t)
    (pend : list Transaction.t) (db : DB) : DB :=
  fold_left (fun d tx => if eligible rt ws tx then d
                         else saved (Transaction.set_status failed tx) d) pend db.

(** The database that the confirmation loop of a successful [mineBlock]
    starts from: rejected transactions failed, the new block stored. *)
Definition beforeCommit (rt : Runtime) (db : DB) (b : Block.t) : DB :=
  let d := failRejected rt (wallets db) (pendingOf db) db in
  mkDB (wallets d) (transactions d) (blocks d ++ [b]) (S (nextId d)).

(** The wallet collection is keyed by address. *)
Definition keyed (ws : gmap string Wallet.t) : Prop :=
  forall k w, ws !! k = Some w -> Wallet.address w = k.

(** Two wallet collections hold the same wallets up to their balances. *)
Definition sameKeys (ws ws' : gmap string Wallet.t) : Prop :=
  forall k,
    match ws !! k, ws' !! k with
    | Some w, Some w' =>
        Wallet.publicKey w' = Wallet.publicKey w /\ Wallet.address w' = Wallet.address w
    | None, None => True
    | _, _ => False
    end.

(** The signature check of one stored transaction only reads what was signed
    and the sender's public key. *)
Definition sameSigned (a b : Transaction.t) : Prop :=
  Transaction.fromWallet a = Transaction.fromWallet b
  /\ Transaction.toWallet a = Transaction.toWallet b
  /\ Transaction.amount a = Transaction.amount b
  /\ Transaction.fee a = Transaction.fee b
  /\ Transaction.timestamp a = Transaction.timestamp b
  /\ Transaction.signature a = Transaction.signature b
  /\ Transaction.hash a = Transaction.hash b.

(** Stored rows that differ at most in status and block reference. *)
Definition rowsAgree (db db' : DB) : Prop :=
  forall id,
    match rowOf db id, rowOf db' id with
    | Some a, Some c => sameSigned a c
    | None, None => True
    | _, _ => False
    end.


(** A small ledger to evaluate on. *)
Module Small.
(** Two wallets keyed "a" and "b"; "a" holds 100. *)
Definition walletA : Wallet.t := Wallet.mk "u1" "a" "PUB:ka" "PRIVka" 100.
Definition walletB : Wallet.t := Wallet.mk "u2" "b" "PUB:kb" "PRIVkb" 0.
Definition ws : gmap string Wallet.t := <["a" := walletA]> (<["b" := walletB]> ∅).

(** A pending transfer from "a" to "b", signed over the sealing payload. *)
Definition transfer (id : nat) (amount fee : float) (timestamp : Z) (hash : string)
  : Transaction.t :=
  let unsigned := Transaction.mk id "u1" "a" "b" amount fee "" timestamp pending None hash in
  let signature :=
    match Toy.sign (BlockchainController.transactionData utcRuntime unsigned) "PRIVka" with
    | Returned s => s
    | Threw _ => ""
    end in
  Transaction.mk id "u1" "a" "b" amount fee signature timestamp pending None hash.

Definition s1 : Transaction.t := transfer 1 10 1 1700000000000 (sha256 "s1").
(** More than "a" holds. *)
Definition s2 : Transaction.t := transfer 2 500 1 1700000001000 (sha256 "s2").

Definition db : DB := mkDB ws [s1; s2] [] 5.
End Small.

(** ** The Merkle reduction as the specification words it *)

Module SpecMerkle.
(** "pair up sequentially; for an odd count, the last unpaired hash is paired
    with itself" *)
Fixpoint pairs (hashes : list string) : list (string * string) :=
  match hashes with
  | a :: b :: rest => (a, b) :: pairs rest
  | [a] => [(a, a)]
  | [] => []
  end.

(** "each pair is concatenated (left||right) and hashed" *)
Definition hashPair (p : string * string) : string := sha256 (fst p +:+ snd p).

Equations? compute_root (hashes : list string) : string by wf (length hashes) lt :=
compute_root [] := sha256 "";
compute_root [h] := h;
compute_root (h1 :: h2 :: rest) := compute_root (map hashPair (pairs (h1 :: h2 :: rest))).
Proof.
  rewrite length_map.
  assert (H : forall n l, length l <= n -> length (pairs l) <= length l).
  { induction n as [|n IH]; intros [|a [|b l]] Hl; simpl in *; try lia.
    specialize (IH l). lia. }
  specialize (H (length rest) rest). lia.
Qed.
End SpecMerkle.

(** Number of leading ['0'] characters of a string. *)
Fixpoint leadingZeros (s : string) : nat :=
  match s with
  | String "0" s' => S (leadingZeros s')
  | _ => O
  end.

(** * Properties *)

(** ** SHA-256 test vectors (FIPS 180-4, appendix B) *)

Example sha256_empty :
  sha256 "" = "e3b0c44298fc1c149afbf4c8996fb92427ae41e4649b934ca495991b7852b855".
Proof. vm_compute. reflexivity. Qed.

Example sha256_abc :
  sha256 "abc" = "ba7816bf8f01cfea414140de5dae2223b00361a396177a9cb410ff61f20015ad".
Proof. vm_compute. reflexivity. Qed.

Example sha256_two_blocks :
  sha256 "abcdbcdecdefdefgefghfghighijhijkijkljklmklmnlmnomnopnopq"
  = "248d6a61d20638b8e5c026930c3e6039a33ce45964ff2167f6ecedd419db06c1".
Proof. vm_compute. reflexivity. Qed.

Lemma sha256_length (s : string) : String.length (sha256 s) = 64.
Proof. with_strategy transparent [sha256] (unfold sha256). reflexivity. Qed.

Lemma sha256_nonempty (s : string) : sha256 s <> "".
Proof.
  intros H. pose proof (sha256_length s) as L. rewrite H in L. discriminate L.
Qed.

(** ** [CryptoUtils.calculateMerkleRoot] *)

Lemma orElse_nonempty (h l : string) : h <> "" -> JS.orElse (Some h) l = h.
Proof. destruct h; [congruence | reflexivity]. Qed.

Lemma orElse_self (c : string) : JS.orElse (Some c) c = c.
Proof. destruct c; reflexivity. Qed.

Lemma pairUp_pairs (hashes : list string) :
  Forall (fun h => h <> "") hashes ->
  CryptoUtils.pairUp hashes = map SpecMerkle.hashPair (SpecMerkle.pairs hashes).
Proof.
  revert hashes.
  fix IH 1. intros [|a [|b rest]] Hne.
  - reflexivity.
  - reflexivity.
  - inversion Hne as [|? ? _ Hne']; subst. inversion Hne' as [|? ? Hb Hrest]; subst.
    change (CryptoUtils.pairUp (a :: b :: rest))
      with (sha256 (a +:+ JS.orElse (Some b) a) :: CryptoUtils.pairUp rest).
    rewrite (orElse_nonempty b a Hb), (IH rest Hrest). reflexivity.
Qed.

Lemma pairUp_nonempty (hashes : list string) :
  Forall (fun h => h <> "") (CryptoUtils.pairUp hashes).
Proof.
  revert hashes. fix IH 1. intros [|a [|b rest]].
  - constructor.
  - constructor; [apply sha256_nonempty | constructor].
  - change (CryptoUtils.pairUp (a :: b :: rest))
      with (sha256 (a +:+ JS.orElse (Some b) a) :: CryptoUtils.pairUp rest).
    constructor; [apply sha256_nonempty | apply IH].
Qed.

(** C6. On a sequence of hashes (non-empty strings), [calculateMerkleRoot] is
    the specified reduction: the digest of the empty string for the empty
    sequence, the element itself for a single one, and otherwise the root of
    the sequence of digests of adjacent pairs, the last element paired with
    itself when the count is odd. *)
Theorem calculateMerkleRoot_refines_spec (hashes : list string) :
  Forall (fun h => h <> "") hashes ->
  CryptoUtils.calculateMerkleRoot hashes = SpecMerkle.compute_root hashes.
Proof.
  remember (length hashes) as n eqn:Hn.
  revert hashes Hn.
  induction n as [n IH] using lt_wf_ind. intros hashes Hn Hne.
  destruct hashes as [|h1 [|h2 rest]].
  - reflexivity.
  - reflexivity.
  - rewrite CryptoUtils.calculateMerkleRoot_equation_3, SpecMerkle.compute_root_equation_3.
    rewrite <- (pairUp_pairs _ Hne).
    eapply IH; [| reflexivity | apply pairUp_nonempty].
    subst n.
    assert (H : forall k l, length l <= k -> length (CryptoUtils.pairUp l) <= length l).
    { induction k as [|k IHk]; intros [|a [|b l]] Hl; simpl in *; try lia.
      specialize (IHk l). lia. }
    change (CryptoUtils.pairUp (h1 :: h2 :: rest))
      with (sha256 (h1 +:+ JS.orElse (Some h2) h1) :: CryptoUtils.pairUp rest).
    specialize (H (length rest) rest). simpl. lia.
Qed.

Lemma calculateMerkleRoot_refines_spec_witness :
  Forall (fun h => h <> "") ["aa"; "bb"; "cc"]
  /\ CryptoUtils.calculateMerkleRoot ["aa"; "bb"; "cc"] = SpecMerkle.compute_root ["aa"; "bb"; "cc"].
Proof.
  assert (H : Forall (fun h : string => h <> "") ["aa"; "bb"; "cc"])
    by (repeat constructor; discriminate).
  split; [exact H | exact (calculateMerkleRoot_refines_spec _ H)].
Defined.

(** C8. The root of three hashes is the root of the four obtained by
    repeating the last one. *)
Theorem calculateMerkleRoot_duplicate_last (a b c : string) :
  CryptoUtils.calculateMerkleRoot [a; b; c] = CryptoUtils.calculateMerkleRoot [a; b; c; c].
Proof.
  rewrite (CryptoUtils.calculateMerkleRoot_equation_3 a b [c]),
          (CryptoUtils.calculateMerkleRoot_equation_3 a b [c; c]).
  assert (E : CryptoUtils.pairUp [a; b; c; c] = CryptoUtils.pairUp [a; b; c]).
  { cbn [CryptoUtils.pairUp head]. rewrite orElse_self. reflexivity. }
  rewrite E. reflexivity.
Qed.

(** ** [CryptoUtils.mineBlock] and [CryptoUtils.calculateBlockHash] *)

Lemma startsWith_zeros (n : nat) (s : string) :
  JS.startsWith s (JS.replicate_string n "0") = true -> n <= leadingZeros s.
Proof.
  unfold JS.startsWith. revert s.
  induction n as [|n IH]; intros s H; [lia|].
  change (JS.replicate_string (S n) "0") with (String "0" (JS.replicate_string n "0")) in H.
  destruct s as [|c s]; cbn [String.prefix] in H; [discriminate|].
  destruct (Ascii.ascii_dec "0" c) as [Heq|]; [subst c|discriminate].
  cbn [leadingZeros]. apply IH in H. lia.
Qed.

Section MineLoop.
Context (rt : Runtime) (index : Z) (previousHash : string) (timestamp : Z)
        (merkleRoot target : string).

Let loop fuel nonce :=
  CryptoUtils.mineLoop rt fuel index previousHash timestamp merkleRoot target nonce.
Let hashAt nonce :=
  CryptoUtils.calculateBlockHash rt index previousHash timestamp merkleRoot nonce.

Lemma mineLoop_sound (fuel : nat) (start nonce : Z) (hash : string) :
  loop fuel start = Some (hash, nonce) ->
  JS.startsWith hash target = true /\ hashAt nonce = hash /\ (start < nonce)%Z.
Proof.
  subst loop hashAt. revert start.
  induction fuel as [|fuel IH]; intros start H; [discriminate|].
  cbn [CryptoUtils.mineLoop] in H. cbv zeta in H.
  destruct (JS.startsWith
              (CryptoUtils.calculateBlockHash rt index previousHash timestamp merkleRoot
                 (start + 1)%Z) target) eqn:E.
  - injection H as <- <-. repeat split; [exact E | lia].
  - apply IH in H as (? & ? & ?). repeat split; [assumption .. | lia].
Qed.

(** The search returns the first nonce above [start] whose hash meets the
    target, as soon as the fuel reaches it. *)
Lemma mineLoop_complete (fuel : nat) (start nonce : Z) :
  (start < nonce)%Z ->
  JS.startsWith (hashAt nonce) target = true ->
  (forall k, (start < k < nonce)%Z -> JS.startsWith (hashAt k) target = false) ->
  (Z.to_nat (nonce - start) <= fuel) ->
  loop fuel start = Some (hashAt nonce, nonce).
Proof.
  subst loop hashAt. revert start.
  induction fuel as [|fuel IH]; intros start Hlt Hn Hfirst Hfuel; [lia|].
  cbn [CryptoUtils.mineLoop]. cbv zeta.
  destruct (Z.eq_dec (start + 1)%Z nonce) as [->|Hne].
  - rewrite Hn. reflexivity.
  - rewrite (Hfirst (start + 1)%Z) by lia.
    apply IH; [lia | exact Hn | intros k Hk; apply Hfirst; lia | lia].
Qed.
End MineLoop.

(** C7. Whenever [mineBlock] returns a pair (hash, nonce), the hash starts
    with at least [difficulty] characters ['0'], and recomputing
    [calculateBlockHash] with the returned nonce gives the returned hash. *)
Theorem mineBlock_meets_target
    (rt : Runtime) (fuel : nat) (index : Z) (previousHash : string) (timestamp : Z)
    (merkleRoot : string) (difficulty : Z) (hash : string) (nonce : Z) :
  CryptoUtils.mineBlock rt fuel index previousHash timestamp merkleRoot difficulty
    = Some (Returned (hash, nonce)) ->
  (difficulty <= Z.of_nat (leadingZeros hash))%Z
  /\ CryptoUtils.calculateBlockHash rt index previousHash timestamp merkleRoot nonce = hash.
Proof.
  unfold CryptoUtils.mineBlock, JS.String_repeat.
  destruct (difficulty <? 0)%Z eqn:Hd; [discriminate|].
  destruct (CryptoUtils.mineLoop _ _ _ _ _ _ _ _) as [[h n]|] eqn:E; [|discriminate].
  intros H. injection H as <- <-.
  apply mineLoop_sound in E as (Hp & Hh & _).
  apply startsWith_zeros in Hp. apply Z.ltb_ge in Hd. split; [lia | exact Hh].
Qed.

Lemma mineBlock_meets_target_witness :
  CryptoUtils.mineBlock utcRuntime 2 1 BlockchainController.zeroHash
      BlockchainController.genesisTimestamp (sha256 "") 1
    = Some (Returned ("0f43cb095904ae25e3aceccf7eea2069f7680b8fb54c2a8eff1bef371d2f3cea", 2%Z))
  /\ (1 <= Z.of_nat (leadingZeros
                       "0f43cb095904ae25e3aceccf7eea2069f7680b8fb54c2a8eff1bef371d2f3cea"))%Z
  /\ CryptoUtils.calculateBlockHash utcRuntime 1 BlockchainController.zeroHash
       BlockchainController.genesisTimestamp (sha256 "") 2
     = "0f43cb095904ae25e3aceccf7eea2069f7680b8fb54c2a8eff1bef371d2f3cea".
Proof.
  assert (H : CryptoUtils.mineBlock utcRuntime 2 1 BlockchainController.zeroHash
                BlockchainController.genesisTimestamp (sha256 "") 1
              = Some (Returned
                  ("0f43cb095904ae25e3aceccf7eea2069f7680b8fb54c2a8eff1bef371d2f3cea", 2%Z)))
    by (vm_compute; reflexivity).
  split; [exact H | exact (mineBlock_meets_target _ _ _ _ _ _ _ _ _ H)].
Defined.

(** ** [CryptoUtils.verifySignature] *)

(** C9. [verifySignature] returns a boolean on every input and never throws;
    the boolean is [true] only when the platform's verification returned
    [true], so it is [false] whenever that verification threw (unparseable
    signature or key) or failed. *)
Theorem verifySignature_never_throws (rt : Runtime) (data signature publicKey : string) :
  exists b : bool,
    CryptoUtils.verifySignature rt data signature publicKey = Returned b
    /\ (b = true <-> Verify_verify rt data publicKey signature = Returned true).
Proof.
  unfold CryptoUtils.verifySignature.
  destruct (Verify_verify rt data publicKey signature) as [[|]|e].
  - exists true. split; [reflexivity | tauto].
  - exists false. split; [reflexivity | split; discriminate].
  - exists false. split; [reflexivity | split; discriminate].
Qed.

(** ** The payload signed by [createTransaction] against the payload verified *)

Lemma Z_toString_nonempty (n : Z) : JS.Z_toString n <> "".
Proof.
  unfold JS.Z_toString, NilZero.string_of_int.
  destruct (Z.to_int n) as [d|d]; [destruct d|]; discriminate.
Qed.

Lemma string_append_cons (c : ascii) (s t : string) : String c s +:+ t = String c (s +:+ t).
Proof. reflexivity. Qed.

Lemma string_append_assoc (s t u : string) : (s +:+ t) +:+ u = s +:+ (t +:+ u).
Proof.
  induction s as [|c s IH]; [reflexivity|].
  rewrite !string_append_cons, IH. reflexivity.
Qed.

Lemma string_length_append (s t : string) :
  String.length (s +:+ t) = String.length s + String.length t.
Proof.
  induction s as [|c s IH]; [reflexivity|].
  rewrite string_append_cons. cbn [String.length]. now rewrite IH.
Qed.

Lemma append_nonempty_neq (s t : string) : t <> "" -> s +:+ t <> s.
Proof.
  intros Ht H. apply (f_equal String.length) in H.
  rewrite string_length_append in H.
  destruct t; [congruence | cbn [String.length] in H; lia].
Qed.

Lemma signed_payload_is_verified_payload_and_nonce
    (rt : Runtime) (tx : Transaction.t) (nonce : Z) :
  TransactionController.transactionData rt (Transaction.fromWallet tx) (Transaction.toWallet tx)
    (Transaction.amount tx) (Transaction.fee tx) (Transaction.timestamp tx) nonce
  = BlockchainController.transactionData rt tx +:+ JS.Z_toString nonce.
Proof.
  unfold TransactionController.transactionData, BlockchainController.transactionData.
  rewrite !string_append_assoc. reflexivity.
Qed.

(** Unfolding of the handler monad, for stepping through a handler. *)
Ltac unfold_M :=
  cbv [bind ret throw lift liftFuel get modify catch
       WalletModel.findOne WalletModel.save WalletModel.updateBalance
       TransactionModel.save TransactionModel.insert TransactionModel.confirm
       TransactionModel.fail TransactionModel.getPending TransactionModel.findById
       BlockModel.getLatest BlockModel.getByIndex BlockModel.getGenesis BlockModel.save
       newObjectId] in *.

(** Inversion of the equations between results that stepping leaves. *)
Ltac inv_results :=
  repeat first
    [ discriminate
    | match goal with
      | H : ?x = ?y |- _ => first [ is_var x; subst x | is_var y; subst y ]
      | H : Some _ = Some _ |- _ => injection H as H
      | H : (_, _) = (_, _) |- _ => injection H as ? H
      | H : Returned _ = Returned _ |- _ => injection H as H
      | H : Threw _ = Threw _ |- _ => injection H as H
      | H : Created _ = Created _ |- _ => injection H as H
      end ].

(** C3. A transaction stored by [createTransaction] carries the signature of
    the payload that ends with the nonce, which is the payload rebuilt at
    sealing and at validation followed by the decimal rendering of the nonce;
    the two payloads are never the same string. *)
Theorem createTransaction_signs_other_payload
    (rt : Runtime) (user fromWallet toWallet : string) (amount : float) (fee : option float)
    (privateKey : string) (now nonce : Z) (db db' : DB) (tx : Transaction.t) :
  TransactionController.createTransaction rt user fromWallet toWallet amount fee privateKey
    now nonce db = Some (Created tx, db') ->
  let signed :=
    TransactionController.transactionData rt fromWallet toWallet amount
      (default 0.001%float fee) now nonce in
  CryptoUtils.signData rt signed privateKey = Returned (Transaction.signature tx)
  /\ signed = BlockchainController.transactionData rt tx +:+ JS.Z_toString nonce
  /\ signed <> BlockchainController.transactionData rt tx.
Proof.
  intros H signed.
  assert (Htx : CryptoUtils.signData rt signed privateKey = Returned (Transaction.signature tx)
                /\ Transaction.fromWallet tx = fromWallet /\ Transaction.toWallet tx = toWallet
                /\ Transaction.amount tx = amount
                /\ Transaction.fee tx = default 0.001%float fee
                /\ Transaction.timestamp tx = now).
  { subst signed.
    unfold TransactionController.createTransaction,
           TransactionController.createTransactionBody in H.
    unfold_M.
    repeat case_match; inv_results; cbn; repeat split; try reflexivity; assumption. }
  destruct Htx as (Hsig & Hf & Ht & Ha & Hfee & Hts).
  assert (E : signed = BlockchainController.transactionData rt tx +:+ JS.Z_toString nonce).
  { subst signed. rewrite <- signed_payload_is_verified_payload_and_nonce.
    now rewrite Hf, Ht, Ha, Hfee, Hts. }
  repeat split; [exact Hsig | exact E |].
  rewrite E. apply append_nonempty_neq, Z_toString_nonempty.
Qed.

(** ** The admission loop of [BlockchainController.mineBlock] *)

Lemma fail_keeps (tx : Transaction.t) (db : DB) :
  exists db', TransactionModel.fail tx db = Some (Returned (Transaction.set_status failed tx), db')
    /\ wallets db' = wallets db /\ blocks db' = blocks db /\ nextId db' = nextId db
    /\ length (transactions db') = length (transactions db).
Proof.
  unfold_M. eexists. split; [reflexivity|]. cbn. rewrite length_map. auto.
Qed.

Lemma selectValid_filter (rt : Runtime) (pend : list Transaction.t) (db : DB) :
  exists db',
    BlockchainController.selectValid rt pend db
      = Some (Returned (List.filter (eligible rt (wallets db)) pend), db')
    /\ wallets db' = wallets db /\ blocks db' = blocks db /\ nextId db' = nextId db
    /\ length (transactions db') = length (transactions db).
Proof.
  revert db. induction pend as [|tx rest IH]; intros db.
  - exists db. cbn. auto.
  - cbn [BlockchainController.selectValid List.filter].
    unfold eligible at 1.
    pose proof (fail_keeps tx db) as (dbf & Hf & Hw & Hb & Hn & Hl).
    destruct (IH db) as (db1 & E1 & Hw1 & Hb1 & Hn1 & Hl1).
    destruct (IH dbf) as (db2 & E2 & Hw2 & Hb2 & Hn2 & Hl2).
    rewrite Hw in E2.
    unfold bind at 1. unfold WalletModel.findOne at 1. unfold bind at 1, get at 1, ret at 1.
    unfold bind at 1. unfold WalletModel.findOne at 1. unfold bind at 1, get at 1, ret at 1.
    destruct (wallets db !! Transaction.fromWallet tx) as [source|];
      [destruct (wallets db !! Transaction.toWallet tx) as [dest|]|].
    + destruct (Wallet.canSpend source _) eqn:Hc; cbn [andb].
      * unfold CryptoUtils.verifySignature.
        destruct (Verify_verify rt _ _ _) as [[|]|e].
        -- unfold bind at 1. unfold bind at 1. unfold lift at 1. unfold ret at 1.
           unfold bind at 1. rewrite E1. exists db1. cbn. auto.
        -- unfold bind at 1. unfold bind at 1. unfold lift at 1. unfold bind at 1.
           rewrite Hf. unfold ret at 1. unfold bind at 1. rewrite E2.
           exists db2. cbn. repeat split; congruence.
        -- unfold bind at 1. unfold bind at 1. unfold lift at 1. unfold bind at 1.
           rewrite Hf. unfold ret at 1. unfold bind at 1. rewrite E2.
           exists db2. cbn. repeat split; congruence.
      * unfold bind at 1. unfold bind at 1. rewrite Hf. unfold ret at 1.
        unfold bind at 1. rewrite E2. exists db2. cbn. repeat split; congruence.
    + unfold bind at 1. unfold bind at 1. rewrite Hf. unfold ret at 1.
      unfold bind at 1. rewrite E2. exists db2. cbn. repeat split; congruence.
    + unfold bind at 1. unfold bind at 1. rewrite Hf. unfold ret at 1.
      unfold bind at 1. rewrite E2. exists db2. cbn. repeat split; congruence.
Qed.

Lemma length_zero_iff_nil' {A} (l : list A) : Nat.eqb (length l) 0 = true <-> l = [].
Proof. destruct l; cbn; split; congruence. Qed.

(** C10. When no pending transaction passes the admission test (in particular
    when none is pending), [mineBlock] answers 400 with one of its two
    "nothing to mine" errors whatever the fuel, and the block collection is
    the one before the call. *)
Theorem mineBlock_nothing_eligible
    (rt : Runtime) (fuel : nat) (now : Z) (env : option Z) (db : DB) :
  List.filter (eligible rt (wallets db)) (pendingOf db) = [] ->
  exists error db',
    BlockchainController.mineBlock rt fuel now env db = Some (MineError 400 error, db')
    /\ (error = "No pending transactions" \/ error = "No valid transactions")
    /\ blocks db' = blocks db.
Proof.
  intros Hnone.
  unfold BlockchainController.mineBlock, BlockchainController.mineBlockBody.
  unfold bind at 1. unfold TransactionModel.getPending, bind at 1, get at 1, ret at 1.
  fold (pendingOf db).
  destruct (Nat.eqb (length (pendingOf db)) 0) eqn:Hp.
  - exists "No pending transactions", db. cbn. auto.
  - unfold bind at 1. unfold BlockModel.getLatest, bind at 1, get at 1, ret at 1.
    unfold bind at 1.
    destruct (selectValid_filter rt (pendingOf db) db) as (db' & E & _ & Hb & _).
    rewrite E, Hnone. cbn [length Nat.eqb].
    exists "No valid transactions", db'. cbn. auto.
Qed.

(** C2, as the code has it. The admission loop keeps exactly the pending
    transactions that pass the test one by one: both wallets exist, the
    sender's balance as stored when the batch starts covers this
    transaction's [amount + fee] alone, and the signature verifies. The
    balance is not reduced by the transactions selected before. *)
Theorem selectValid_checks_each_alone
    (rt : Runtime) (pend : list Transaction.t) (db db' : DB) (selected : list Transaction.t) :
  BlockchainController.selectValid rt pend db = Some (Returned selected, db') ->
  forall tx, In tx selected <->
    In tx pend
    /\ exists source destination,
         wallets db !! Transaction.fromWallet tx = Some source
         /\ wallets db !! Transaction.toWallet tx = Some destination
         /\ Wallet.canSpend source (PrimFloat.add (Transaction.amount tx) (Transaction.fee tx))
            = true
         /\ CryptoUtils.verifySignature rt (BlockchainController.transactionData rt tx)
              (Transaction.signature tx) (Wallet.publicKey source) = Returned true.
Proof.
  intros H tx.
  destruct (selectValid_filter rt pend db) as (db1 & E & _).
  rewrite E in H. injection H as <- <-.
  rewrite List.filter_In. unfold eligible.
  split.
  - intros [Hin Hel]. split; [exact Hin|].
    destruct (wallets db !! Transaction.fromWallet tx) as [source|]; [|discriminate].
    destruct (wallets db !! Transaction.toWallet tx) as [dest|]; [|discriminate].
    apply andb_prop in Hel as [Hc Hv].
    exists source, dest. repeat split; [exact Hc|].
    destruct (CryptoUtils.verifySignature _ _ _ _) as [b|]; [subst b; reflexivity | discriminate].
  - intros [Hin (source & dest & -> & -> & Hc & Hv)]. split; [exact Hin|].
    rewrite Hc, Hv. reflexivity.
Qed.

Lemma selectValid_checks_each_alone_witness :
  exists db',
    BlockchainController.selectValid utcRuntime [Example.t1; Example.t2; Example.t3]
      Example.ledger3 = Some (Returned [Example.t1; Example.t2; Example.t3], db')
    /\ (In Example.t2 [Example.t1; Example.t2; Example.t3] <->
        In Example.t2 [Example.t1; Example.t2; Example.t3]
        /\ exists source destination,
             wallets Example.ledger3 !! Transaction.fromWallet Example.t2 = Some source
             /\ wallets Example.ledger3 !! Transaction.toWallet Example.t2 = Some destination
             /\ Wallet.canSpend source
                  (PrimFloat.add (Transaction.amount Example.t2) (Transaction.fee Example.t2))
                = true
             /\ CryptoUtils.verifySignature utcRuntime
                  (BlockchainController.transactionData utcRuntime Example.t2)
                  (Transaction.signature Example.t2) (Wallet.publicKey source) = Returned true).
Proof.
  eexists. 
  assert (H : BlockchainController.selectValid utcRuntime [Example.t1; Example.t2; Example.t3]
                Example.ledger3
              = Some (Returned [Example.t1; Example.t2; Example.t3], Example.ledger3))
    by (vm_compute; reflexivity).
  split; [exact H | exact (selectValid_checks_each_alone _ _ _ _ _ H Example.t2)].
Defined.

(** C2, as stated, fails: Alice holds 1000 and two pending transfers of
    600 + 1 each are both selected into one batch, so the batch spends more
    than her balance at its start. *)
Lemma selectValid_admits_double_spend :
  exists db',
    BlockchainController.selectValid utcRuntime (pendingOf Example.ledger3) Example.ledger3
      = Some (Returned [Example.t1; Example.t2; Example.t3], db')
    /\ wallets Example.ledger3 !! Example.alice = Some Example.aliceWallet
    /\ Wallet.balance Example.aliceWallet = 1000%float
    /\ spentBy Example.alice [Example.t1; Example.t2; Example.t3] = 1208%float
    /\ PrimFloat.leb (spentBy Example.alice [Example.t1; Example.t2; Example.t3])
         (Wallet.balance Example.aliceWallet) = false.
Proof.
  exists Example.ledger3. repeat split; vm_compute; reflexivity.
Qed.

Lemma mineBlock_nothing_eligible_witness :
  let poor := mkDB (<[Example.alice := Wallet.set_balance 5 Example.aliceWallet]>
                      (wallets Example.ledger0)) [Example.t1] [] 10 in
  List.filter (eligible utcRuntime (wallets poor)) (pendingOf poor) = []
  /\ exists error db',
       BlockchainController.mineBlock utcRuntime 0 1700000005000 None poor
         = Some (MineError 400 error, db')
       /\ (error = "No pending transactions" \/ error = "No valid transactions")
       /\ blocks db' = blocks poor.
Proof.
  intros poor.
  assert (H : List.filter (eligible utcRuntime (wallets poor)) (pendingOf poor) = [])
    by (vm_compute; reflexivity).
  split; [exact H | exact (mineBlock_nothing_eligible utcRuntime 0 1700000005000 None poor H)].
Defined.

(** ** The confirmation loop of [BlockchainController.mineBlock] *)

Lemma rowOf_saved_same (tx : Transaction.t) (db : DB) :
  rowOf db (Transaction._id tx) <> None ->
  rowOf (saved tx db) (Transaction._id tx) = Some tx.
Proof.
  unfold rowOf, saved, set_transactions. cbn [transactions].
  induction (transactions db) as [|row rows IH]; cbn [find map]; [congruence|].
  intros H. destruct (Nat.eqb (Transaction._id row) (Transaction._id tx)) eqn:E.
  - rewrite Nat.eqb_refl. reflexivity.
  - rewrite E. apply IH. exact H.
Qed.

Lemma rowOf_saved_other (tx : Transaction.t) (db : DB) (id : nat) :
  Transaction._id tx <> id -> rowOf (saved tx db) id = rowOf db id.
Proof.
  unfold rowOf, saved, set_transactions. cbn [transactions]. intros Hne.
  induction (transactions db) as [|row rows IH]; cbn [find map]; [reflexivity|].
  destruct (Nat.eqb (Transaction._id row) (Transaction._id tx)) eqn:E.
  - apply Nat.eqb_eq in E. rewrite E.
    destruct (Nat.eqb (Transaction._id tx) id) eqn:E'; [apply Nat.eqb_eq in E'; congruence|].
    exact IH.
  - destruct (Nat.eqb (Transaction._id row) id); [reflexivity | exact IH].
Qed.

Lemma rowOf_set_wallets (f : gmap string Wallet.t -> gmap string Wallet.t) (db : DB) (id : nat) :
  rowOf (set_wallets f db) id = rowOf db id.
Proof. reflexivity. Qed.

(** One turn of the loop. *)
Lemma commitLoop_step (blockId : nat) (tx : Transaction.t)
    (rest : list Transaction.t) (db : DB) :
  let db1 := saved (confirmedAs blockId tx) db in
  BlockchainController.commitLoop blockId (tx :: rest) db =
    if debitOk (wallets db) tx then
      if creditOk (wallets db) tx then
        BlockchainController.commitLoop blockId rest
          (set_wallets (fun _ => settle (wallets db) tx) db1)
      else Some (Threw (ValidationError "balance"),
                 set_wallets (fun _ => debit (wallets db) tx) db1)
    else Some (Threw (ValidationError "balance"), db1).
Proof.
  cbn [BlockchainController.commitLoop].
  unfold debitOk, creditOk, settle, credit, debit.
  unfold_M. cbn [wallets transactions blocks nextId saved set_transactions set_wallets].
  destruct (wallets db !! Transaction.fromWallet tx) as [s|];
    destruct (wallets db !! Transaction.toWallet tx) as [d|];
    cbn [Wallet.balance Wallet.set_balance Wallet.address].
  all: repeat match goal with
              | |- context [PrimFloat.leb ?a ?b] => destruct (PrimFloat.leb a b)
              end.
  all: unfold set_wallets, saved, set_transactions; cbn [wallets transactions blocks nextId].
  all: try reflexivity.
  all: destruct db; reflexivity.
Qed.

(** What the loop leaves behind, by outcome. *)
Definition commitOutcome (blockId : nat) (txs : list Transaction.t) (db : DB)
    (r : JsResult unit) (db' : DB) : Prop :=
  match r with
  | Returned _ =>
      (forall tx, In tx txs -> rowOf db' (Transaction._id tx) = Some (confirmedAs blockId tx))
      /\ wallets db' = fold_left settle txs (wallets db)
  | Threw e =>
      e = ValidationError "balance"
      /\ exists done tx rest,
           txs = done ++ tx :: rest
           /\ (forall t, In t (done ++ [tx]) ->
                 rowOf db' (Transaction._id t) = Some (confirmedAs blockId t))
           /\ (forall t, In t rest -> rowOf db' (Transaction._id t) = rowOf db (Transaction._id t))
           /\ let ws := fold_left settle done (wallets db) in
              (debitOk ws tx = false /\ wallets db' = ws)
              \/ (debitOk ws tx = true /\ creditOk ws tx = false /\ wallets db' = debit ws tx)
  end.

Lemma commitLoop_outcome (blockId : nat) (txs : list Transaction.t) (db : DB) :
  List.NoDup (map Transaction._id txs) ->
  (forall tx, In tx txs -> rowOf db (Transaction._id tx) <> None) ->
  exists r db',
    BlockchainController.commitLoop blockId txs db = Some (r, db')
    /\ blocks db' = blocks db /\ nextId db' = nextId db
    /\ (forall id, ~ In id (map Transaction._id txs) -> rowOf db' id = rowOf db id)
    /\ commitOutcome blockId txs db r db'.
Proof.
  revert db. induction txs as [|tx rest IH]; intros db Hnd Hrows.
  - exists (Returned tt), db. cbn. repeat split; auto. intros ? [].
  - rewrite commitLoop_step. cbv zeta.
    set (db1 := saved (confirmedAs blockId tx) db).
    cbn [map] in Hnd. apply List.NoDup_cons_iff in Hnd as [Hfresh Hnd].
    assert (Hid : Transaction._id (confirmedAs blockId tx) = Transaction._id tx) by reflexivity.
    assert (Hhead : rowOf db1 (Transaction._id tx) = Some (confirmedAs blockId tx)).
    { subst db1. rewrite <- Hid at 1. apply rowOf_saved_same. rewrite Hid.
      apply Hrows. now left. }
    assert (Hother : forall id, id <> Transaction._id tx -> rowOf db1 id = rowOf db id).
    { intros id Hne. subst db1. apply rowOf_saved_other. rewrite Hid. congruence. }
    assert (Hrestfresh : forall t, In t rest -> Transaction._id t <> Transaction._id tx).
    { intros t Ht E. apply Hfresh. rewrite <- E. now apply in_map. }
    destruct (debitOk (wallets db) tx) eqn:Hd; [destruct (creditOk (wallets db) tx) eqn:Hc|].
    + destruct (IH (set_wallets (fun _ => settle (wallets db) tx) db1) Hnd)
        as (r & db' & E & Hb & Hn & Hkeep & Hout).
      { intros t Ht. rewrite rowOf_set_wallets, Hother by now apply Hrestfresh.
        apply Hrows. now right. }
      exists r, db'. rewrite E. split; [reflexivity|]. split; [exact Hb|]. split; [exact Hn|].
      split.
      { intros id Hnot. cbn [map In] in Hnot.
        rewrite Hkeep by tauto. rewrite rowOf_set_wallets. apply Hother. intros ->. tauto. }
      destruct r as [[]|e]; cbn [commitOutcome] in *.
      * destruct Hout as [Hconf Hws]. split.
        -- intros t [<-|Ht]; [|now apply Hconf].
           rewrite Hkeep by exact Hfresh. rewrite rowOf_set_wallets. exact Hhead.
        -- exact Hws.
      * destruct Hout as (-> & done & t & rest' & -> & Hconf & Hun & Hws).
        split; [reflexivity|]. exists (tx :: done), t, rest'.
        split; [reflexivity|]. split; [|split].
        -- intros u [<-|Hu]; [|now apply Hconf].
           rewrite Hkeep by exact Hfresh. rewrite rowOf_set_wallets. exact Hhead.
        -- intros u Hu. rewrite Hun by exact Hu. rewrite rowOf_set_wallets.
           apply Hother. apply Hrestfresh. apply in_or_app. right. now right.
        -- exact Hws.
    + eexists _, _. split; [reflexivity|]. cbn [blocks nextId set_wallets].
      split; [reflexivity|]. split; [reflexivity|]. split.
      { intros id Hnot. cbn [map In] in Hnot. rewrite rowOf_set_wallets.
        apply Hother. intros ->. tauto. }
      split; [reflexivity|]. exists [], tx, rest. split; [reflexivity|]. split; [|split].
      * intros t [<-|[]]. rewrite rowOf_set_wallets. exact Hhead.
      * intros t Ht. rewrite rowOf_set_wallets. apply Hother. now apply Hrestfresh.
      * right. cbn. auto.
    + eexists _, _. split; [reflexivity|]. split; [reflexivity|]. split; [reflexivity|]. split.
      { intros id Hnot. cbn [map In] in Hnot. apply Hother. intros ->. tauto. }
      split; [reflexivity|]. exists [], tx, rest. split; [reflexivity|]. split; [|split].
      * intros t [<-|[]]. exact Hhead.
      * intros t Ht. apply Hother. now apply Hrestfresh.
      * left. cbn. auto.
Qed.

(** C5, as the code has it. The confirmation loop is not all-or-nothing. It
    always leaves the block collection alone, and either it returns, and then
    every included transaction is stored confirmed with its [blockId] and the
    wallets are those obtained by settling the transactions in order (sender
    less [amount + fee], receiver plus [amount]); or a balance write is
    rejected at some transaction, and then the loop stops there with nothing
    undone: the transactions up to and including that one are stored
    confirmed, the earlier ones are settled, the later ones are untouched. *)
Theorem commitLoop_confirms_all_or_stops_midway
    (blockId : nat) (txs : list Transaction.t) (db : DB) :
  List.NoDup (map Transaction._id txs) ->
  (forall tx, In tx txs -> rowOf db (Transaction._id tx) <> None) ->
  exists r db',
    BlockchainController.commitLoop blockId txs db = Some (r, db')
    /\ blocks db' = blocks db
    /\ match r with
       | Returned _ =>
           (forall tx, In tx txs ->
              rowOf db' (Transaction._id tx) = Some (confirmedAs blockId tx))
           /\ wallets db' = fold_left settle txs (wallets db)
       | Threw e =>
           e = ValidationError "balance"
           /\ exists done tx rest,
                txs = done ++ tx :: rest
                /\ (forall t, In t (done ++ [tx]) ->
                      rowOf db' (Transaction._id t) = Some (confirmedAs blockId t))
                /\ (forall t, In t rest ->
                      rowOf db' (Transaction._id t) = rowOf db (Transaction._id t))
                /\ let ws := fold_left settle done (wallets db) in
                   (debitOk ws tx = false /\ wallets db' = ws)
                   \/ (debitOk ws tx = true /\ creditOk ws tx = false
                       /\ wallets db' = debit ws tx)
       end.
Proof.
  intros Hnd Hrows.
  destruct (commitLoop_outcome blockId txs db Hnd Hrows) as (r & db' & E & Hb & _ & _ & Hout).
  exists r, db'. split; [exact E|]. split; [exact Hb|]. exact Hout.
Qed.

Lemma example_ids_distinct :
  List.NoDup (map Transaction._id [Example.t1; Example.t2; Example.t3]).
Proof. cbn. repeat constructor; cbn; intuition discriminate. Qed.

Lemma example_rows_stored (tx : Transaction.t) :
  In tx [Example.t1; Example.t2; Example.t3] ->
  rowOf Example.ledger3 (Transaction._id tx) <> None.
Proof. intros [<-|[<-|[<-|[]]]]; vm_compute; discriminate. Qed.

Lemma commitLoop_confirms_all_or_stops_midway_witness :
  List.NoDup (map Transaction._id [Example.t1; Example.t2; Example.t3])
  /\ (forall tx, In tx [Example.t1; Example.t2; Example.t3] ->
        rowOf Example.ledger3 (Transaction._id tx) <> None)
  /\ exists r db',
       BlockchainController.commitLoop 10 [Example.t1; Example.t2; Example.t3] Example.ledger3
         = Some (r, db')
       /\ blocks db' = blocks Example.ledger3
       /\ match r with
          | Returned _ =>
              (forall tx, In tx [Example.t1; Example.t2; Example.t3] ->
                 rowOf db' (Transaction._id tx) = Some (confirmedAs 10 tx))
              /\ wallets db'
                 = fold_left settle [Example.t1; Example.t2; Example.t3] (wallets Example.ledger3)
          | Threw e =>
              e = ValidationError "balance"
              /\ exists done tx rest,
                   [Example.t1; Example.t2; Example.t3] = done ++ tx :: rest
                   /\ (forall t, In t (done ++ [tx]) ->
                         rowOf db' (Transaction._id t) = Some (confirmedAs 10 t))
                   /\ (forall t, In t rest ->
                         rowOf db' (Transaction._id t) = rowOf Example.ledger3 (Transaction._id t))
                   /\ let ws := fold_left settle done (wallets Example.ledger3) in
                      (debitOk ws tx = false /\ wallets db' = ws)
                      \/ (debitOk ws tx = true /\ creditOk ws tx = false
                          /\ wallets db' = debit ws tx)
          end.
Proof.
  split; [exact example_ids_distinct|]. split; [exact example_rows_stored|].
  exact (commitLoop_confirms_all_or_stops_midway 10 _ Example.ledger3
           example_ids_distinct example_rows_stored).
Defined.

(** C5, as stated, fails: sealing the three pending transfers of
    [Example.ledger3] persists block 0 and then stops in the middle of the
    confirmation loop. The answer is the 500 error, yet the first two
    transfers are stored confirmed and the third is still pending, the first
    transfer is settled and the second is not. *)
Lemma mineBlock_commit_partially_applied :
  exists db',
    BlockchainController.mineBlock utcRuntime 100 1700000005000 (Some 1%Z) Example.ledger3
      = Some (MineError 500 "Mining failed", db')
    /\ map Transaction.status (transactions db') = [confirmed; confirmed; pending]
    /\ map Transaction.blockId (transactions db') = [Some 10; Some 10; None]
    /\ map Block.index (blocks db') = [0%Z]
    /\ Wallet.balance <$> (wallets db' !! Example.alice) = Some 399%float
    /\ Wallet.balance <$> (wallets db' !! Example.bob) = Some 600%float.
Proof.
  eexists. split; [vm_compute; reflexivity|]. repeat split; vm_compute; reflexivity.
Qed.

(** ** [BlockchainController.mineBlock] as a whole *)

(** What a successful answer of [mineBlock] says about the block. *)
Lemma mineBlock_ok_inv (rt : Runtime) (fuel : nat) (now : Z) (env : option Z)
    (db db' : DB) (b : Block.t) (n : nat) :
  BlockchainController.mineBlock rt fuel now env db = Some (MineOk b n, db') ->
  let sel := List.filter (eligible rt (wallets db)) (pendingOf db) in
  let latest := BlockModel.latestOf (blocks db) in
  let newIndex := match latest with Some l => (Block.index l + 1)%Z | None => 0%Z end in
  let previousHash :=
    match latest with Some l => Block.hash l | None => BlockchainController.zeroHash end in
  let root := CryptoUtils.calculateMerkleRoot (map Transaction.hash sel) in
  let difficulty := BlockchainController.miningDifficulty env in
  sel <> [] /\ n = length sel
  /\ exists hash nonce,
       CryptoUtils.mineBlock rt fuel newIndex previousHash now root difficulty
         = Some (Returned (hash, nonce))
       /\ b = Block.mk (nextId db) newIndex now (map Transaction._id sel)
                (Z.of_nat (length sel)) previousHash hash nonce root difficulty
       /\ blocks db' = blocks db ++ [b]
       /\ wallets db' = fold_left settle sel (wallets db)
       /\ existsb (fun row => (Block.index row =? newIndex)%Z) (blocks db) = false
       /\ existsb (fun row => String.eqb (Block.hash row) hash) (blocks db) = false.
Proof.
  intros H sel latest newIndex previousHash root difficulty.
  unfold BlockchainController.mineBlock, BlockchainController.mineBlockBody in H.
  unfold bind at 1 in H.
  unfold TransactionModel.getPending, bind at 1, get at 1, ret at 1 in H.
  fold (pendingOf db) in H.
  destruct (Nat.eqb (length (pendingOf db)) 0); [discriminate|].
  unfold bind at 1 in H. unfold BlockModel.getLatest, bind at 1, get at 1, ret at 1 in H.
  fold latest in H. fold newIndex in H. fold previousHash in H.
  unfold bind at 1 in H.
  destruct (selectValid_filter rt (pendingOf db) db) as (db1 & E & Hw1 & Hb1 & Hn1 & _).
  rewrite E in H. fold sel in H.
  destruct (Nat.eqb (length sel) 0) eqn:Hsel; [discriminate|].
  fold root in H. fold difficulty in H.
  unfold bind at 1, liftFuel at 1 in H.
  destruct (CryptoUtils.mineBlock rt fuel newIndex previousHash now root difficulty)
    as [[[hash nonce]|e]|] eqn:Emine; [| discriminate | discriminate].
  unfold bind at 1 in H. unfold newObjectId, bind at 1, get at 1, ret at 1 in H.
  unfold bind at 1, modify at 1, ret at 1 in H.
  cbn [fst snd] in H. rewrite Hn1 in H.
  set (blk := Block.mk (nextId db) newIndex now (map Transaction._id sel)
                (Z.of_nat (length sel)) previousHash hash nonce root difficulty) in *.
  unfold bind at 1 in H. unfold BlockModel.save, bind at 1, get at 1 in H.
  cbn [blocks Block.index Block.hash] in H. rewrite Hb1 in H.
  change (Block.index blk) with newIndex in H. change (Block.hash blk) with hash in H.
  destruct (existsb (fun row => (Block.index row =? newIndex)%Z) (blocks db)) eqn:Ei;
    [discriminate|].
  destruct (existsb (fun row => String.eqb (Block.hash row) hash) (blocks db)) eqn:Eh;
    [discriminate|].
  unfold modify at 1 in H. unfold bind at 1 in H.
  match type of H with
  | context [BlockchainController.commitLoop ?i ?l ?d] =>
      destruct (BlockchainController.commitLoop i l d) as [[[[]|e] dbc]|] eqn:Ec;
      [| discriminate | discriminate]
  end.
  unfold ret in H. injection H as <- <- <-.
  split; [intros Hnil; rewrite Hnil in Hsel; discriminate|]. split; [reflexivity|].
  exists hash, nonce. split; [reflexivity|]. split; [reflexivity|].
  (* the confirmation loop keeps the blocks and settles the wallets *)
  revert Ec. generalize (Block._id blk). intros bid Ec.
  assert (G : forall txs d dbc', BlockchainController.commitLoop bid txs d = Some (Returned tt, dbc') ->
            blocks dbc' = blocks d /\ wallets dbc' = fold_left settle txs (wallets d)).
  { induction txs as [|t ts IHts]; intros d dbc' Hc.
    - cbn in Hc. unfold ret in Hc. injection Hc as <-. auto.
    - rewrite commitLoop_step in Hc. cbv zeta in Hc.
      destruct (debitOk (wallets d) t); [|discriminate].
      destruct (creditOk (wallets d) t); [|discriminate].
      apply IHts in Hc as [-> ->]. auto. }
  apply G in Ec as [-> ->]. cbn [blocks wallets set_blocks]. rewrite Hw1. auto.
Qed.

(** ** The genesis block *)

Lemma initializeGenesis_fresh (db : DB) :
  blocks db = [] ->
  BlockchainController.initializeGenesis db
  = Some (Returned (BlockchainController.genesisBlock (nextId db)),
          mkDB (wallets db) (transactions db)
               [BlockchainController.genesisBlock (nextId db)] (S (nextId db))).
Proof.
  intros Hb. unfold BlockchainController.initializeGenesis. unfold_M.
  cbn [blocks wallets transactions nextId]. rewrite Hb. cbn [find].
  cbn [blocks wallets transactions nextId]. rewrite Hb. cbn [existsb].
  unfold set_blocks. cbn [blocks wallets transactions nextId app]. reflexivity.
Qed.

(** C4, as stated, fails: the sentinel has 64 characters, not 70. *)
Lemma genesis_previousHash_is_not_70_long :
  String.length (Block.previousHash (BlockchainController.genesisBlock 0)) = 64
  /\ String.length (Block.previousHash (BlockchainController.genesisBlock 0)) <> 70.
Proof. split; [reflexivity | discriminate]. Qed.

(** C4, as the code has it. On any store without blocks, the one the server
    boots on included, [initializeGenesis] stores a genesis block with index
    0, no transaction, the Merkle root of the empty sequence and a
    [previousHash] of exactly 64 characters ['0']; its timestamp, transaction
    count, hash, nonce and difficulty are the literals of the source, the same
    on every store. Whenever [mineBlock] seals a block onto such a store, that
    block has index 0 and the same 64-zero [previousHash]. *)
Theorem genesis_sentinel_is_64_zeros (db : DB) :
  blocks db = [] ->
  exists g dbg,
    BlockchainController.initializeGenesis db = Some (Returned g, dbg)
    /\ blocks dbg = [g]
    /\ Block.index g = 0%Z
    /\ Block.transactions g = []
    /\ Block.merkleRoot g = CryptoUtils.calculateMerkleRoot []
    /\ Block.merkleRoot g = sha256 ""
    /\ Block.previousHash g = JS.replicate_string 64 "0"
    /\ String.length (Block.previousHash g) = 64
    /\ (Block.timestamp g, Block.transactionCount g, Block.hash g, Block.nonce g,
        Block.difficulty g)
       = (1704067200000%Z, 0%Z,
          "000000000019d6689c085ae165831e934ff763ae46a2a6c172b3f1b60a8ce26f", 0%Z, 4%Z)
    /\ forall (rt : Runtime) (fuel : nat) (now : Z) (env : option Z)
         (b : Block.t) (n : nat) (db' : DB),
         BlockchainController.mineBlock rt fuel now env db = Some (MineOk b n, db') ->
         Block.index b = 0%Z /\ Block.previousHash b = Block.previousHash g.
Proof.
  intros Hb.
  exists (BlockchainController.genesisBlock (nextId db)).
  eexists. split; [apply initializeGenesis_fresh; exact Hb|].
  do 8 (split; [reflexivity|]).
  intros rt fuel now env b n db' Hmine.
  apply mineBlock_ok_inv in Hmine. cbv zeta in Hmine. rewrite Hb in Hmine.
  destruct Hmine as (_ & _ & hash & nonce & _ & -> & _).
  split; reflexivity.
Qed.

Lemma genesis_sentinel_is_64_zeros_witness :
  let db := mkDB (wallets Example.ledger0) [Example.t3] [] 10 in
  blocks db = []
  /\ (exists g dbg,
        BlockchainController.initializeGenesis db = Some (Returned g, dbg)
        /\ blocks dbg = [g]
        /\ Block.index g = 0%Z
        /\ Block.transactions g = []
        /\ Block.merkleRoot g = sha256 ""
        /\ Block.previousHash g = JS.replicate_string 64 "0")
  /\ (exists b n db',
        BlockchainController.mineBlock utcRuntime 100 1700000005000 (Some 1%Z) db
          = Some (MineOk b n, db')
        /\ Block.index b = 0%Z
        /\ Block.previousHash b = JS.replicate_string 64 "0").
Proof.
  intros db. split; [reflexivity|].
  destruct (genesis_sentinel_is_64_zeros db eq_refl)
    as (g & dbg & Hg & Hbs & Hi & Ht & _ & Hm & Hp & _ & _ & Hseal).
  split; [exists g, dbg; repeat split; assumption|].
  destruct (BlockchainController.mineBlock utcRuntime 100 1700000005000 (Some 1%Z) db)
    as [[[b n|s e] db']|] eqn:E;
    [| vm_compute in E; discriminate E | vm_compute in E; discriminate E].
  exists b, n, db'. split; [reflexivity|].
  destruct (Hseal utcRuntime 100 1700000005000%Z (Some 1%Z) b n db' E) as [Hbi Hbp].
  split; [exact Hbi | now rewrite Hbp].
Defined.

(** ** [validateBlockchain] on a chain that starts from the genesis block *)

(** C1 at a concrete chain. The genesis block is stored on a ledger with one
    admissible pending transfer, [mineBlock] seals that transfer into block
    1 and succeeds, and [validateBlockchain] then reports the chain invalid:
    block 1 passes every check, but the hard-coded hash of the genesis block
    is not the digest of its own header. *)
Theorem validateBlockchain_rejects_chain_from_genesis :
  BlockchainController.initializeGenesis GenesisChain.db0
    = Some (Returned (BlockchainController.genesisBlock 10), GenesisChain.db1)
  /\ BlockchainController.mineBlock utcRuntime 100 1700000005000 (Some 1%Z) GenesisChain.db1
     = Some (MineOk GenesisChain.block1 1, GenesisChain.db2)
  /\ blocks GenesisChain.db2 = [BlockchainController.genesisBlock 10; GenesisChain.block1]
  /\ CryptoUtils.calculateBlockHash utcRuntime 0 BlockchainController.zeroHash
       BlockchainController.genesisTimestamp (CryptoUtils.calculateMerkleRoot []) 0
     = "71ffffcacd53d54ee37276b46d655322cccedf940f98e549b206794e901c4cba"
  /\ BlockchainController.validateBlockchain utcRuntime GenesisChain.db2
     = mkReport false (Some 2) (Some 1)
         [mkBlockErrors 0 BlockchainController.genesisHash
            [InvalidBlockHash
               "71ffffcacd53d54ee37276b46d655322cccedf940f98e549b206794e901c4cba"
               BlockchainController.genesisHash]]
         "Blockchain has validation errors".
Proof.
  repeat split; vm_compute; reflexivity.
Qed.

Lemma createTransaction_signs_other_payload_witness :
  exists tx db',
    TransactionController.createTransaction utcRuntime "u1" Example.alice Example.bob 10 None
      "PRIVka" 1700000000000 123456 Example.ledger0 = Some (Created tx, db')
    /\ let signed :=
         TransactionController.transactionData utcRuntime Example.alice Example.bob 10
           (default 0.001%float None) 1700000000000 123456 in
       CryptoUtils.signData utcRuntime signed "PRIVka" = Returned (Transaction.signature tx)
       /\ signed = BlockchainController.transactionData utcRuntime tx +:+ JS.Z_toString 123456
       /\ signed <> BlockchainController.transactionData utcRuntime tx.
Proof.
  destruct (TransactionController.createTransaction utcRuntime "u1" Example.alice Example.bob
              10 None "PRIVka" 1700000000000 123456 Example.ledger0)
    as [[[tx|s e] db']|] eqn:E;
    [| vm_compute in E; discriminate E | vm_compute in E; discriminate E].
  exists tx, db'. split; [reflexivity|].
  exact (createTransaction_signs_other_payload utcRuntime "u1" Example.alice Example.bob 10
           None "PRIVka" 1700000000000 123456 Example.ledger0 db' tx E).
Defined.

(** * Further properties of the code *)

(** ** Digests, addresses and hashes *)

Lemma hexdigit_isHexChar (d : Z) : CryptoUtils.isHexChar (Sha256.hexdigit d) = true.
Proof.
  unfold Sha256.hexdigit.
  assert (H : (0 <= Z.land d 15 < 16)%Z).
  { change 15%Z with (Z.ones 4). rewrite Z.land_ones by lia. apply Z.mod_pos_bound. lia. }
  remember (Z.to_nat (Z.land d 15)) as n eqn:Hn.
  assert (Hlt : n < 16) by lia. clear Hn H.
  do 16 (destruct n as [|n]; [reflexivity|]). lia.
Qed.

Lemma sha256_isValidHash (s : string) : CryptoUtils.isValidHash (sha256 s) = true.
Proof.
  with_strategy transparent [sha256] (unfold sha256). unfold Sha256.digest. cbv zeta.
  generalize (fold_left Sha256.compress
                (Sha256.blocks (length (Sha256.words (Sha256.pad (Sha256.bytes_of_string s))))
                   (Sha256.words (Sha256.pad (Sha256.bytes_of_string s)))) Sha256.H0).
  intros r. unfold CryptoUtils.isValidHash, Sha256.hex, Sha256.hex8.
  cbn [String.length Nat.eqb andb list_ascii_of_string forallb].
  rewrite !hexdigit_isHexChar. reflexivity.
Qed.

(** X1. Every address derived by [generateAddress] has the format
    [isValidAddress] asks for, whatever the key. *)
Theorem generateAddress_isValidAddress (publicKey : string) :
  CryptoUtils.isValidAddress (CryptoUtils.generateAddress publicKey) = true.
Proof.
  unfold CryptoUtils.generateAddress.
  with_strategy transparent [sha256] (unfold sha256). unfold Sha256.digest. cbv zeta.
  generalize (fold_left Sha256.compress
                (Sha256.blocks (length (Sha256.words (Sha256.pad (Sha256.bytes_of_string publicKey))))
                   (Sha256.words (Sha256.pad (Sha256.bytes_of_string publicKey)))) Sha256.H0).
  intros r. unfold CryptoUtils.isValidAddress, Sha256.hex, Sha256.hex8.
  cbn [String.substring String.length Nat.eqb andb list_ascii_of_string forallb].
  rewrite !hexdigit_isHexChar. reflexivity.
Qed.

(** X2. The block hash and the transaction hash always have the format
    [isValidHash] asks for. *)
Theorem block_and_transaction_hashes_are_valid
    (rt : Runtime) (index : Z) (previousHash : string) (timestamp : Z) (merkleRoot : string)
    (nonce : Z) (fromWallet toWallet : string) (amount : float) :
  CryptoUtils.isValidHash
    (CryptoUtils.calculateBlockHash rt index previousHash timestamp merkleRoot nonce) = true
  /\ CryptoUtils.isValidHash
       (CryptoUtils.createTransactionHash rt fromWallet toWallet amount timestamp nonce) = true.
Proof. split; apply sha256_isValidHash. Qed.

Lemma pairUp_valid (hashes : list string) :
  Forall (fun h => CryptoUtils.isValidHash h = true) (CryptoUtils.pairUp hashes).
Proof.
  revert hashes. fix IH 1. intros [|a [|b rest]].
  - constructor.
  - constructor; [apply sha256_isValidHash | constructor].
  - change (CryptoUtils.pairUp (a :: b :: rest))
      with (sha256 (a +:+ JS.orElse (Some b) a) :: CryptoUtils.pairUp rest).
    constructor; [apply sha256_isValidHash | apply IH].
Qed.

Lemma pairUp_length_le (hashes : list string) :
  length (CryptoUtils.pairUp hashes) <= length hashes
  /\ (hashes <> [] -> CryptoUtils.pairUp hashes <> []).
Proof.
  split.
  - remember (length hashes) as n eqn:Hn. revert hashes Hn.
    induction n as [n IH] using lt_wf_ind. intros [|a [|b rest]] Hn; cbn in *; try lia.
    specialize (IH (length rest) ltac:(lia) rest eq_refl). lia.
  - destruct hashes as [|a [|b rest]]; [congruence | discriminate | discriminate].
Qed.

Lemma calculateMerkleRoot_valid_of_valid (hashes : list string) :
  hashes <> [] ->
  Forall (fun h => CryptoUtils.isValidHash h = true) hashes ->
  CryptoUtils.isValidHash (CryptoUtils.calculateMerkleRoot hashes) = true.
Proof.
  remember (length hashes) as n eqn:Hn. revert hashes Hn.
  induction n as [n IH] using lt_wf_ind. intros hashes Hn Hne Hv.
  destruct hashes as [|h1 [|h2 rest]]; [congruence | |].
  - rewrite CryptoUtils.calculateMerkleRoot_equation_2. now inversion Hv.
  - rewrite CryptoUtils.calculateMerkleRoot_equation_3.
    destruct (pairUp_length_le (h1 :: h2 :: rest)) as [Hle Hnn].
    eapply IH; [| reflexivity | apply Hnn; discriminate | apply pairUp_valid].
    subst n.
    change (CryptoUtils.pairUp (h1 :: h2 :: rest))
      with (sha256 (h1 +:+ JS.orElse (Some h2) h1) :: CryptoUtils.pairUp rest).
    destruct (pairUp_length_le rest) as [Hle' _]. cbn [length]. lia.
Qed.

(** X3. The Merkle root of anything but a single element is a well-formed hash,
    whatever strings went in; a single element comes back as it is. *)
Theorem calculateMerkleRoot_isValidHash (hashes : list string) :
  length hashes <> 1 ->
  CryptoUtils.isValidHash (CryptoUtils.calculateMerkleRoot hashes) = true.
Proof.
  intros Hlen. destruct hashes as [|h1 [|h2 rest]].
  - rewrite CryptoUtils.calculateMerkleRoot_equation_1. apply sha256_isValidHash.
  - cbn in Hlen. congruence.
  - rewrite CryptoUtils.calculateMerkleRoot_equation_3.
    apply calculateMerkleRoot_valid_of_valid; [|apply pairUp_valid].
    apply pairUp_length_le. discriminate.
Qed.

Lemma calculateMerkleRoot_isValidHash_witness :
  length ["x"; ""; "not a hash"] <> 1
  /\ CryptoUtils.isValidHash (CryptoUtils.calculateMerkleRoot ["x"; ""; "not a hash"]) = true.
Proof.
  assert (H : length ["x"; ""; "not a hash"] <> 1) by (cbn; lia).
  split; [exact H | exact (calculateMerkleRoot_isValidHash _ H)].
Defined.

(** X4. [hashes[i + 1] || left]: an empty string in a right-hand position is
    taken for a missing element and replaced by its left neighbour. *)
Theorem calculateMerkleRoot_empty_right_is_missing (a : string) (rest : list string) :
  CryptoUtils.calculateMerkleRoot (a :: "" :: rest)
  = CryptoUtils.calculateMerkleRoot (a :: a :: rest).
Proof.
  rewrite (CryptoUtils.calculateMerkleRoot_equation_3 a "" rest),
          (CryptoUtils.calculateMerkleRoot_equation_3 a a rest).
  assert (E : CryptoUtils.pairUp (a :: "" :: rest) = CryptoUtils.pairUp (a :: a :: rest)).
  { change (CryptoUtils.pairUp (a :: "" :: rest))
      with (sha256 (a +:+ JS.orElse (Some "") a) :: CryptoUtils.pairUp rest).
    change (CryptoUtils.pairUp (a :: a :: rest))
      with (sha256 (a +:+ JS.orElse (Some a) a) :: CryptoUtils.pairUp rest).
    rewrite orElse_self. reflexivity. }
  rewrite E. reflexivity.
Qed.

(** ** The proof-of-work search *)

(** X5. The search is total up to fuel: if some positive nonce meets the target,
    [mineBlock] returns the least one, with its hash, as soon as the fuel
    covers it. *)
Theorem mineBlock_returns_least_nonce
    (rt : Runtime) (fuel : nat) (index : Z) (previousHash : string) (timestamp : Z)
    (merkleRoot : string) (difficulty nonce : Z) :
  (0 <= difficulty)%Z ->
  (0 < nonce)%Z ->
  JS.startsWith (CryptoUtils.calculateBlockHash rt index previousHash timestamp merkleRoot nonce)
    (JS.replicate_string (Z.to_nat difficulty) "0") = true ->
  (forall k, (0 < k < nonce)%Z ->
     JS.startsWith (CryptoUtils.calculateBlockHash rt index previousHash timestamp merkleRoot k)
       (JS.replicate_string (Z.to_nat difficulty) "0") = false) ->
  Z.to_nat nonce <= fuel ->
  CryptoUtils.mineBlock rt fuel index previousHash timestamp merkleRoot difficulty
  = Some (Returned
            (CryptoUtils.calculateBlockHash rt index previousHash timestamp merkleRoot nonce,
             nonce)).
Proof.
  intros Hd Hn Hhit Hfirst Hfuel.
  unfold CryptoUtils.mineBlock, JS.String_repeat.
  destruct (difficulty <? 0)%Z eqn:E; [apply Z.ltb_lt in E; lia|].
  rewrite (mineLoop_complete rt index previousHash timestamp merkleRoot _ fuel 0 nonce);
    [reflexivity | exact Hn | exact Hhit | exact Hfirst | ].
  replace (nonce - 0)%Z with nonce by lia. exact Hfuel.
Qed.

Lemma mineBlock_returns_least_nonce_witness :
  CryptoUtils.mineBlock utcRuntime 5 1 BlockchainController.zeroHash
    BlockchainController.genesisTimestamp (sha256 "") 1
  = Some (Returned
            (CryptoUtils.calculateBlockHash utcRuntime 1 BlockchainController.zeroHash
               BlockchainController.genesisTimestamp (sha256 "") 2, 2%Z)).
Proof.
  apply (mineBlock_returns_least_nonce utcRuntime 5 1 BlockchainController.zeroHash
           BlockchainController.genesisTimestamp (sha256 "") 1 2).
  - lia.
  - lia.
  - vm_compute. reflexivity.
  - intros k Hk. assert (k = 1%Z) as -> by lia. vm_compute. reflexivity.
  - cbn. lia.
Defined.

(** A negative difficulty makes ['0'.repeat(difficulty)] throw before the
    search starts. *)
Lemma mineBlock_negative_difficulty_throws
    (rt : Runtime) (fuel : nat) (index : Z) (previousHash : string) (timestamp : Z)
    (merkleRoot : string) (difficulty : Z) :
  (difficulty < 0)%Z ->
  CryptoUtils.mineBlock rt fuel index previousHash timestamp merkleRoot difficulty
  = Some (Threw (RangeError ("Invalid count value: " +:+ JS.Z_toString difficulty))).
Proof.
  intros Hd. unfold CryptoUtils.mineBlock, JS.String_repeat.
  apply Z.ltb_lt in Hd. rewrite Hd. reflexivity.
Qed.

(** X6. With difficulty 0 every hash meets the target: the search stops at the
    first nonce it tries, which is 1 and not 0. *)
Theorem mineBlock_zero_difficulty_returns_nonce_1
    (rt : Runtime) (fuel : nat) (index : Z) (previousHash : string) (timestamp : Z)
    (merkleRoot : string) :
  CryptoUtils.mineBlock rt (S fuel) index previousHash timestamp merkleRoot 0
  = Some (Returned
            (CryptoUtils.calculateBlockHash rt index previousHash timestamp merkleRoot 1, 1%Z)).
Proof.
  assert (P : forall h, JS.startsWith h "" = true) by (intros []; reflexivity).
  unfold CryptoUtils.mineBlock, JS.String_repeat.
  change (0 <? 0)%Z with false. cbv iota.
  change (JS.replicate_string (Z.to_nat 0) "0") with "".
  cbn [CryptoUtils.mineLoop]. cbv zeta. rewrite P. reflexivity.
Qed.

(** ** The queries of the models *)

Lemma insertBy_Permutation {A} (key : A -> Z) (x : A) (l : list A) :
  Permutation (insertBy key x l) (x :: l).
Proof.
  induction l as [|y l IH]; cbn [insertBy]; [reflexivity|].
  destruct (key x <? key y)%Z; [reflexivity|].
  rewrite IH. apply perm_swap.
Qed.

Lemma sortBy_Permutation {A} (key : A -> Z) (l : list A) : Permutation (sortBy key l) l.
Proof.
  unfold sortBy.
  assert (H : forall acc, Permutation (fold_left (fun acc x => insertBy key x acc) l acc)
                            (acc ++ l)).
  { induction l as [|x l IH]; intros acc; cbn [fold_left].
    - now rewrite app_nil_r.
    - rewrite IH, insertBy_Permutation.
      change (x :: acc ++ l) with ((x :: acc) ++ l).
      rewrite (Permutation_middle acc l x). reflexivity. }
  apply (H []).
Qed.

Lemma insertBy_sorted {A} (key : A -> Z) (x : A) (l : list A) :
  StronglySorted (keyLe key) l -> StronglySorted (keyLe key) (insertBy key x l).
Proof.
  induction 1 as [|y l Hs IH Hall]; cbn [insertBy].
  - repeat constructor.
  - destruct (key x <? key y)%Z eqn:E.
    + apply Z.ltb_lt in E. constructor; [constructor; assumption|].
      constructor; [unfold keyLe; lia|].
      eapply List.Forall_impl; [|exact Hall]. unfold keyLe. intros; cbn in *; lia.
    + apply Z.ltb_ge in E. constructor; [exact IH|].
      rewrite List.Forall_forall. intros z Hz.
      apply (Permutation_in _ (insertBy_Permutation key x l)) in Hz.
      destruct Hz as [<-|Hz]; [exact E|].
      rewrite List.Forall_forall in Hall. now apply Hall.
Qed.

Lemma sortBy_sorted {A} (key : A -> Z) (l : list A) : StronglySorted (keyLe key) (sortBy key l).
Proof.
  unfold sortBy.
  assert (H : forall acc, StronglySorted (keyLe key) acc ->
                StronglySorted (keyLe key) (fold_left (fun acc x => insertBy key x acc) l acc)).
  { induction l as [|x l IH]; intros acc Hacc; cbn [fold_left]; [exact Hacc|].
    apply IH, insertBy_sorted, Hacc. }
  apply H. constructor.
Qed.

(** X7. [Transaction.getPending()] lists the pending transactions, all of them
    and nothing else, by non-decreasing timestamp, and writes nothing. *)
Theorem getPending_lists_pending_by_timestamp (db : DB) :
  exists l,
    TransactionModel.getPending db = Some (Returned l, db)
    /\ (forall tx, In tx l <-> In tx (transactions db) /\ Transaction.status tx = pending)
    /\ length l = length (List.filter Transaction.isPending (transactions db))
    /\ StronglySorted (fun a b => (Transaction.timestamp a <= Transaction.timestamp b)%Z) l.
Proof.
  exists (pendingOf db). split; [reflexivity|].
  unfold pendingOf.
  pose proof (sortBy_Permutation Transaction.timestamp
                (List.filter Transaction.isPending (transactions db))) as P.
  split; [|split].
  - intros tx. split.
    + intros H. apply (Permutation_in _ P) in H. apply List.filter_In in H as [H1 H2].
      split; [exact H1|]. unfold Transaction.isPending in H2.
      destruct (Transaction.status tx); [reflexivity | discriminate | discriminate].
    + intros [H1 H2]. apply (Permutation_in _ (Permutation_sym P)).
      apply List.filter_In. split; [exact H1|]. unfold Transaction.isPending. now rewrite H2.
  - apply Permutation_length, P.
  - apply sortBy_sorted.
Qed.

Lemma latestOf_acc (bs : list Block.t) (a : Block.t) :
  exists l,
    fold_left (fun best b =>
                 match best with
                 | None => Some b
                 | Some b0 => if (Block.index b0 <? Block.index b)%Z then Some b else Some b0
                 end) bs (Some a) = Some l
    /\ (l = a \/ In l bs) /\ (Block.index a <= Block.index l)%Z
    /\ (forall b, In b bs -> (Block.index b <= Block.index l)%Z).
Proof.
  revert a. induction bs as [|b bs IH]; intros a; cbn [fold_left].
  - exists a. repeat split; [now left | lia | intros ? []].
  - destruct (Block.index a <? Block.index b)%Z eqn:E.
    + apply Z.ltb_lt in E. destruct (IH b) as (l & -> & Hin & Hle & Hall).
      exists l. split; [reflexivity|]. split; [|split].
      * right. destruct Hin as [->|Hin]; [now left | now right].
      * lia.
      * intros c [<-|Hc]; [exact Hle | now apply Hall].
    + apply Z.ltb_ge in E. destruct (IH a) as (l & -> & Hin & Hle & Hall).
      exists l. split; [reflexivity|]. split; [|split].
      * destruct Hin as [->|Hin]; [now left | right; now right].
      * exact Hle.
      * intros c [<-|Hc]; [lia | now apply Hall].
Qed.

(** X8. [Block.getLatest()] answers [null] exactly on an empty collection, and
    otherwise a stored block whose index no stored block exceeds. *)
Theorem getLatest_is_greatest_index (db : DB) :
  exists r,
    BlockModel.getLatest db = Some (Returned r, db)
    /\ match r with
       | None => blocks db = []
       | Some l => In l (blocks db)
                   /\ forall b, In b (blocks db) -> (Block.index b <= Block.index l)%Z
       end.
Proof.
  exists (BlockModel.latestOf (blocks db)). split; [reflexivity|].
  unfold BlockModel.latestOf. destruct (blocks db) as [|a bs]; [reflexivity|].
  cbn [fold_left]. destruct (latestOf_acc bs a) as (l & -> & Hin & Hle & Hall).
  split.
  - destruct Hin as [->|Hin]; [now left | now right].
  - intros b [<-|Hb]; [exact Hle | now apply Hall].
Qed.

(** ** What the admission loop writes *)

Lemma fail_saved (tx : Transaction.t) (db : DB) :
  TransactionModel.fail tx db
  = Some (Returned (Transaction.set_status failed tx),
          saved (Transaction.set_status failed tx) db).
Proof. reflexivity. Qed.

Lemma failRejected_keeps (rt : Runtime) (ws : gmap string Wallet.t)
    (pend : list Transaction.t) (db : DB) :
  wallets (failRejected rt ws pend db) = wallets db
  /\ blocks (failRejected rt ws pend db) = blocks db
  /\ nextId (failRejected rt ws pend db) = nextId db.
Proof.
  unfold failRejected. revert db. induction pend as [|tx rest IH]; intros db; cbn [fold_left].
  - auto.
  - destruct (eligible rt ws tx); [apply IH|].
    destruct (IH (saved (Transaction.set_status failed tx) db)) as (-> & -> & ->). auto.
Qed.

Lemma selectValid_run_at (rt : Runtime) (ws : gmap string Wallet.t)
    (pend : list Transaction.t) (db : DB) :
  wallets db = ws ->
  BlockchainController.selectValid rt pend db
  = Some (Returned (List.filter (eligible rt ws) pend), failRejected rt ws pend db).
Proof.
  unfold failRejected. intros Hws. revert db Hws.
  induction pend as [|tx rest IH]; intros db Hws.
  - reflexivity.
  - cbn [BlockchainController.selectValid List.filter fold_left].
    assert (Hf : wallets (saved (Transaction.set_status failed tx) db) = ws)
      by (rewrite <- Hws; reflexivity).
    destruct (eligible rt ws tx) eqn:El; unfold eligible in El.
    all: unfold bind at 1; unfold WalletModel.findOne at 1;
         unfold bind at 1, get at 1, ret at 1.
    all: unfold bind at 1; unfold WalletModel.findOne at 1;
         unfold bind at 1, get at 1, ret at 1.
    all: rewrite Hws.
    all: destruct (ws !! Transaction.fromWallet tx) as [source|];
           [destruct (ws !! Transaction.toWallet tx) as [dest|]|]; try discriminate El.
    all: try (destruct (Wallet.canSpend source _) eqn:Hc; cbn [andb] in El;
              try discriminate El;
              unfold CryptoUtils.verifySignature in *;
              try (destruct (Verify_verify rt _ _ _) as [[|]|e]; try discriminate El)).
    all: first
      [ (* kept *)
        unfold bind at 1; unfold bind at 1; unfold lift at 1; unfold ret at 1;
        unfold bind at 1; rewrite (IH db Hws); reflexivity
      | (* signature rejected *)
        unfold bind at 1; unfold bind at 1; unfold lift at 1; unfold bind at 1;
        rewrite fail_saved; unfold ret at 1; unfold bind at 1;
        rewrite (IH _ Hf); reflexivity
      | (* wallet missing or balance short *)
        unfold bind at 1; unfold bind at 1; rewrite fail_saved; unfold ret at 1;
        unfold bind at 1; rewrite (IH _ Hf); reflexivity ].
Qed.

Lemma failRejected_rows (rt : Runtime) (ws : gmap string Wallet.t)
    (pend : list Transaction.t) (db : DB) :
  List.NoDup (map Transaction._id pend) ->
  (forall id, ~ In id (map Transaction._id pend) ->
     rowOf (failRejected rt ws pend db) id = rowOf db id)
  /\ (forall tx, In tx pend ->
        rowOf (failRejected rt ws pend db) (Transaction._id tx)
        = if eligible rt ws tx then rowOf db (Transaction._id tx)
          else match rowOf db (Transaction._id tx) with
               | Some _ => Some (Transaction.set_status failed tx)
               | None => None
               end).
Proof.
  unfold failRejected. revert db.
  induction pend as [|tx rest IH]; intros db Hnd; cbn [fold_left map].
  - split; [reflexivity | intros ? []].
  - cbn [map] in Hnd. apply List.NoDup_cons_iff in Hnd as [Hfresh Hnd].
    set (db1 := if eligible rt ws tx then db
                else saved (Transaction.set_status failed tx) db).
    assert (E : (if eligible rt ws tx then db
                 else saved (Transaction.set_status failed tx) db) = db1) by reflexivity.
    destruct (IH db1 Hnd) as [Hout Hin].
    assert (Hother : forall id, id <> Transaction._id tx -> rowOf db1 id = rowOf db id).
    { intros id Hne. subst db1. destruct (eligible rt ws tx); [reflexivity|].
      apply rowOf_saved_other. cbn. congruence. }
    split.
    + intros id Hnot. cbn [In] in Hnot.
      replace (fold_left _ rest _) with
        (fold_left (fun d tx0 => if eligible rt ws tx0 then d
                                 else saved (Transaction.set_status failed tx0) d) rest db1)
        by (subst db1; destruct (eligible rt ws tx); reflexivity).
      rewrite Hout by tauto. apply Hother. intros ->. tauto.
    + intros t [<-|Ht].
      * replace (fold_left _ rest _) with
          (fold_left (fun d tx0 => if eligible rt ws tx0 then d
                                   else saved (Transaction.set_status failed tx0) d) rest db1)
          by (subst db1; destruct (eligible rt ws tx); reflexivity).
        rewrite Hout by exact Hfresh. subst db1.
        destruct (eligible rt ws tx); [reflexivity|].
        destruct (rowOf db (Transaction._id tx)) eqn:Er.
        -- change (Transaction._id tx)
             with (Transaction._id (Transaction.set_status failed tx)) at 1.
           apply rowOf_saved_same. cbn. congruence.
        -- unfold rowOf, saved, set_transactions in *. cbn [transactions] in *.
           clear -Er. induction (transactions db) as [|row rows IHr]; [reflexivity|].
           cbn [find map] in *.
           destruct (Nat.eqb (Transaction._id row) (Transaction._id tx)) eqn:E1;
             [discriminate|].
           cbn [Transaction._id Transaction.set_status]. rewrite E1. rewrite E1. now apply IHr.
      * replace (fold_left _ rest _) with
          (fold_left (fun d tx0 => if eligible rt ws tx0 then d
                                   else saved (Transaction.set_status failed tx0) d) rest db1)
          by (subst db1; destruct (eligible rt ws tx); reflexivity).
        rewrite (Hin t Ht).
        assert (Hne : Transaction._id t <> Transaction._id tx).
        { intros Heq. apply Hfresh. rewrite <- Heq. now apply in_map. }
        rewrite (Hother _ Hne). reflexivity.
Qed.

Lemma selectValid_run (rt : Runtime) (pend : list Transaction.t) (db : DB) :
  BlockchainController.selectValid rt pend db
  = Some (Returned (List.filter (eligible rt (wallets db)) pend),
          failRejected rt (wallets db) pend db).
Proof. apply selectValid_run_at. reflexivity. Qed.

(** X9. After the admission loop every rejected pending transaction is stored
    with status [failed], every selected one is stored as it was, and no
    other row, wallet or block has changed. *)
Theorem selectValid_marks_rejected_failed
    (rt : Runtime) (pend : list Transaction.t) (db db' : DB) (selected : list Transaction.t) :
  List.NoDup (map Transaction._id pend) ->
  (forall tx, In tx pend -> rowOf db (Transaction._id tx) = Some tx) ->
  BlockchainController.selectValid rt pend db = Some (Returned selected, db') ->
  (forall tx, In tx pend ->
     rowOf db' (Transaction._id tx)
     = Some (if eligible rt (wallets db) tx then tx else Transaction.set_status failed tx))
  /\ (forall id, ~ In id (map Transaction._id pend) -> rowOf db' id = rowOf db id)
  /\ wallets db' = wallets db /\ blocks db' = blocks db.
Proof.
  intros Hnd Hrows H. rewrite selectValid_run in H. injection H as <- <-.
  destruct (failRejected_rows rt (wallets db) pend db Hnd) as [Hout Hin].
  destruct (failRejected_keeps rt (wallets db) pend db) as (Hw & Hb & _).
  split; [|split; [exact Hout | split; [exact Hw | exact Hb]]].
  intros tx Htx. rewrite (Hin tx Htx), (Hrows tx Htx).
  destruct (eligible rt (wallets db) tx); reflexivity.
Qed.

(** ** A successful [mineBlock] *)

Lemma mineBlock_ok_run (rt : Runtime) (fuel : nat) (now : Z) (env : option Z)
    (db db' : DB) (b : Block.t) (n : nat) :
  BlockchainController.mineBlock rt fuel now env db = Some (MineOk b n, db') ->
  BlockchainController.commitLoop (nextId db)
    (List.filter (eligible rt (wallets db)) (pendingOf db)) (beforeCommit rt db b)
  = Some (Returned tt, db').
Proof.
  intros H.
  pose proof (mineBlock_ok_inv rt fuel now env db db' b n H) as Hinv. cbv zeta in Hinv.
  destruct Hinv as (_ & _ & hash & nonce & Emine & Hb & _).
  unfold BlockchainController.mineBlock, BlockchainController.mineBlockBody in H.
  unfold bind at 1 in H.
  unfold TransactionModel.getPending, bind at 1, get at 1, ret at 1 in H.
  fold (pendingOf db) in H.
  destruct (Nat.eqb (length (pendingOf db)) 0); [discriminate|].
  unfold bind at 1 in H. unfold BlockModel.getLatest, bind at 1, get at 1, ret at 1 in H.
  unfold bind at 1 in H. rewrite selectValid_run in H.
  destruct (Nat.eqb (length (List.filter (eligible rt (wallets db)) (pendingOf db))) 0);
    [discriminate|].
  unfold bind at 1, liftFuel at 1 in H. rewrite Emine in H.
  unfold bind at 1 in H. unfold newObjectId, bind at 1, get at 1, ret at 1 in H.
  unfold bind at 1, modify at 1, ret at 1 in H.
  cbn [fst snd] in H.
  destruct (failRejected_keeps rt (wallets db) (pendingOf db) db) as (Hw & Hbk & Hn).
  rewrite Hn in H. rewrite <- Hb in H.
  unfold bind at 1 in H. unfold BlockModel.save, bind at 1, get at 1 in H.
  cbn [blocks] in H.
  destruct (existsb _ _); [discriminate|]. destruct (existsb _ _); [discriminate|].
  unfold modify at 1 in H. unfold bind at 1 in H.
  unfold set_blocks in H. cbn [wallets transactions blocks nextId] in H.
  assert (Hid : Block._id b = nextId db) by (rewrite Hb; reflexivity).
  rewrite Hid in H. unfold beforeCommit. cbv zeta. rewrite Hn.
  destruct (BlockchainController.commitLoop _ _ _) as [[[[]|e] dbc]|];
    [| discriminate | discriminate].
  unfold ret in H. injection H; intros; subst dbc; reflexivity.
Qed.

Lemma NoDup_map_filter {A B} (f : A -> B) (p : A -> bool) (l : list A) :
  List.NoDup (map f l) -> List.NoDup (map f (List.filter p l)).
Proof.
  induction l as [|x l IH]; cbn [map List.filter]; [auto|].
  intros H. apply List.NoDup_cons_iff in H as [Hx Hl].
  destruct (p x); [|now apply IH].
  cbn [map]. constructor; [|now apply IH].
  intros Hin. apply Hx. apply in_map_iff in Hin as (y & <- & Hy).
  apply in_map. now apply List.filter_In in Hy as [? _].
Qed.

Lemma rowOf_of_NoDup (db : DB) (tx : Transaction.t) :
  List.NoDup (map Transaction._id (transactions db)) ->
  In tx (transactions db) -> rowOf db (Transaction._id tx) = Some tx.
Proof.
  unfold rowOf. induction (transactions db) as [|row rows IH]; cbn [map find]; [intros _ []|].
  intros Hnd Hin. apply List.NoDup_cons_iff in Hnd as [Hfresh Hnd].
  destruct Hin as [->|Hin]; [now rewrite Nat.eqb_refl|].
  destruct (Nat.eqb (Transaction._id row) (Transaction._id tx)) eqn:E.
  - apply Nat.eqb_eq in E. exfalso. apply Hfresh. rewrite E. now apply in_map.
  - now apply IH.
Qed.

Lemma pendingOf_facts (db : DB) :
  List.NoDup (map Transaction._id (transactions db)) ->
  List.NoDup (map Transaction._id (pendingOf db))
  /\ forall tx, In tx (pendingOf db) -> In tx (transactions db).
Proof.
  intros Hnd. unfold pendingOf.
  pose proof (sortBy_Permutation Transaction.timestamp
                (List.filter Transaction.isPending (transactions db))) as P.
  split.
  - eapply Permutation_NoDup; [apply Permutation_map, Permutation_sym, P|].
    now apply NoDup_map_filter.
  - intros tx H. apply (Permutation_in _ P) in H. now apply List.filter_In in H as [? _].
Qed.

(** X10. When [mineBlock] answers success, the block it reports is stored last;
    it carries the index after the previous head (0 on an empty chain) and
    the head's hash as [previousHash] (64 zeros on an empty chain); its hash
    is the digest of its header and meets the difficulty; its Merkle root is
    the root of the hashes of its transactions, which are the pending
    transactions that pass the admission test, in [getPending] order; and
    each of them is stored confirmed with the block's id. *)
Theorem mineBlock_success_seals_and_confirms
    (rt : Runtime) (fuel : nat) (now : Z) (env : option Z) (db db' : DB)
    (b : Block.t) (n : nat) :
  List.NoDup (map Transaction._id (transactions db)) ->
  BlockchainController.mineBlock rt fuel now env db = Some (MineOk b n, db') ->
  let sel := List.filter (eligible rt (wallets db)) (pendingOf db) in
  blocks db' = blocks db ++ [b]
  /\ Block.index b = match BlockModel.latestOf (blocks db) with
                     | Some l => (Block.index l + 1)%Z
                     | None => 0%Z
                     end
  /\ Block.previousHash b = match BlockModel.latestOf (blocks db) with
                            | Some l => Block.hash l
                            | None => JS.replicate_string 64 "0"
                            end
  /\ Block.hash b = CryptoUtils.calculateBlockHash rt (Block.index b) (Block.previousHash b)
                      (Block.timestamp b) (Block.merkleRoot b) (Block.nonce b)
  /\ (Block.difficulty b <= Z.of_nat (leadingZeros (Block.hash b)))%Z
  /\ Block.merkleRoot b = CryptoUtils.calculateMerkleRoot (map Transaction.hash sel)
  /\ Block.transactions b = map Transaction._id sel
  /\ n = length sel /\ sel <> []
  /\ forall tx, In tx sel ->
       rowOf db' (Transaction._id tx) = Some (confirmedAs (Block._id b) tx).
Proof.
  intros Hnd H sel.
  pose proof (mineBlock_ok_run rt fuel now env db db' b n H) as Hrun. fold sel in Hrun.
  pose proof (mineBlock_ok_inv rt fuel now env db db' b n H) as Hinv. cbv zeta in Hinv.
  fold sel in Hinv.
  destruct Hinv as (Hne & Hn & hash & nonce & Emine & Hb & Hbs & _).
  apply mineBlock_meets_target in Emine as [Hzeros Hhash].
  destruct (pendingOf_facts db Hnd) as [Hpnd Hpin].
  assert (Hselnd : List.NoDup (map Transaction._id sel)) by now apply NoDup_map_filter.
  assert (Hbid : Block._id b = nextId db) by (rewrite Hb; reflexivity).
  split; [exact Hbs|]. rewrite Hb at 1 2 3 4 5 6 7 8 9 10 11 12.
  cbn [Block.index Block.previousHash Block.hash Block.timestamp Block.merkleRoot
       Block.nonce Block.difficulty Block.transactions].
  repeat split; try reflexivity; try assumption.
  - symmetry. exact Hhash.
  - intros tx Htx.
    destruct (commitLoop_outcome (nextId db) sel (beforeCommit rt db b) Hselnd)
      as (r & dbc & Ec & _ & _ & _ & Hout).
    + intros t Ht. unfold beforeCommit, rowOf. cbn [transactions].
      fold (rowOf (failRejected rt (wallets db) (pendingOf db) db) (Transaction._id t)).
      destruct (failRejected_rows rt (wallets db) (pendingOf db) db Hpnd) as [_ Hin].
      apply List.filter_In in Ht as [Htp Hel].
      rewrite (Hin t Htp), Hel, (rowOf_of_NoDup db t Hnd (Hpin t Htp)). discriminate.
    + rewrite Hrun in Ec. injection Ec as <- <-. cbn [commitOutcome] in Hout.
      rewrite Hbid. now apply Hout.
Qed.

(** ** A sealed block under [validateBlockchain]'s checks *)

Lemma sameKeys_refl (ws : gmap string Wallet.t) : sameKeys ws ws.
Proof. intros k. destruct (ws !! k); auto. Qed.

Lemma sameKeys_trans (a b c : gmap string Wallet.t) :
  sameKeys a b -> sameKeys b c -> sameKeys a c.
Proof.
  intros H1 H2 k. specialize (H1 k). specialize (H2 k).
  destruct (a !! k), (b !! k), (c !! k); try tauto.
  destruct H1, H2. split; congruence.
Qed.

Lemma sameKeys_keyed (ws ws' : gmap string Wallet.t) :
  keyed ws -> sameKeys ws ws' -> keyed ws'.
Proof.
  intros Hk Hs k w' Hw'. specialize (Hs k). rewrite Hw' in Hs.
  destruct (ws !! k) as [w|] eqn:E; [|contradiction].
  destruct Hs as [_ ->]. now apply Hk.
Qed.

Lemma sameKeys_set_balance (ws ws' : gmap string Wallet.t) (k : string) (w : Wallet.t)
    (b : float) :
  sameKeys ws ws' -> ws !! k = Some w ->
  sameKeys ws (<[k := Wallet.set_balance b w]> ws').
Proof.
  intros Hs Hw j. destruct (decide (k = j)) as [<-|Hne].
  - rewrite lookup_insert_eq, Hw. cbn. auto.
  - rewrite lookup_insert_ne by exact Hne. apply Hs.
Qed.

Lemma settle_sameKeys (ws : gmap string Wallet.t) (tx : Transaction.t) :
  keyed ws -> sameKeys ws (settle ws tx).
Proof.
  intros Hk. unfold settle, credit, debit.
  assert (Hd : sameKeys ws
                 match ws !! Transaction.fromWallet tx with
                 | Some w =>
                     <[Wallet.address w :=
                         Wallet.set_balance
                           (PrimFloat.add (Wallet.balance w)
                              (PrimFloat.opp
                                 (PrimFloat.add (Transaction.amount tx) (Transaction.fee tx))))
                           w]> ws
                 | None => ws
                 end).
  { destruct (ws !! Transaction.fromWallet tx) as [w|] eqn:E; [|apply sameKeys_refl].
    rewrite (Hk _ _ E). apply sameKeys_set_balance; [apply sameKeys_refl | exact E]. }
  destruct (ws !! Transaction.toWallet tx) as [w|] eqn:E; [|exact Hd].
  rewrite (Hk _ _ E). apply sameKeys_set_balance; [exact Hd | exact E].
Qed.

Lemma fold_settle_sameKeys (txs : list Transaction.t) (ws : gmap string Wallet.t) :
  keyed ws -> sameKeys ws (fold_left settle txs ws).
Proof.
  revert ws. induction txs as [|tx txs IH]; intros ws Hk; cbn [fold_left].
  - apply sameKeys_refl.
  - pose proof (settle_sameKeys ws tx Hk) as Hs.
    eapply sameKeys_trans; [exact Hs|]. apply IH. eapply sameKeys_keyed; eassumption.
Qed.

Lemma populate_confirmed (db : DB) (bid : nat) (sel : list Transaction.t) :
  (forall tx, In tx sel -> rowOf db (Transaction._id tx) = Some (confirmedAs bid tx)) ->
  BlockchainController.populate db (map Transaction._id sel) = map (confirmedAs bid) sel.
Proof.
  unfold BlockchainController.populate.
  induction sel as [|tx sel IH]; intros H; [reflexivity|].
  cbn [map omap list_omap].
  change (find (fun row => Nat.eqb (Transaction._id row) (Transaction._id tx))
            (transactions db)) with (rowOf db (Transaction._id tx)).
  rewrite (H tx) by now left. f_equal. apply IH. intros t Ht. apply H. now right.
Qed.

Lemma signatureIssues_confirmed (rt : Runtime) (db db' : DB) (bid : nat)
    (sel : list Transaction.t) :
  sameKeys (wallets db) (wallets db') ->
  (forall tx, In tx sel -> eligible rt (wallets db) tx = true) ->
  BlockchainController.signatureIssues rt db' (map (confirmedAs bid) sel) = [].
Proof.
  intros Hs Hel. unfold BlockchainController.signatureIssues.
  induction sel as [|tx sel IH]; [reflexivity|].
  cbn [map flat_map]. rewrite IH by (intros t Ht; apply Hel; now right).
  rewrite app_nil_r.
  specialize (Hel tx (or_introl eq_refl)). unfold eligible in Hel.
  change (Transaction.fromWallet (confirmedAs bid tx)) with (Transaction.fromWallet tx).
  change (BlockchainController.transactionData rt (confirmedAs bid tx))
    with (BlockchainController.transactionData rt tx).
  change (Transaction.signature (confirmedAs bid tx)) with (Transaction.signature tx).
  specialize (Hs (Transaction.fromWallet tx)).
  destruct (wallets db !! Transaction.fromWallet tx) as [source|]; [|discriminate].
  destruct (wallets db' !! Transaction.fromWallet tx) as [source'|]; [|contradiction].
  destruct Hs as [-> _].
  destruct (wallets db !! Transaction.toWallet tx); [|discriminate].
  apply andb_prop in Hel as [_ Hv].
  destruct (CryptoUtils.verifySignature rt _ _ _) as [[|]|]; [reflexivity | discriminate ..].
Qed.

Lemma mined_block_issues_nil
    (rt : Runtime) (fuel : nat) (now : Z) (env : option Z) (db db' : DB)
    (b : Block.t) (n : nat) :
  List.NoDup (map Transaction._id (transactions db)) ->
  keyed (wallets db) ->
  BlockchainController.mineBlock rt fuel now env db = Some (MineOk b n, db') ->
  BlockchainController.blockIssues rt db' (Block.index b) (BlockModel.latestOf (blocks db)) b
  = [].
Proof.
  intros Hnd Hk H.
  pose proof (mineBlock_ok_run rt fuel now env db db' b n H) as Hrun.
  pose proof (mineBlock_ok_inv rt fuel now env db db' b n H) as Hinv. cbv zeta in Hinv.
  set (sel := List.filter (eligible rt (wallets db)) (pendingOf db)) in *.
  destruct Hinv as (Hne & Hn & hash & nonce & Emine & Hb & Hbs & Hws & _).
  apply mineBlock_meets_target in Emine as [_ Hhash].
  destruct (pendingOf_facts db Hnd) as [Hpnd Hpin].
  assert (Hselnd : List.NoDup (map Transaction._id sel)) by now apply NoDup_map_filter.
  assert (Hconf : forall tx, In tx sel ->
            rowOf db' (Transaction._id tx) = Some (confirmedAs (nextId db) tx)).
  { destruct (commitLoop_outcome (nextId db) sel (beforeCommit rt db b) Hselnd)
      as (r & dbc & Ec & _ & _ & _ & Hout).
    - intros t Ht. unfold beforeCommit, rowOf. cbn [transactions].
      fold (rowOf (failRejected rt (wallets db) (pendingOf db) db) (Transaction._id t)).
      destruct (failRejected_rows rt (wallets db) (pendingOf db) db Hpnd) as [_ Hin].
      apply List.filter_In in Ht as [Htp Hel].
      rewrite (Hin t Htp), Hel, (rowOf_of_NoDup db t Hnd (Hpin t Htp)). discriminate.
    - rewrite Hrun in Ec. injection Ec as <- <-. cbn [commitOutcome] in Hout. apply Hout. }
  assert (Hsame : sameKeys (wallets db) (wallets db')).
  { rewrite Hws. now apply fold_settle_sameKeys. }
  unfold BlockchainController.blockIssues. cbv zeta.
  rewrite Hb.
  cbn [Block.index Block.previousHash Block.hash Block.timestamp Block.merkleRoot
       Block.nonce Block.transactions].
  rewrite (populate_confirmed db' (nextId db) sel Hconf).
  rewrite (signatureIssues_confirmed rt db db' (nextId db) sel Hsame)
    by (intros t Ht; now apply List.filter_In in Ht as [_ ?]).
  rewrite Z.eqb_refl. rewrite Hhash, String.eqb_refl.
  replace (map Transaction.hash (map (confirmedAs (nextId db)) sel))
    with (map Transaction.hash sel)
    by (rewrite map_map; reflexivity).
  rewrite String.eqb_refl.
  destruct (BlockModel.latestOf (blocks db)) as [l|]; [rewrite String.eqb_refl|]; reflexivity.
Qed.

(** ** Evaluations on the small ledger *)

Lemma small_keyed : keyed Small.ws.
Proof.
  intros k w H. unfold Small.ws in H.
  apply lookup_insert_Some in H as [[<- <-]|[_ H]]; [reflexivity|].
  apply lookup_insert_Some in H as [[<- <-]|[_ H]]; [reflexivity|].
  rewrite lookup_empty in H. discriminate.
Qed.

Lemma small_ids : List.NoDup (map Transaction._id (transactions Small.db)).
Proof. cbn. repeat constructor; cbn; intuition discriminate. Qed.

Lemma small_pending_ids : List.NoDup (map Transaction._id [Small.s1; Small.s2]).
Proof. exact small_ids. Qed.

Lemma small_rows (tx : Transaction.t) :
  In tx [Small.s1; Small.s2] -> rowOf Small.db (Transaction._id tx) = Some tx.
Proof. intros [<-|[<-|[]]]; reflexivity. Qed.

Lemma selectValid_marks_rejected_failed_witness :
  exists selected db',
    BlockchainController.selectValid utcRuntime [Small.s1; Small.s2] Small.db
      = Some (Returned selected, db')
    /\ (forall tx, In tx [Small.s1; Small.s2] ->
          rowOf db' (Transaction._id tx)
          = Some (if eligible utcRuntime (wallets Small.db) tx then tx
                  else Transaction.set_status failed tx))
    /\ (forall id, ~ In id (map Transaction._id [Small.s1; Small.s2]) ->
          rowOf db' id = rowOf Small.db id)
    /\ wallets db' = wallets Small.db /\ blocks db' = blocks Small.db.
Proof.
  pose proof (selectValid_run utcRuntime [Small.s1; Small.s2] Small.db) as E.
  eexists _, _. split; [exact E|].
  exact (selectValid_marks_rejected_failed utcRuntime _ Small.db _ _
           small_pending_ids small_rows E).
Defined.

Lemma small_mined :
  exists b db',
    BlockchainController.mineBlock utcRuntime 100 1700000005000 (Some 1%Z) Small.db
    = Some (MineOk b 1, db').
Proof.
  destruct (BlockchainController.mineBlock utcRuntime 100 1700000005000 (Some 1%Z) Small.db)
    as [[[b n|s e] db']|] eqn:E.
  - exists b, db'. vm_compute in E. injection E as <- <- <-. reflexivity.
  - vm_compute in E. discriminate E.
  - vm_compute in E. discriminate E.
Defined.

Lemma mineBlock_success_seals_and_confirms_witness :
  exists b db',
    BlockchainController.mineBlock utcRuntime 100 1700000005000 (Some 1%Z) Small.db
      = Some (MineOk b 1, db')
    /\ let sel := List.filter (eligible utcRuntime (wallets Small.db)) (pendingOf Small.db) in
       blocks db' = blocks Small.db ++ [b]
       /\ Block.index b = match BlockModel.latestOf (blocks Small.db) with
                          | Some l => (Block.index l + 1)%Z
                          | None => 0%Z
                          end
       /\ Block.previousHash b = match BlockModel.latestOf (blocks Small.db) with
                                 | Some l => Block.hash l
                                 | None => JS.replicate_string 64 "0"
                                 end
       /\ Block.hash b
          = CryptoUtils.calculateBlockHash utcRuntime (Block.index b) (Block.previousHash b)
              (Block.timestamp b) (Block.merkleRoot b) (Block.nonce b)
       /\ (Block.difficulty b <= Z.of_nat (leadingZeros (Block.hash b)))%Z
       /\ Block.merkleRoot b = CryptoUtils.calculateMerkleRoot (map Transaction.hash sel)
       /\ Block.transactions b = map Transaction._id sel
       /\ 1 = length sel /\ sel <> []
       /\ forall tx, In tx sel ->
            rowOf db' (Transaction._id tx) = Some (confirmedAs (Block._id b) tx).
Proof.
  destruct small_mined as (b & db' & E). exists b, db'. split; [exact E|].
  exact (mineBlock_success_seals_and_confirms utcRuntime _ _ _ Small.db db' b 1 small_ids E).
Defined.

(** ** [initializeGenesis] and the error paths of [mineBlock] *)

Lemma find_app_none {A} (p : A -> bool) (l : list A) (x : A) :
  find p l = None -> p x = true -> find p (l ++ [x]) = Some x.
Proof.
  induction l as [|y l IH]; cbn [find app]; intros Hn Hx.
  - now rewrite Hx.
  - destruct (p y); [discriminate | now apply IH].
Qed.

Lemma initializeGenesis_unfold (db : DB) :
  BlockchainController.initializeGenesis db =
    match find (fun b => (Block.index b =? 0)%Z) (blocks db) with
    | Some g => Some (Returned g, db)
    | None =>
        let g := BlockchainController.genesisBlock (nextId db) in
        let db0 := mkDB (wallets db) (transactions db) (blocks db) (S (nextId db)) in
        if existsb (fun row => (Block.index row =? 0)%Z) (blocks db)
        then Some (Threw (DuplicateKeyError "index"), db0)
        else if existsb (fun row => String.eqb (Block.hash row) BlockchainController.genesisHash)
                        (blocks db)
        then Some (Threw (DuplicateKeyError "hash"), db0)
        else Some (Returned g,
                   mkDB (wallets db) (transactions db) (blocks db ++ [g]) (S (nextId db)))
    end.
Proof.
  unfold BlockchainController.initializeGenesis. unfold_M.
  destruct (find _ (blocks db)); [reflexivity|].
  cbn [blocks wallets transactions nextId Block.index Block.hash
       BlockchainController.genesisBlock].
  destruct (existsb _ (blocks db)); [reflexivity|].
  destruct (existsb _ (blocks db)); reflexivity.
Qed.

(** X12. [initializeGenesis] is idempotent: once it has returned a block, calling
    it again returns that same block and writes nothing. *)
Theorem initializeGenesis_idempotent (db db1 : DB) (g : Block.t) :
  BlockchainController.initializeGenesis db = Some (Returned g, db1) ->
  BlockchainController.initializeGenesis db1 = Some (Returned g, db1).
Proof.
  rewrite (initializeGenesis_unfold db).
  destruct (find (fun b => (Block.index b =? 0)%Z) (blocks db)) as [g0|] eqn:Eg.
  - intros H. injection H as <- <-. rewrite initializeGenesis_unfold, Eg. reflexivity.
  - cbv zeta.
    destruct (existsb _ (blocks db)); [discriminate|].
    destruct (existsb _ (blocks db)); [discriminate|].
    intros H. injection H as <- <-. rewrite initializeGenesis_unfold. cbn [blocks].
    rewrite (find_app_none _ _ (BlockchainController.genesisBlock (nextId db)) Eg eq_refl).
    reflexivity.
Qed.

Lemma initializeGenesis_idempotent_witness :
  BlockchainController.initializeGenesis
    (mkDB Small.ws [] [BlockchainController.genesisBlock 5] 6)
  = Some (Returned (BlockchainController.genesisBlock 5),
          mkDB Small.ws [] [BlockchainController.genesisBlock 5] 6).
Proof.
  apply (initializeGenesis_idempotent (mkDB Small.ws [] [] 5)).
  apply initializeGenesis_fresh. reflexivity.
Defined.

(** X13. With a negative [MINING_DIFFICULTY], [mineBlock] answers 500 as soon as
    some pending transaction is admissible, whatever the fuel: no block is
    stored and no wallet changes, but the rejected transactions have already
    been marked failed. *)
Theorem mineBlock_negative_difficulty_answers_500
    (rt : Runtime) (fuel : nat) (now : Z) (d : Z) (db : DB) :
  (d < 0)%Z ->
  List.filter (eligible rt (wallets db)) (pendingOf db) <> [] ->
  BlockchainController.mineBlock rt fuel now (Some d) db
  = Some (MineError 500 "Mining failed", failRejected rt (wallets db) (pendingOf db) db)
  /\ blocks (failRejected rt (wallets db) (pendingOf db) db) = blocks db
  /\ wallets (failRejected rt (wallets db) (pendingOf db) db) = wallets db.
Proof.
  intros Hd Hsel.
  destruct (failRejected_keeps rt (wallets db) (pendingOf db) db) as (Hw & Hb & _).
  split; [|auto].
  unfold BlockchainController.mineBlock, BlockchainController.mineBlockBody.
  unfold bind at 1. unfold TransactionModel.getPending, bind at 1, get at 1, ret at 1.
  fold (pendingOf db).
  destruct (pendingOf db) as [|p ps] eqn:Ep; [cbn in Hsel; congruence|].
  cbn [length Nat.eqb]. rewrite <- Ep.
  unfold bind at 1. unfold BlockModel.getLatest, bind at 1, get at 1, ret at 1.
  unfold bind at 1. rewrite selectValid_run.
  destruct (List.filter (eligible rt (wallets db)) (pendingOf db)) as [|t ts] eqn:Es;
    [congruence|].
  cbn [length Nat.eqb].
  unfold bind at 1, liftFuel at 1.
  assert (Hdiff : BlockchainController.miningDifficulty (Some d) = d).
  { unfold BlockchainController.miningDifficulty.
    destruct (d =? 0)%Z eqn:E; [apply Z.eqb_eq in E; lia | reflexivity]. }
  rewrite Hdiff, mineBlock_negative_difficulty_throws by exact Hd. reflexivity.
Qed.

Lemma mineBlock_negative_difficulty_answers_500_witness :
  BlockchainController.mineBlock utcRuntime 0 1700000005000 (Some (-1)%Z) Small.db
  = Some (MineError 500 "Mining failed",
          failRejected utcRuntime (wallets Small.db) (pendingOf Small.db) Small.db)
  /\ blocks (failRejected utcRuntime (wallets Small.db) (pendingOf Small.db) Small.db)
     = blocks Small.db
  /\ wallets (failRejected utcRuntime (wallets Small.db) (pendingOf Small.db) Small.db)
     = wallets Small.db.
Proof.
  apply (mineBlock_negative_difficulty_answers_500 utcRuntime 0 1700000005000 (-1) Small.db).
  - lia.
  - vm_compute. discriminate.
Defined.

(** ** The balance writes of one confirmed transaction *)

(** X14. Between two different wallets, confirming a transaction takes
    [amount + fee] off the sender's balance and adds [amount] to the
    receiver's, and touches no other wallet. *)
Theorem commitLoop_moves_amount_and_fee
    (blockId : nat) (tx : Transaction.t) (db : DB) (source destination : Wallet.t) :
  keyed (wallets db) ->
  wallets db !! Transaction.fromWallet tx = Some source ->
  wallets db !! Transaction.toWallet tx = Some destination ->
  Transaction.fromWallet tx <> Transaction.toWallet tx ->
  debitOk (wallets db) tx = true ->
  creditOk (wallets db) tx = true ->
  exists db',
    BlockchainController.commitLoop blockId [tx] db = Some (Returned tt, db')
    /\ wallets db' !! Transaction.fromWallet tx
       = Some (Wallet.set_balance
                 (PrimFloat.add (Wallet.balance source)
                    (PrimFloat.opp (PrimFloat.add (Transaction.amount tx) (Transaction.fee tx))))
                 source)
    /\ wallets db' !! Transaction.toWallet tx
       = Some (Wallet.set_balance
                 (PrimFloat.add (Wallet.balance destination) (Transaction.amount tx))
                 destination)
    /\ forall k, k <> Transaction.fromWallet tx -> k <> Transaction.toWallet tx ->
         wallets db' !! k = wallets db !! k.
Proof.
  intros Hk Hs Hd Hne Hdo Hco.
  rewrite commitLoop_step. cbv zeta. rewrite Hdo, Hco.
  cbn [BlockchainController.commitLoop]. unfold ret. eexists. split; [reflexivity|].
  cbn [wallets set_wallets]. unfold settle, credit, debit. rewrite Hs, Hd.
  rewrite (Hk _ _ Hs), (Hk _ _ Hd).
  split; [|split].
  - rewrite lookup_insert_ne by congruence. now rewrite lookup_insert_eq.
  - now rewrite lookup_insert_eq.
  - intros k H1 H2. rewrite !lookup_insert_ne by congruence. reflexivity.
Qed.

Lemma commitLoop_moves_amount_and_fee_witness :
  exists db',
    BlockchainController.commitLoop 9 [Small.s1] Small.db = Some (Returned tt, db')
    /\ wallets db' !! "a" = Some (Wallet.set_balance 89 Small.walletA)
    /\ wallets db' !! "b" = Some (Wallet.set_balance 10 Small.walletB)
    /\ forall k, k <> "a" -> k <> "b" -> wallets db' !! k = wallets Small.db !! k.
Proof.
  refine (commitLoop_moves_amount_and_fee 9 Small.s1 Small.db Small.walletA Small.walletB
            small_keyed _ _ _ _ _).
  - reflexivity.
  - reflexivity.
  - discriminate.
  - reflexivity.
  - reflexivity.
Defined.

(** X15. When sender and receiver are the same wallet, both documents are read
    before either is written, so the receiver's write replaces the sender's:
    the wallet ends with [balance + amount], the debit of [amount + fee] is
    lost. *)
Theorem commitLoop_self_transfer_loses_debit
    (blockId : nat) (tx : Transaction.t) (db : DB) (w : Wallet.t) :
  keyed (wallets db) ->
  Transaction.toWallet tx = Transaction.fromWallet tx ->
  wallets db !! Transaction.fromWallet tx = Some w ->
  debitOk (wallets db) tx = true ->
  creditOk (wallets db) tx = true ->
  exists db',
    BlockchainController.commitLoop blockId [tx] db = Some (Returned tt, db')
    /\ wallets db' !! Transaction.fromWallet tx
       = Some (Wallet.set_balance
                 (PrimFloat.add (Wallet.balance w) (Transaction.amount tx)) w).
Proof.
  intros Hk Hsame Hw Hdo Hco.
  rewrite commitLoop_step. cbv zeta. rewrite Hdo, Hco.
  cbn [BlockchainController.commitLoop]. unfold ret. eexists. split; [reflexivity|].
  cbn [wallets set_wallets]. unfold settle, credit, debit. rewrite Hsame, Hw.
  rewrite (Hk _ _ Hw). now rewrite lookup_insert_eq.
Qed.

Lemma commitLoop_self_transfer_loses_debit_witness :
  let tx := Transaction.mk 7 "u1" "a" "a" 10 1 "" 0 pending None "h" in
  exists db',
    BlockchainController.commitLoop 9 [tx] (mkDB Small.ws [tx] [] 8) = Some (Returned tt, db')
    /\ wallets db' !! "a" = Some (Wallet.set_balance 110 Small.walletA).
Proof.
  intros tx.
  refine (commitLoop_self_transfer_loses_debit 9 tx (mkDB Small.ws [tx] [] 8) Small.walletA
            small_keyed _ _ _ _); reflexivity.
Defined.

(** ** [createTransaction] *)

(** What a 201 answer of [createTransaction] says. *)
Lemma createTransaction_created_inv
    (rt : Runtime) (user fromWallet toWallet : string) (amount : float) (fee : option float)
    (privateKey : string) (now nonce : Z) (db db' : DB) (tx : Transaction.t) :
  TransactionController.createTransaction rt user fromWallet toWallet amount fee privateKey
    now nonce db = Some (Created tx, db') ->
  let fee' := default 0.001%float fee in
  let data := TransactionController.transactionData rt fromWallet toWallet amount fee' now nonce in
  exists signature source destination,
    tx = Transaction.mk (nextId db) user fromWallet toWallet amount fee' signature now pending
           None (CryptoUtils.createTransactionHash rt fromWallet toWallet amount now nonce)
    /\ CryptoUtils.signData rt data privateKey = Returned signature
    /\ CryptoUtils.verifySignature rt data signature (Wallet.publicKey source) = Returned true
    /\ wallets db !! fromWallet = Some source
    /\ wallets db !! toWallet = Some destination
    /\ Wallet.userId source = user
    /\ Wallet.canSpend source (PrimFloat.add amount fee') = true
    /\ CryptoUtils.isValidAddress fromWallet = true
    /\ CryptoUtils.isValidAddress toWallet = true
    /\ fromWallet <> toWallet
    /\ existsb (fun row => String.eqb (Transaction.hash row) (Transaction.hash tx))
         (transactions db) = false
    /\ TransactionModel.passesSchema tx = true
    /\ db' = mkDB (wallets db) (transactions db ++ [tx]) (blocks db) (S (nextId db)).
Proof.
  intros H fee' data.
  unfold TransactionController.createTransaction,
         TransactionController.createTransactionBody in H.
  fold fee' in H. fold data in H.
  destruct (negb (CryptoUtils.isValidAddress fromWallet)
            || negb (CryptoUtils.isValidAddress toWallet)) eqn:Ea;
    [unfold ret in H; discriminate|].
  apply orb_false_elim in Ea as [Ea1 Ea2].
  apply negb_false_iff in Ea1. apply negb_false_iff in Ea2.
  destruct (String.eqb fromWallet toWallet) eqn:Eft; [unfold ret in H; discriminate|].
  apply String.eqb_neq in Eft.
  unfold bind at 1 in H. unfold WalletModel.findOne at 1, bind at 1, get at 1, ret at 1 in H.
  destruct (wallets db !! fromWallet) as [source|] eqn:Es; [|unfold ret in H; discriminate].
  destruct (negb (String.eqb (Wallet.userId source) user)) eqn:Eu;
    [unfold ret in H; discriminate|].
  apply negb_false_iff, String.eqb_eq in Eu.
  unfold bind at 1 in H. unfold WalletModel.findOne at 1, bind at 1, get at 1, ret at 1 in H.
  destruct (wallets db !! toWallet) as [dest|] eqn:Ed; [|unfold ret in H; discriminate].
  destruct (negb (Wallet.canSpend source (PrimFloat.add amount fee'))) eqn:Ec;
    [unfold ret in H; discriminate|].
  apply negb_false_iff in Ec.
  unfold bind at 1, lift at 1 in H.
  destruct (CryptoUtils.signData rt data privateKey) as [signature|e] eqn:Esig;
    [|destruct e; discriminate].
  unfold bind at 1, lift at 1 in H.
  destruct (CryptoUtils.verifySignature rt data signature (Wallet.publicKey source))
    as [[|]|e] eqn:Ev; cbn [negb] in H;
    [| unfold ret in H; discriminate | destruct e; discriminate].
  unfold bind at 1 in H. unfold newObjectId, bind at 1, get at 1, ret at 1 in H.
  unfold bind at 1, modify at 1, ret at 1 in H.
  unfold bind at 1 in H. unfold TransactionModel.insert in H.
  destruct (negb (TransactionModel.passesSchema _)) eqn:Eschema;
    [unfold throw in H; discriminate|].
  apply negb_false_iff in Eschema.
  unfold bind at 1, get at 1 in H.
  cbn [transactions] in H.
  destruct (existsb _ (transactions db)) eqn:Edup; [unfold throw in H; discriminate|].
  unfold modify, ret, set_transactions in H. cbn [wallets transactions blocks nextId] in H.
  injection H as <- <-.
  exists signature, source, dest. repeat split; try assumption; try reflexivity.
Qed.

(** X16. [createTransaction] always answers; it never writes a wallet or a block;
    a 201 answer appends exactly one row, pending and without block, between
    two different well-formed addresses, with an amount of at least
    0.00000001 and a fee of at least 0, under a hash no stored row has; any
    other answer leaves the transactions as they were. *)
Theorem createTransaction_appends_one_pending_row
    (rt : Runtime) (user fromWallet toWallet : string) (amount : float) (fee : option float)
    (privateKey : string) (now nonce : Z) (db : DB) :
  exists r db',
    TransactionController.createTransaction rt user fromWallet toWallet amount fee privateKey
      now nonce db = Some (r, db')
    /\ wallets db' = wallets db /\ blocks db' = blocks db
    /\ match r with
       | Created tx =>
           transactions db' = transactions db ++ [tx]
           /\ Transaction.status tx = pending /\ Transaction.blockId tx = None
           /\ Transaction.fromWallet tx <> Transaction.toWallet tx
           /\ CryptoUtils.isValidAddress (Transaction.fromWallet tx) = true
           /\ CryptoUtils.isValidAddress (Transaction.toWallet tx) = true
           /\ PrimFloat.leb 0.00000001 (Transaction.amount tx) = true
           /\ PrimFloat.leb 0 (Transaction.fee tx) = true
           /\ forall row, In row (transactions db) ->
                Transaction.hash row <> Transaction.hash tx
       | CreateError _ _ => transactions db' = transactions db
       end.
Proof.
  destruct (TransactionController.createTransaction rt user fromWallet toWallet amount fee
              privateKey now nonce db) as [[[tx|s e] db']|] eqn:E.
  - exists (Created tx), db'. split; [reflexivity|].
    apply createTransaction_created_inv in E. cbv zeta in E.
    destruct E as (sg & src & dst & Htx & _ & _ & _ & _ & _ & _ & Ha1 & Ha2 & Hne & Hdup & Hsch & ->).
    cbn [wallets blocks transactions]. split; [reflexivity|]. split; [reflexivity|].
    split; [reflexivity|]. rewrite Htx at 1 2 3 4 5 6 7 8.
    cbn [Transaction.status Transaction.blockId Transaction.fromWallet Transaction.toWallet
         Transaction.amount Transaction.fee].
    unfold TransactionModel.passesSchema in Hsch. rewrite Htx in Hsch.
    cbn [Transaction.amount Transaction.fee] in Hsch.
    apply andb_prop in Hsch as [Hsch Hfee]. apply andb_prop in Hsch as [_ Hamt].
    repeat split; try assumption.
    intros row Hrow Heq.
    assert (Hex : existsb (fun row => String.eqb (Transaction.hash row) (Transaction.hash tx))
                    (transactions db) = true).
    { apply existsb_exists. exists row. split; [exact Hrow|]. now apply String.eqb_eq. }
    congruence.
  - exists (CreateError s e), db'. split; [reflexivity|].
    unfold TransactionController.createTransaction,
           TransactionController.createTransactionBody in E.
    unfold_M. cbn [wallets transactions blocks nextId] in E.
    repeat case_match; inv_results; cbn; auto.
  - exfalso.
    unfold TransactionController.createTransaction,
           TransactionController.createTransactionBody in E.
    unfold_M. repeat case_match; inv_results.
Qed.

Lemma string_append_cancel_l (s a b : string) : s +:+ a = s +:+ b -> a = b.
Proof.
  induction s as [|c s IH]; [exact (fun H => H)|].
  rewrite !string_append_cons. intros H. injection H as H. now apply IH.
Qed.

Lemma string_append_cancel_r (a b t : string) : a +:+ t = b +:+ t -> a = b.
Proof.
  revert b. induction a as [|c a IH]; intros [|d b] H.
  - reflexivity.
  - exfalso. apply (f_equal String.length) in H.
    rewrite !string_length_append in H. cbn [String.length] in H. lia.
  - exfalso. apply (f_equal String.length) in H.
    rewrite !string_length_append in H. cbn [String.length] in H. lia.
  - rewrite !string_append_cons in H. injection H as -> H. f_equal. now apply IH.
Qed.

(** X17. A transaction stored by [createTransaction] can never be sealed: if its
    signature verifies under the sender's key for no other payload than the
    one it was made from, the admission test of [mineBlock] rejects it on
    the database [createTransaction] left, because sealing rebuilds the
    payload without the nonce. *)
Theorem created_transaction_is_rejected_at_sealing
    (rt : Runtime) (user fromWallet toWallet : string) (amount : float) (fee : option float)
    (privateKey : string) (now nonce : Z) (db db' : DB) (tx : Transaction.t) :
  TransactionController.createTransaction rt user fromWallet toWallet amount fee privateKey
    now nonce db = Some (Created tx, db') ->
  (forall source payload,
     wallets db !! fromWallet = Some source ->
     Verify_verify rt payload (Wallet.publicKey source) (Transaction.signature tx)
       = Returned true ->
     payload = TransactionController.transactionData rt fromWallet toWallet amount
                 (default 0.001%float fee) now nonce) ->
  eligible rt (wallets db') tx = false.
Proof.
  intros H Hbind.
  apply createTransaction_created_inv in H. cbv zeta in H.
  destruct H as (sg & src & dst & Htx & _ & _ & Hs & Hd & _ & _ & _ & _ & _ & _ & _ & ->).
  cbn [wallets]. unfold eligible.
  assert (Hf : Transaction.fromWallet tx = fromWallet) by (rewrite Htx; reflexivity).
  rewrite Hf, Hs.
  destruct (wallets db !! Transaction.toWallet tx); [|reflexivity].
  destruct (Wallet.canSpend src _); [cbn [andb] | reflexivity].
  unfold CryptoUtils.verifySignature.
  destruct (Verify_verify rt (BlockchainController.transactionData rt tx)
              (Wallet.publicKey src) (Transaction.signature tx)) as [[|]|e] eqn:Ev;
    [| reflexivity | reflexivity].
  exfalso. apply (Hbind src _ Hs) in Ev.
  pose proof (signed_payload_is_verified_payload_and_nonce rt tx nonce) as Hp.
  rewrite Htx in Hp at 1 2 3 4 5.
  cbn [Transaction.fromWallet Transaction.toWallet Transaction.amount Transaction.fee
       Transaction.timestamp] in Hp.
  rewrite Hp in Ev. symmetry in Ev.
  exact (append_nonempty_neq _ _ (Z_toString_nonempty nonce) Ev).
Qed.

Lemma toy_signature_binds (payload payload' : string) :
  Toy.verify payload' "PUB:ka" ("sig(" +:+ "ka" +:+ "," +:+ payload +:+ ")") = Returned true ->
  payload' = payload.
Proof.
  unfold Toy.verify, Toy.keyOf.
  change (String.prefix "PUB:" "PUB:ka") with true. cbv iota.
  change (String.substring 4 (String.length "PUB:ka" - 4) "PUB:ka") with "ka".
  intros H. injection H as H. apply String.eqb_eq in H.
  repeat apply string_append_cancel_l in H.
  apply string_append_cancel_r in H. congruence.
Qed.

Lemma created_transaction_is_rejected_at_sealing_witness :
  exists tx db',
    TransactionController.createTransaction utcRuntime "u1" Example.alice Example.bob 10 None
      "PRIVka" 1700000000000 123456 Example.ledger0 = Some (Created tx, db')
    /\ eligible utcRuntime (wallets db') tx = false.
Proof.
  destruct (TransactionController.createTransaction utcRuntime "u1" Example.alice Example.bob
              10 None "PRIVka" 1700000000000 123456 Example.ledger0)
    as [[[tx|s e] db']|] eqn:E;
    [| vm_compute in E; discriminate E | vm_compute in E; discriminate E].
  exists tx, db'. split; [reflexivity|].
  refine (created_transaction_is_rejected_at_sealing utcRuntime "u1" Example.alice Example.bob
            10 None "PRIVka" 1700000000000 123456 Example.ledger0 db' tx E _).
  intros source payload Hs Hv.
  pose proof (createTransaction_created_inv _ _ _ _ _ _ _ _ _ _ _ _ E) as Hinv.
  cbv zeta in Hinv.
  destruct Hinv as (sg & src & dst & -> & Hsig & _ & Hs' & _).
  rewrite Hs in Hs'. injection Hs' as <-.
  assert (Hsrc : source = Example.aliceWallet).
  { clear -Hs. unfold Example.ledger0 in Hs. cbn [wallets] in Hs.
    rewrite lookup_insert_eq in Hs. congruence. }
  subst source. cbn [Transaction.signature] in Hv.
  unfold CryptoUtils.signData in Hsig. cbn [Sign_sign utcRuntime] in Hsig.
  unfold Toy.sign in Hsig. change (String.prefix "PRIV" "PRIVka") with true in Hsig.
  cbv iota in Hsig. injection Hsig as <-.
  change (Toy.keyOf "PRIVka") with "ka" in Hv.
  exact (toy_signature_binds _ _ Hv).
Defined.

(** ** [getWalletBalance] *)

(** X18. Reading the balance of a wallet that no confirmed transaction touches
    overwrites its stored balance with 0 as soon as that balance is more than
    1e-8 away from 0: the 1000 that [createWallet] stores in a new wallet
    does not survive the first read. *)
Theorem getWalletBalance_resets_untouched_wallet (wallet : Wallet.t) (db : DB) :
  (forall tx, In tx (transactions db) -> Transaction.status tx = confirmed ->
     Transaction.fromWallet tx <> Wallet.address wallet
     /\ Transaction.toWallet tx <> Wallet.address wallet) ->
  PrimFloat.ltb 0.00000001 (PrimFloat.abs (PrimFloat.sub (Wallet.balance wallet) 0)) = true ->
  WalletController.getWalletBalance wallet db
  = Some (BalanceOk 0,
          set_wallets (fun ws => <[Wallet.address wallet := Wallet.set_balance 0 wallet]> ws) db).
Proof.
  intros Hnone Hdrift.
  assert (E : WalletController.confirmedOf (Wallet.address wallet) db = []).
  { unfold WalletController.confirmedOf.
    induction (transactions db) as [|tx txs IH]; [reflexivity|].
    cbn [List.filter].
    assert (Hin : In tx (tx :: txs)) by now left.
    rewrite IH by (intros t Ht; apply Hnone; now right).
    unfold Transaction.isConfirmed.
    destruct (Transaction.status tx) eqn:Es;
      rewrite ?andb_false_r; try reflexivity.
    destruct (Hnone tx Hin Es) as [H1 H2].
    apply String.eqb_neq in H1, H2. rewrite H1, H2. reflexivity. }
  unfold WalletController.getWalletBalance, WalletController.getWalletBalanceBody.
  unfold bind at 1, get at 1. rewrite E.
  change (WalletController.calculatedBalance (Wallet.address wallet) []) with 0%float.
  rewrite Hdrift. unfold bind, WalletModel.save, ret, modify.
  cbn [Wallet.balance Wallet.set_balance Wallet.address].
  change (PrimFloat.leb 0 0) with true. reflexivity.
Qed.

Lemma getWalletBalance_resets_untouched_wallet_witness :
  let fresh := Wallet.mk "u3" "c" "PUB:kc" "PRIVkc" 1000 in
  WalletController.getWalletBalance fresh (mkDB (<["c" := fresh]> Small.ws) [] [] 0)
  = Some (BalanceOk 0,
          set_wallets (fun ws => <["c" := Wallet.set_balance 0 fresh]> ws)
            (mkDB (<["c" := fresh]> Small.ws) [] [] 0)).
Proof.
  intros fresh.
  refine (getWalletBalance_resets_untouched_wallet fresh
            (mkDB (<["c" := fresh]> Small.ws) [] [] 0) _ _).
  - intros tx [].
  - reflexivity.
Defined.

(** X19. When the balance recomputed from the confirmed transactions is negative
    (a wallet that spent part of its initial grant and received less) and
    differs from the stored one, the write is refused by the [min: 0]
    validator: the request answers 500 and the stored balance stays. *)
Theorem getWalletBalance_negative_recomputation_fails (wallet : Wallet.t) (db : DB) :
  let calculated :=
    WalletController.calculatedBalance (Wallet.address wallet)
      (WalletController.confirmedOf (Wallet.address wallet) db) in
  PrimFloat.leb 0 calculated = false ->
  PrimFloat.ltb 0.00000001
    (PrimFloat.abs (PrimFloat.sub (Wallet.balance wallet) calculated)) = true ->
  WalletController.getWalletBalance wallet db
  = Some (BalanceError 500 "Failed to get balance", db).
Proof.
  intros calculated Hneg Hdrift.
  unfold WalletController.getWalletBalance, WalletController.getWalletBalanceBody.
  unfold bind at 1, get at 1. fold calculated. rewrite Hdrift.
  unfold bind, WalletModel.save, throw.
  cbn [Wallet.balance Wallet.set_balance]. rewrite Hneg. reflexivity.
Qed.

Lemma getWalletBalance_negative_recomputation_fails_witness :
  let spent := confirmedAs 9 Small.s1 in
  WalletController.getWalletBalance Small.walletA (mkDB Small.ws [spent] [] 5)
  = Some (BalanceError 500 "Failed to get balance", mkDB Small.ws [spent] [] 5).
Proof.
  intros spent.
  refine (getWalletBalance_negative_recomputation_fails Small.walletA
            (mkDB Small.ws [spent] [] 5) _ _); reflexivity.
Defined.

(** ** [mineBlock] and [validateBlockchain] together *)

(** The report's [isValid] and [errors] in terms of the loop, on an empty
    collection too. *)
Lemma validateBlockchain_isValid (rt : Runtime) (db : DB) :
  isValid (BlockchainController.validateBlockchain rt db)
  = Nat.eqb (length (BlockchainController.validateLoop rt db 0 None
                       (sortBy Block.index (blocks db)))) 0.
Proof.
  unfold BlockchainController.validateBlockchain. cbv zeta.
  destruct (Nat.eqb (length (sortBy Block.index (blocks db))) 0) eqn:E; [|reflexivity].
  apply length_zero_iff_nil' in E. rewrite E. reflexivity.
Qed.

Lemma validateBlockchain_errors (rt : Runtime) (db : DB) :
  validationErrors (BlockchainController.validateBlockchain rt db)
  = BlockchainController.validateLoop rt db 0 None (sortBy Block.index (blocks db)).
Proof.
  unfold BlockchainController.validateBlockchain. cbv zeta.
  destruct (Nat.eqb (length (sortBy Block.index (blocks db))) 0) eqn:E; [|reflexivity].
  apply length_zero_iff_nil' in E. rewrite E. reflexivity.
Qed.

Lemma sameSigned_refl (a : Transaction.t) : sameSigned a a.
Proof. repeat split. Qed.

Lemma mineBlock_rowsAgree (rt : Runtime) (fuel : nat) (now : Z) (env : option Z)
    (db db' : DB) (b : Block.t) (n : nat) :
  List.NoDup (map Transaction._id (transactions db)) ->
  BlockchainController.mineBlock rt fuel now env db = Some (MineOk b n, db') ->
  rowsAgree db db'.
Proof.
  intros Hnd H.
  pose proof (mineBlock_ok_run rt fuel now env db db' b n H) as Hrun.
  set (sel := List.filter (eligible rt (wallets db)) (pendingOf db)) in *.
  destruct (pendingOf_facts db Hnd) as [Hpnd Hpin].
  assert (Hselnd : List.NoDup (map Transaction._id sel)) by now apply NoDup_map_filter.
  destruct (failRejected_rows rt (wallets db) (pendingOf db) db Hpnd) as [Hfout Hfin].
  assert (Hbefore : forall id, rowOf (beforeCommit rt db b) id
                               = rowOf (failRejected rt (wallets db) (pendingOf db) db) id)
    by reflexivity.
  destruct (commitLoop_outcome (nextId db) sel (beforeCommit rt db b) Hselnd)
    as (r & dbc & Ec & _ & _ & Hkeep & Hout).
  { intros t Ht. rewrite Hbefore. apply List.filter_In in Ht as [Htp Hel].
    rewrite (Hfin t Htp), Hel, (rowOf_of_NoDup db t Hnd (Hpin t Htp)). discriminate. }
  rewrite Hrun in Ec. injection Ec as <- <-. cbn [commitOutcome] in Hout.
  destruct Hout as [Hconf _].
  intros id.
  destruct (in_dec Nat.eq_dec id (map Transaction._id sel)) as [Hin|Hnin].
  - apply in_map_iff in Hin as (tx & <- & Htx).
    rewrite (Hconf tx Htx).
    apply List.filter_In in Htx as [Htp _].
    rewrite (rowOf_of_NoDup db tx Hnd (Hpin tx Htp)). repeat split.
  - rewrite (Hkeep id Hnin), Hbefore.
    destruct (in_dec Nat.eq_dec id (map Transaction._id (pendingOf db))) as [Hp|Hnp].
    + apply in_map_iff in Hp as (tx & <- & Htx).
      rewrite (Hfin tx Htx), (rowOf_of_NoDup db tx Hnd (Hpin tx Htx)).
      destruct (eligible rt (wallets db) tx); repeat split.
    + rewrite (Hfout id Hnp). destruct (rowOf db id); [apply sameSigned_refl | exact I].
Qed.

Lemma populate_agree (db db' : DB) (ids : list nat) :
  rowsAgree db db' ->
  Forall2 sameSigned (BlockchainController.populate db ids)
                     (BlockchainController.populate db' ids).
Proof.
  intros Hr. unfold BlockchainController.populate.
  induction ids as [|id ids IH]; [constructor|].
  cbn [omap list_omap].
  change (find (fun row => Nat.eqb (Transaction._id row) id) (transactions db))
    with (rowOf db id).
  change (find (fun row => Nat.eqb (Transaction._id row) id) (transactions db'))
    with (rowOf db' id).
  specialize (Hr id). destruct (rowOf db id), (rowOf db' id); try contradiction.
  - constructor; assumption.
  - exact IH.
Qed.

Lemma sameSigned_data (rt : Runtime) (a c : Transaction.t) :
  sameSigned a c ->
  BlockchainController.transactionData rt a = BlockchainController.transactionData rt c.
Proof.
  intros (H1 & H2 & H3 & H4 & H5 & _). unfold BlockchainController.transactionData.
  now rewrite H1, H2, H3, H4, H5.
Qed.

Lemma agree_hashes (la lc : list Transaction.t) :
  Forall2 sameSigned la lc -> map Transaction.hash lc = map Transaction.hash la.
Proof.
  induction 1 as [|a c la lc Hac _ IH]; [reflexivity|].
  cbn [map]. rewrite IH. f_equal. symmetry. apply Hac.
Qed.

Lemma agree_signatureIssues (rt : Runtime) (db db' : DB) (la lc : list Transaction.t) :
  sameKeys (wallets db) (wallets db') ->
  Forall2 sameSigned la lc ->
  BlockchainController.signatureIssues rt db' lc = BlockchainController.signatureIssues rt db la.
Proof.
  intros Hs. unfold BlockchainController.signatureIssues.
  induction 1 as [|a c la lc Hac _ IH]; [reflexivity|].
  cbn [flat_map]. rewrite IH. f_equal.
  rewrite <- (sameSigned_data rt a c Hac).
  destruct Hac as (Hf & _ & _ & _ & _ & Hsg & Hhash).
  rewrite <- Hf, <- Hsg, <- Hhash.
  specialize (Hs (Transaction.fromWallet a)).
  destruct (wallets db !! Transaction.fromWallet a) as [w|],
           (wallets db' !! Transaction.fromWallet a) as [w'|]; try contradiction.
  - destruct Hs as [-> _]. reflexivity.
  - reflexivity.
Qed.

Lemma blockIssues_agree (rt : Runtime) (db db' : DB) (i : Z) (prev : option Block.t)
    (blk : Block.t) :
  rowsAgree db db' -> sameKeys (wallets db) (wallets db') ->
  BlockchainController.blockIssues rt db' i prev blk
  = BlockchainController.blockIssues rt db i prev blk.
Proof.
  intros Hr Hs. unfold BlockchainController.blockIssues. cbv zeta.
  pose proof (populate_agree db db' (Block.transactions blk) Hr) as Hp.
  rewrite (agree_hashes _ _ Hp), (agree_signatureIssues rt db db' _ _ Hs Hp). reflexivity.
Qed.

Lemma validateLoop_agree (rt : Runtime) (db db' : DB) (bs : list Block.t) (i : Z)
    (prev : option Block.t) :
  rowsAgree db db' -> sameKeys (wallets db) (wallets db') ->
  BlockchainController.validateLoop rt db' i prev bs
  = BlockchainController.validateLoop rt db i prev bs.
Proof.
  intros Hr Hs. revert i prev. induction bs as [|blk bs IH]; intros i prev; [reflexivity|].
  cbn [BlockchainController.validateLoop]. cbv zeta.
  rewrite (blockIssues_agree rt db db' i prev blk Hr Hs), IH. reflexivity.
Qed.

Lemma last_cons_default {A} (l : list A) (a d : A) : List.last (a :: l) d = List.last l a.
Proof.
  revert a d. induction l as [|b l IH]; intros a d; [reflexivity|].
  change (List.last (a :: b :: l) d) with (List.last (b :: l) d).
  rewrite (IH b d), (IH b a). reflexivity.
Qed.

Lemma validateLoop_app (rt : Runtime) (db : DB) (bs : list Block.t) (b : Block.t) (i : Z)
    (prev : option Block.t) :
  BlockchainController.validateLoop rt db i prev (bs ++ [b])
  = BlockchainController.validateLoop rt db i prev bs
    ++ BlockchainController.validateLoop rt db (i + Z.of_nat (length bs))
         (List.last (map Some bs) prev) [b].
Proof.
  revert i prev. induction bs as [|blk bs IH]; intros i prev.
  - cbn [app length map List.last]. now rewrite Z.add_0_r.
  - change ((blk :: bs) ++ [b]) with (blk :: (bs ++ [b])).
    cbn [BlockchainController.validateLoop]. cbv zeta. rewrite IH.
    rewrite <- app_assoc.
    replace (i + 1 + Z.of_nat (length bs))%Z with (i + Z.of_nat (length (blk :: bs)))%Z
      by (cbn [length]; lia).
    cbn [map]. rewrite (last_cons_default (map Some bs) (Some blk) prev). reflexivity.
Qed.

Lemma validateLoop_nil_index (rt : Runtime) (db : DB) (bs : list Block.t) (i : Z)
    (prev : option Block.t) :
  BlockchainController.validateLoop rt db i prev bs = [] ->
  forall k blk, nth_error bs k = Some blk -> Block.index blk = (i + Z.of_nat k)%Z.
Proof.
  revert i prev. induction bs as [|b bs IH]; intros i prev H k blk Hk.
  - destruct k; discriminate.
  - cbn [BlockchainController.validateLoop] in H. cbv zeta in H.
    apply app_eq_nil in H as [Hb Hrest].
    destruct k as [|k].
    + injection Hk as <-.
      destruct (BlockchainController.blockIssues rt db i prev b) eqn:E; [|discriminate].
      unfold BlockchainController.blockIssues in E. cbv zeta in E.
      apply app_eq_nil in E as [E _].
      destruct (Block.index b =? i)%Z eqn:Ei; [|discriminate].
      apply Z.eqb_eq in Ei. lia.
    + cbn [nth_error] in Hk. rewrite (IH _ _ Hrest k blk Hk). lia.
Qed.

Lemma insertBy_last {A} (key : A -> Z) (x : A) (l : list A) :
  (forall y, In y l -> (key y <= key x)%Z) -> insertBy key x l = l ++ [x].
Proof.
  induction l as [|y l IH]; intros H; [reflexivity|].
  cbn [insertBy app].
  destruct (key x <? key y)%Z eqn:E.
  - apply Z.ltb_lt in E. specialize (H y (or_introl eq_refl)). lia.
  - rewrite IH; [reflexivity|]. intros z Hz. apply H. now right.
Qed.

Lemma sortBy_snoc {A} (key : A -> Z) (x : A) (l : list A) :
  (forall y, In y l -> (key y <= key x)%Z) -> sortBy key (l ++ [x]) = sortBy key l ++ [x].
Proof.
  intros H. unfold sortBy. rewrite fold_left_app. cbn [fold_left].
  apply insertBy_last. intros y Hy. apply H.
  apply (Permutation_in _ (sortBy_Permutation key l)). exact Hy.
Qed.

(** On a chain that validates, the head that [getLatest] finds is the last
    block in index order, and its index is the length of the chain less one. *)
Lemma valid_chain_head (rt : Runtime) (db : DB) :
  BlockchainController.validateLoop rt db 0 None (sortBy Block.index (blocks db)) = [] ->
  List.last (map Some (sortBy Block.index (blocks db))) None = BlockModel.latestOf (blocks db)
  /\ match BlockModel.latestOf (blocks db) with
     | Some l => (Block.index l + 1)%Z
     | None => 0%Z
     end = Z.of_nat (length (sortBy Block.index (blocks db))).
Proof.
  intros Hv.
  pose proof (validateLoop_nil_index rt db _ 0 None Hv) as Hidx.
  pose proof (sortBy_Permutation Block.index (blocks db)) as P.
  remember (sortBy Block.index (blocks db)) as chain eqn:Hchain. clear Hchain.
  unfold BlockModel.latestOf.
  destruct (blocks db) as [|a bs] eqn:Eb.
  - apply Permutation_sym, Permutation_nil in P. subst chain. auto.
  - cbn [fold_left].
    destruct (latestOf_acc bs a) as (l & -> & Hin & Hle & Hall).
    assert (Hl : In l chain).
    { apply (Permutation_in _ (Permutation_sym P)).
      destruct Hin as [->|Hin]; [now left | now right]. }
    assert (Hmax : forall y, In y chain -> (Block.index y <= Block.index l)%Z).
    { intros y Hy. apply (Permutation_in _ P) in Hy.
      destruct Hy as [<-|Hy]; [exact Hle | now apply Hall]. }
    apply In_nth_error in Hl as [k Hk].
    pose proof (Hidx k l Hk) as Hkl.
    assert (Hklt : k < length chain) by (apply nth_error_Some; congruence).
    assert (Hlast : k = length chain - 1).
    { destruct (nth_error chain (length chain - 1)) as [z|] eqn:Ez.
      - pose proof (Hidx _ z Ez) as Hz.
        assert (Hzin : In z chain) by (eapply nth_error_In; eassumption).
        specialize (Hmax z Hzin). lia.
      - apply nth_error_None in Ez. lia. }
    split; [|lia].
    subst k. clear -Hk Hklt.
    revert Hk Hklt. generalize chain. clear chain.
    induction chain as [|c chain IH]; intros Hk Hklt; [cbn in Hklt; lia|].
    destruct chain as [|c' chain'].
    + cbn in Hk. injection Hk as ->. reflexivity.
    + cbn [map List.last]. cbn [map] in IH. apply IH.
      * cbn [length] in Hk. replace (S (S (length chain')) - 1) with (S (length chain')) in Hk by lia.
        cbn [nth_error] in Hk. cbn [length].
        replace (S (length chain') - 1) with (length chain') by lia. exact Hk.
      * cbn [length]. lia.
Qed.

Lemma latestOf_max (bs : list Block.t) :
  match BlockModel.latestOf bs with
  | None => bs = []
  | Some l => In l bs /\ forall b, In b bs -> (Block.index b <= Block.index l)%Z
  end.
Proof.
  unfold BlockModel.latestOf. destruct bs as [|a bs]; [reflexivity|].
  cbn [fold_left]. destruct (latestOf_acc bs a) as (l & -> & Hin & Hle & Hall).
  split.
  - destruct Hin as [->|Hin]; [now left | now right].
  - intros b [<-|Hb]; [exact Hle | now apply Hall].
Qed.

Lemma ids_saved (tx : Transaction.t) (db : DB) :
  map Transaction._id (transactions (saved tx db)) = map Transaction._id (transactions db).
Proof.
  unfold saved, set_transactions. cbn [transactions]. rewrite map_map.
  apply map_ext_in. intros row _.
  destruct (Nat.eqb (Transaction._id row) (Transaction._id tx)) eqn:E; [|reflexivity].
  apply Nat.eqb_eq in E. congruence.
Qed.

Lemma ids_failRejected (rt : Runtime) (ws : gmap string Wallet.t) (pend : list Transaction.t)
    (db : DB) :
  map Transaction._id (transactions (failRejected rt ws pend db))
  = map Transaction._id (transactions db).
Proof.
  unfold failRejected. revert db. induction pend as [|tx rest IH]; intros db; [reflexivity|].
  cbn [fold_left]. destruct (eligible rt ws tx); [apply IH|].
  rewrite IH. apply ids_saved.
Qed.

Lemma ids_commitLoop (bid : nat) (txs : list Transaction.t) (db db' : DB) (r : JsResult unit) :
  BlockchainController.commitLoop bid txs db = Some (r, db') ->
  map Transaction._id (transactions db') = map Transaction._id (transactions db).
Proof.
  revert db. induction txs as [|tx rest IH]; intros db H.
  - cbn in H. unfold ret in H. now injection H as <- <-.
  - rewrite commitLoop_step in H. cbv zeta in H.
    pose proof (ids_saved (confirmedAs bid tx) db) as Hs.
    destruct (debitOk (wallets db) tx); [destruct (creditOk (wallets db) tx)|].
    + apply IH in H. rewrite H. exact Hs.
    + injection H as <- <-. exact Hs.
    + injection H as <- <-. exact Hs.
Qed.

Lemma mineBlock_keeps_invariants (rt : Runtime) (fuel : nat) (now : Z) (env : option Z)
    (db db' : DB) (b : Block.t) (n : nat) :
  List.NoDup (map Transaction._id (transactions db)) ->
  keyed (wallets db) ->
  BlockchainController.mineBlock rt fuel now env db = Some (MineOk b n, db') ->
  List.NoDup (map Transaction._id (transactions db')) /\ keyed (wallets db')
  /\ sameKeys (wallets db) (wallets db').
Proof.
  intros Hnd Hk H.
  pose proof (mineBlock_ok_run rt fuel now env db db' b n H) as Hrun.
  pose proof (mineBlock_ok_inv rt fuel now env db db' b n H) as Hinv. cbv zeta in Hinv.
  destruct Hinv as (_ & _ & hash & nonce & _ & _ & _ & Hws & _).
  assert (Hsame : sameKeys (wallets db) (wallets db'))
    by (rewrite Hws; now apply fold_settle_sameKeys).
  split; [|split; [eapply sameKeys_keyed; eassumption | exact Hsame]].
  apply ids_commitLoop in Hrun. rewrite Hrun.
  unfold beforeCommit. cbn [transactions]. now rewrite ids_failRejected.
Qed.

Lemma mineBlock_keeps_chain_valid (rt : Runtime) (fuel : nat) (now : Z) (env : option Z)
    (db db' : DB) (b : Block.t) (n : nat) :
  List.NoDup (map Transaction._id (transactions db)) ->
  keyed (wallets db) ->
  BlockchainController.validateLoop rt db 0 None (sortBy Block.index (blocks db)) = [] ->
  BlockchainController.mineBlock rt fuel now env db = Some (MineOk b n, db') ->
  BlockchainController.validateLoop rt db' 0 None (sortBy Block.index (blocks db')) = [].
Proof.
  intros Hnd Hk Hv H.
  pose proof (mined_block_issues_nil rt fuel now env db db' b n Hnd Hk H) as Hb.
  pose proof (mineBlock_rowsAgree rt fuel now env db db' b n Hnd H) as Hr.
  destruct (mineBlock_keeps_invariants rt fuel now env db db' b n Hnd Hk H) as (_ & _ & Hs).
  pose proof (mineBlock_ok_inv rt fuel now env db db' b n H) as Hinv. cbv zeta in Hinv.
  destruct Hinv as (_ & _ & hash & nonce & _ & Hblk & Hbs & _).
  destruct (valid_chain_head rt db Hv) as [Hlast Hlen].
  assert (Hidx : Block.index b = Z.of_nat (length (sortBy Block.index (blocks db)))).
  { rewrite <- Hlen, Hblk. reflexivity. }
  rewrite Hbs, sortBy_snoc.
  - rewrite validateLoop_app, (validateLoop_agree rt db db' _ 0 None Hr Hs), Hv.
    cbn [app BlockchainController.validateLoop]. cbv zeta.
    rewrite Z.add_0_l, <- Hidx, Hlast, Hb. reflexivity.
  - intros y Hy. pose proof (latestOf_max (blocks db)) as Hm.
    rewrite Hblk. cbn [Block.index].
    destruct (BlockModel.latestOf (blocks db)) as [l|].
    + destruct Hm as [_ Hm]. specialize (Hm y Hy). lia.
    + rewrite Hm in Hy. destruct Hy.
Qed.

(** The checks of [validateBlockchain] other than the index check do not
    depend on the position at which a block is examined. *)
Lemma blockIssues_elsewhere (rt : Runtime) (db : DB) (i : Z) (prev : option Block.t)
    (b : Block.t) :
  BlockchainController.blockIssues rt db (Block.index b) prev b = [] ->
  BlockchainController.blockIssues rt db i prev b
  = if (Block.index b =? i)%Z then [] else [InvalidBlockIndex i (Block.index b)].
Proof.
  unfold BlockchainController.blockIssues. cbv zeta. rewrite Z.eqb_refl.
  cbn [app]. intros H. rewrite H. apply app_nil_r.
Qed.

Lemma NoDup_map_inj_on {A B} (f : A -> B) (l : list A) (x y : A) :
  List.NoDup (map f l) -> In x l -> In y l -> f x = f y -> x = y.
Proof.
  induction l as [|a l IH]; intros Hnd Hx Hy E; [destruct Hx|].
  cbn [map] in Hnd. apply List.NoDup_cons_iff in Hnd as [Hna Hnd].
  destruct Hx as [->|Hx], Hy as [->|Hy].
  - reflexivity.
  - exfalso. apply Hna. rewrite E. now apply in_map.
  - exfalso. apply Hna. rewrite <- E. now apply in_map.
  - now apply IH.
Qed.

Lemma sorted_last_max {A} (key : A -> Z) (l : list A) :
  StronglySorted (keyLe key) l ->
  l <> [] ->
  forall d, exists z, List.last (map Some l) d = Some z /\ In z l
                      /\ forall y, In y l -> (key y <= key z)%Z.
Proof.
  induction l as [|a l IH]; intros Hs Hne d; [congruence|].
  apply StronglySorted_inv in Hs as [Hs Ha].
  destruct l as [|a' l'].
  - exists a. cbn. split; [reflexivity|]. split; [now left|].
    intros y [<-|[]]. lia.
  - destruct (IH Hs ltac:(discriminate) (Some a)) as (z & Hz & Hin & Hmax).
    exists z. split; [|split].
    + cbn [map]. rewrite (last_cons_default _ (Some a) d). exact Hz.
    + now right.
    + intros y [<-|Hy]; [|now apply Hmax].
      rewrite List.Forall_forall in Ha. exact (Ha z Hin).
Qed.

(** With distinct block indexes, the head that [getLatest] finds is the last
    block in index order. *)
Lemma sorted_chain_head (bs : list Block.t) :
  List.NoDup (map Block.index bs) ->
  List.last (map Some (sortBy Block.index bs)) None = BlockModel.latestOf bs.
Proof.
  intros Hnd.
  pose proof (latestOf_max bs) as Hm.
  pose proof (sortBy_Permutation Block.index bs) as P.
  destruct (BlockModel.latestOf bs) as [l|].
  - destruct Hm as [Hl Hmax].
    assert (Hne : sortBy Block.index bs <> []).
    { intros E. rewrite E in P. apply Permutation_nil in P. rewrite P in Hl. destruct Hl. }
    destruct (sorted_last_max Block.index _ (sortBy_sorted Block.index bs) Hne None)
      as (z & -> & Hz & Hzmax).
    f_equal.
    apply (NoDup_map_inj_on Block.index bs z l Hnd).
    + exact (Permutation_in _ P Hz).
    + exact Hl.
    + pose proof (Hmax z (Permutation_in _ P Hz)).
      pose proof (Hzmax l (Permutation_in _ (Permutation_sym P) Hl)). lia.
  - rewrite Hm. reflexivity.
Qed.

(** X11. What [validateBlockchain] says of a block that [mineBlock] has just
    sealed, on the database [mineBlock] left: after the entries of the older
    blocks there is at most one entry for the new block. Its link to the
    previous block, its hash, its Merkle root and the signatures of its
    transactions always pass; the only error it can carry is the index
    mismatch, raised exactly when its index is not its position, the number
    of blocks stored before. *)
Theorem mined_block_passes_validation
    (rt : Runtime) (fuel : nat) (now : Z) (env : option Z) (db db' : DB)
    (b : Block.t) (n : nat) :
  List.NoDup (map Transaction._id (transactions db)) ->
  keyed (wallets db) ->
  List.NoDup (map Block.index (blocks db)) ->
  BlockchainController.mineBlock rt fuel now env db = Some (MineOk b n, db') ->
  let position := Z.of_nat (length (blocks db)) in
  validationErrors (BlockchainController.validateBlockchain rt db')
  = BlockchainController.validateLoop rt db' 0 None (sortBy Block.index (blocks db))
    ++ (if (Block.index b =? position)%Z then []
        else [mkBlockErrors (Block.index b) (Block.hash b)
                [InvalidBlockIndex position (Block.index b)]]).
Proof.
  intros Hnd Hk Hidx H position.
  pose proof (mined_block_issues_nil rt fuel now env db db' b n Hnd Hk H) as Hb.
  pose proof (mineBlock_ok_inv rt fuel now env db db' b n H) as Hinv. cbv zeta in Hinv.
  destruct Hinv as (_ & _ & hash & nonce & _ & Hblk & Hbs & _).
  rewrite validateBlockchain_errors, Hbs, sortBy_snoc.
  - rewrite validateLoop_app. apply (f_equal (app _)).
    cbn [BlockchainController.validateLoop]. cbv zeta. rewrite app_nil_r, Z.add_0_l.
    rewrite (Permutation_length (sortBy_Permutation Block.index (blocks db))).
    fold position.
    rewrite (sorted_chain_head (blocks db) Hidx).
    rewrite (blockIssues_elsewhere rt db' position _ b Hb).
    destruct (Block.index b =? position)%Z; reflexivity.
  - intros y Hy. pose proof (latestOf_max (blocks db)) as Hm.
    rewrite Hblk. cbn [Block.index].
    destruct (BlockModel.latestOf (blocks db)) as [l|].
    + destruct Hm as [_ Hm]. specialize (Hm y Hy). lia.
    + rewrite Hm in Hy. destruct Hy.
Qed.

Lemma mined_block_passes_validation_witness :
  exists b db',
    BlockchainController.mineBlock utcRuntime 100 1700000005000 (Some 1%Z) Small.db
      = Some (MineOk b 1, db')
    /\ validationErrors (BlockchainController.validateBlockchain utcRuntime db')
       = BlockchainController.validateLoop utcRuntime db' 0 None
           (sortBy Block.index (blocks Small.db))
         ++ (if (Block.index b =? Z.of_nat (length (blocks Small.db)))%Z then []
             else [mkBlockErrors (Block.index b) (Block.hash b)
                     [InvalidBlockIndex (Z.of_nat (length (blocks Small.db)))
                        (Block.index b)]]).
Proof.
  destruct small_mined as (b & db' & E). exists b, db'. split; [exact E|].
  exact (mined_block_passes_validation utcRuntime _ _ _ Small.db db' b 1
           small_ids small_keyed (List.NoDup_nil _) E).
Defined.

(** X20. Validity is kept by sealing: if [validateBlockchain] finds the chain
    valid and [mineBlock] then answers success, [validateBlockchain] finds
    the longer chain valid too. *)
Theorem mineBlock_preserves_validity
    (rt : Runtime) (fuel : nat) (now : Z) (env : option Z) (db db' : DB)
    (b : Block.t) (n : nat) :
  List.NoDup (map Transaction._id (transactions db)) ->
  keyed (wallets db) ->
  isValid (BlockchainController.validateBlockchain rt db) = true ->
  BlockchainController.mineBlock rt fuel now env db = Some (MineOk b n, db') ->
  isValid (BlockchainController.validateBlockchain rt db') = true.
Proof.
  intros Hnd Hk Hv H. rewrite validateBlockchain_isValid in Hv.
  rewrite validateBlockchain_isValid.
  apply length_zero_iff_nil' in Hv. apply length_zero_iff_nil'.
  exact (mineBlock_keeps_chain_valid rt fuel now env db db' b n Hnd Hk Hv H).
Qed.



Lemma mineBlock_preserves_validity_witness :
  exists b db',
    BlockchainController.mineBlock utcRuntime 100 1700000005000 (Some 1%Z) Small.db
      = Some (MineOk b 1, db')
    /\ isValid (BlockchainController.validateBlockchain utcRuntime db') = true.
Proof.
  destruct small_mined as (b & db' & E). exists b, db'. split; [exact E|].
  exact (mineBlock_preserves_validity utcRuntime _ _ _ Small.db db' b 1
           small_ids small_keyed eq_refl E).
Defined.

(** ** What [validateBlockchain] catches *)

Lemma validateLoop_reports (rt : Runtime) (db : DB) (bs : list Block.t) (blk : Block.t)
    (issue : ValidationIssue) :
  In blk bs ->
  (forall i prev, In issue (BlockchainController.blockIssues rt db i prev blk)) ->
  forall i prev,
    exists e, In e (BlockchainController.validateLoop rt db i prev bs)
              /\ blockIndex e = Block.index blk /\ blockHash e = Block.hash blk
              /\ In issue (errors e).
Proof.
  intros Hin Hissue. induction bs as [|b bs IH]; [destruct Hin|].
  intros i prev. cbn [BlockchainController.validateLoop]. cbv zeta.
  destruct Hin as [->|Hin].
  - specialize (Hissue i prev).
    destruct (BlockchainController.blockIssues rt db i prev blk) as [|x xs] eqn:E;
      [destruct Hissue|].
    eexists. split; [left; reflexivity|]. cbn. auto.
  - destruct (IH Hin (i + 1)%Z (Some b)) as (e & He & Hrest).
    exists e. split; [apply in_or_app; now right | exact Hrest].
Qed.

(** X22. A stored block whose hash is not the digest of its header, or whose
    Merkle root is not the root of the hashes of its stored transactions,
    makes the report invalid, with an entry for that block that names the
    mismatch and shows the recomputed and the stored value. *)
Theorem validateBlockchain_detects_tampering (rt : Runtime) (db : DB) (blk : Block.t) :
  In blk (blocks db) ->
  let calculatedHash :=
    CryptoUtils.calculateBlockHash rt (Block.index blk) (Block.previousHash blk)
      (Block.timestamp blk) (Block.merkleRoot blk) (Block.nonce blk) in
  let calculatedMerkleRoot :=
    CryptoUtils.calculateMerkleRoot
      (map Transaction.hash (BlockchainController.populate db (Block.transactions blk))) in
  forall issue,
    (Block.hash blk <> calculatedHash
     /\ issue = InvalidBlockHash calculatedHash (Block.hash blk))
    \/ (Block.merkleRoot blk <> calculatedMerkleRoot
        /\ issue = InvalidMerkleRoot calculatedMerkleRoot (Block.merkleRoot blk)) ->
    isValid (BlockchainController.validateBlockchain rt db) = false
    /\ exists e, In e (validationErrors (BlockchainController.validateBlockchain rt db))
                 /\ blockIndex e = Block.index blk /\ blockHash e = Block.hash blk
                 /\ In issue (errors e).
Proof.
  intros Hin calculatedHash calculatedMerkleRoot issue Hbad.
  assert (Hchain : In blk (sortBy Block.index (blocks db))).
  { apply (Permutation_in _ (Permutation_sym (sortBy_Permutation Block.index (blocks db)))).
    exact Hin. }
  assert (Hissue : forall i prev, In issue (BlockchainController.blockIssues rt db i prev blk)).
  { intros i prev. unfold BlockchainController.blockIssues. cbv zeta.
    fold calculatedHash. fold calculatedMerkleRoot.
    apply in_or_app. right. apply in_or_app. right.
    destruct Hbad as [[Hne ->]|[Hne ->]].
    - apply in_or_app. left.
      destruct (String.eqb (Block.hash blk) calculatedHash) eqn:E;
        [apply String.eqb_eq in E; contradiction | now left].
    - apply in_or_app. right. apply in_or_app. left.
      destruct (String.eqb (Block.merkleRoot blk) calculatedMerkleRoot) eqn:E;
        [apply String.eqb_eq in E; contradiction | now left]. }
  destruct (validateLoop_reports rt db _ blk issue Hchain Hissue 0%Z None)
    as (e & He & Hrest).
  rewrite validateBlockchain_isValid, validateBlockchain_errors.
  split; [|exists e; split; [exact He | exact Hrest]].
  destruct (BlockchainController.validateLoop rt db 0 None (sortBy Block.index (blocks db)));
    [destruct He | reflexivity].
Qed.

Lemma validateBlockchain_detects_tampering_witness :
  let g := BlockchainController.genesisBlock 5 in
  let db := mkDB Small.ws [] [g] 6 in
  let issue :=
    InvalidBlockHash
      (CryptoUtils.calculateBlockHash utcRuntime (Block.index g) (Block.previousHash g)
         (Block.timestamp g) (Block.merkleRoot g) (Block.nonce g)) (Block.hash g) in
  isValid (BlockchainController.validateBlockchain utcRuntime db) = false
  /\ exists e, In e (validationErrors (BlockchainController.validateBlockchain utcRuntime db))
               /\ blockIndex e = Block.index g /\ blockHash e = Block.hash g
               /\ In issue (errors e).
Proof.
  intros g db issue.
  refine (validateBlockchain_detects_tampering utcRuntime db g _ issue _).
  - now left.
  - left. split; [|reflexivity]. vm_compute. discriminate.
Defined.

(** ** The shape of a validation report *)

Lemma validateLoop_shape (rt : Runtime) (db : DB) (bs : list Block.t) (i : Z)
    (prev : option Block.t) :
  length (BlockchainController.validateLoop rt db i prev bs) <= length bs
  /\ Forall (fun e => errors e <> [] /\ exists blk, In blk bs
                                        /\ blockIndex e = Block.index blk
                                        /\ blockHash e = Block.hash blk)
       (BlockchainController.validateLoop rt db i prev bs).
Proof.
  revert i prev. induction bs as [|b bs IH]; intros i prev.
  - cbn. split; [lia | constructor].
  - cbn [BlockchainController.validateLoop]. cbv zeta.
    destruct (IH (i + 1)%Z (Some b)) as [Hlen Hall].
    assert (Hall' : Forall (fun e => errors e <> [] /\ exists blk, In blk (b :: bs)
                                        /\ blockIndex e = Block.index blk
                                        /\ blockHash e = Block.hash blk)
                      (BlockchainController.validateLoop rt db (i + 1) (Some b) bs)).
    { eapply List.Forall_impl; [|exact Hall].
      intros e (He & blk & Hin & H1 & H2). split; [exact He|].
      exists blk. split; [now right | auto]. }
    destruct (BlockchainController.blockIssues rt db i prev b) as [|x xs].
    + cbn [app length]. split; [lia | exact Hall'].
    + cbn [app length]. split; [lia|].
      constructor; [|exact Hall'].
      cbn. split; [discriminate|]. exists b. split; [now left | auto].
Qed.

(** X24. The report of [validateBlockchain] is consistent. On an empty block
    collection it is the fixed answer without counts. Otherwise [totalBlocks]
    counts the stored blocks, [validatedBlocks] plus the number of error
    entries is [totalBlocks], and the message follows [isValid]. In both
    cases [isValid] holds exactly when there is no entry, and every entry
    belongs to a stored block and lists at least one error. *)
Theorem validateBlockchain_report_is_consistent (rt : Runtime) (db : DB) :
  let report := BlockchainController.validateBlockchain rt db in
  match blocks db with
  | [] => report = mkReport true None None [] "No blocks to validate"
  | _ :: _ =>
      totalBlocks report = Some (length (blocks db))
      /\ (exists v, validatedBlocks report = Some v
                    /\ v + length (validationErrors report) = length (blocks db))
      /\ message report = (if isValid report then "Blockchain is valid"
                           else "Blockchain has validation errors")
  end
  /\ (isValid report = true <-> validationErrors report = [])
  /\ Forall (fun e => errors e <> []
                      /\ exists blk, In blk (blocks db)
                                     /\ blockIndex e = Block.index blk
                                     /\ blockHash e = Block.hash blk)
       (validationErrors report).
Proof.
  intros report.
  pose proof (sortBy_Permutation Block.index (blocks db)) as P.
  destruct (validateLoop_shape rt db (sortBy Block.index (blocks db)) 0 None) as [Hlen Hall].
  split; [|split].
  - subst report. unfold BlockchainController.validateBlockchain. cbv zeta.
    rewrite (Permutation_length P) in *.
    destruct (blocks db) as [|b0 bs0] eqn:Eb; [reflexivity|].
    cbn [length Nat.eqb totalBlocks validatedBlocks validationErrors isValid message].
    split; [reflexivity|]. split; [|reflexivity].
    eexists. split; [reflexivity|]. cbn [length] in Hlen. lia.
  - subst report. rewrite validateBlockchain_isValid, validateBlockchain_errors.
    apply length_zero_iff_nil'.
  - subst report. rewrite validateBlockchain_errors.
    eapply List.Forall_impl; [|exact Hall].
    intros e (He & blk & Hin & H1 & H2). split; [exact He|].
    exists blk. split; [apply (Permutation_in _ P), Hin | auto].
Qed.

(** X25. [validateBlockchain] checks a signature only when the sender's wallet is
    stored: transactions whose sender wallet is missing raise no signature
    error, whatever their signature. *)
Theorem signatureIssues_skips_missing_sender
    (rt : Runtime) (db : DB) (txs : list Transaction.t) :
  (forall tx, In tx txs -> wallets db !! Transaction.fromWallet tx = None) ->
  BlockchainController.signatureIssues rt db txs = [].
Proof.
  unfold BlockchainController.signatureIssues.
  induction txs as [|tx txs IH]; intros H; [reflexivity|].
  cbn [flat_map]. rewrite (H tx) by now left.
  cbn [app]. apply IH. intros t Ht. apply H. now right.
Qed.

Lemma signatureIssues_skips_missing_sender_witness :
  let forged := Transaction.mk 1 "u9" "z" "b" 10 1 "not a signature" 0 confirmed (Some 3) "h" in
  BlockchainController.signatureIssues utcRuntime Small.db [forged] = [].
Proof.
  intros forged.
  refine (signatureIssues_skips_missing_sender utcRuntime Small.db [forged] _).
  intros tx [<-|[]]. reflexivity.
Defined.
